(** * The HTC-Grid worker agent: task lifecycle

    A shallow embedding of [compute_plane/python/agent/agent.py].

    The agent is sequential Python that talks to a queue, a status table, an
    artifact store and a remote function runtime.  Its functions are embedded
    as computations in a state-and-exception monad over a [State] that holds
    the module's globals and the environment, and every call that leaves the
    process is recorded, with what it returned, in a [trace].  Loops that the
    source writes as [while True] take a fuel argument. *)

From Stdlib Require Import ZArith QArith Qround List String Ascii Bool Lia Lqa.
Import ListNotations.

Open Scope string_scope.
Open Scope list_scope.
Open Scope Z_scope.

(** ** Numbers and strings as the Python runtime has them *)

Definition Qlt_bool (x y : Q) : bool := negb (Qle_bool y x).

(** [round] on a number: to the nearest integer, ties to the even one. *)
Definition py_round (x : Q) : Z :=
  let f := Qfloor x in
  let d := (x - inject_Z f)%Q in
  if Qlt_bool d (1 # 2) then f
  else if Qlt_bool (1 # 2) d then f + 1
  else if Z.even f then f else f + 1.

(** [needle in hay] on strings. *)
Fixpoint contains (needle hay : string) : bool :=
  match hay with
  | EmptyString => prefix needle EmptyString
  | String _ rest => prefix needle hay || contains needle rest
  end.

(** [hay.startswith(p)]. *)
Definition startswith (hay p : string) : bool := prefix p hay.

Definition b64_alphabet : string :=
  "ABCDEFGHIJKLMNOPQRSTUVWXYZabcdefghijklmnopqrstuvwxyz0123456789+/".

Definition b64_char (n : N) : ascii :=
  match String.get (N.to_nat n) b64_alphabet with
  | Some c => c
  | None => "="%char
  end.

Fixpoint b64_groups (l : list N) : string :=
  match l with
  | [] => EmptyString
  | [a] =>
      let n := (a * 16)%N in
      String (b64_char (n / 64)) (String (b64_char (n mod 64)) "==")
  | [a; b] =>
      let n := ((a * 256 + b) * 4)%N in
      String (b64_char (n / 4096))
        (String (b64_char ((n / 64) mod 64)) (String (b64_char (n mod 64)) "="))
  | a :: b :: c :: rest =>
      let n := (a * 65536 + b * 256 + c)%N in
      String (b64_char (n / 262144))
        (String (b64_char ((n / 4096) mod 64))
           (String (b64_char ((n / 64) mod 64))
              (String (b64_char (n mod 64)) (b64_groups rest))))
  end.

(** [base64.b64encode(s.encode("utf-8"))]; a [string] is its UTF-8 bytes. *)
Definition b64encode (s : string) : string :=
  b64_groups (map N_of_ascii (list_ascii_of_string s)).

(** ** Python values, dictionaries and exceptions *)

#[warnings="-register-all"]
Inductive pyval : Type :=
| PNone
| PBool (b : bool)
| PInt (z : Z)
| PStr (s : string)
| PList (l : list pyval)
| PDict (d : list (string * pyval)).

Definition dict := list (string * pyval).

Fixpoint dict_get (k : string) (d : dict) : option pyval :=
  match d with
  | [] => None
  | (k', v) :: rest => if String.eqb k k' then Some v else dict_get k rest
  end.

(** [d[k] = v]: overwrite in place, or append a new key. *)
Fixpoint dict_set (k : string) (v : pyval) (d : dict) : dict :=
  match d with
  | [] => [(k, v)]
  | (k', v') :: rest =>
      if String.eqb k k' then (k, v) :: rest else (k', v') :: dict_set k v rest
  end.

Inductive exn : Type :=
| KeyError (key : string)
| TypeError
| IndexError
| AttributeError (attr : string)
| ClientError (code : string)
| OtherError (what : string).

(** ** Data model *)

(** The task: the JSON-decoded body of a queue message. *)
Record Task := mkTask {
  task_id : string;
  task_definition : pyval;
  sqs_handle_id : option string;
  stats : pyval
}.

Record Message := mkMessage {
  body : Task;
  receipt_handle : string
}.

(** A row of the status table. *)
Record Row := mkRow {
  task_status : string;
  task_owner : string;
  heartbeat_expiration_timestamp : Q;
  retries : Z;
  task_completion_timestamp : Z
}.

(** What the [ddb] helpers hand back as [(result, response, error)]: the
    write was applied, or it was refused with [error.response['Error']['Code']]. *)
Inductive ddb_result : Type :=
| Accepted
| Rejected (code : string).

Definition succeeded (r : ddb_result) : bool :=
  match r with Accepted => true | Rejected _ => false end.

(** The response of [lambda_client.invoke], after the two decodings the
    source applies to it (either may raise). *)
Record LambdaResponse := mkLambdaResponse {
  LogResult : exn + string;
  Payload : exn + string
}.

(** One remote invocation: how many more times the lease renewer wakes up
    before the response is delivered, and the response (or what was raised). *)
Record Invocation := mkInvocation {
  renewer_wakeups : nat;
  outcome : exn + LambdaResponse
}.

(** What the environment may do to a status-table call instead of serving it. *)
Inductive Fault : Type :=
| Reject (code : string)
| Throw (e : exn)
| Answer (resp : option (list Row)).

Inductive Event : Type :=
| EvReceive (got : list Message)
| EvChangeVisibility (handle : string) (timeout_sec : Q)
| EvDelete (handle : string)
| EvCounterPre (name : string) (v : Z)
| EvCounterPost (name : string) (v : Z)
| EvCounterPostSet (name : string) (v : string)
| EvClaim (tid owner : string) (ttl : Q) (r : ddb_result)
| EvReadRow (tid : string) (resp : option (list Row))
| EvFinished (tid owner : string) (r : ddb_result)
| EvUpdateTTL (tid owner : string) (ttl : Q) (r : ddb_result)
| EvSleep (sec : Q)
| EvGetInput (tid : string)
| EvPutBytes (tid : string) (data : string)
| EvPutFile (tid : string) (file_name : option string)
| EvMetricSample (tracker : string) (st : pyval) (from_event to_event : string)
| EvSubmitMeasurements (tracker : string)
| EvOpen (file_name : string)
| EvClose (file_name : string)
| EvPopen (command : list pyval)
| EvInvoke (function_name : string) (payload : pyval)
| EvPost (url : string).

(** The values read from [agent_config_data] and from the process
    environment when the module is loaded. *)
Record Config := mkConfig {
  empty_task_queue_backoff_timeout_sec : Q;
  work_proc_status_pull_interval_sec : Q;
  task_ttl_expiration_offset_sec : Q;
  task_ttl_refresh_interval_sec : Q;
  task_input_passed_via_external_storage : Z;
  agent_sqs_visibility_timeout_sec : Q;
  USE_CC : bool;
  IS_XRAY_ENABLE : string;
  SELF_ID : string;
  LAMBDA_ENDPOINT_URL : string;
  LAMBDA_FONCTION_NAME : string
}.

(** What the environment will answer, fixed for a run: the [n]-th reading of
    the wall clock (seconds), the [n]-th random draw, the fault (if any) of
    the [n]-th status-table call, the decoded input kept in the artifact
    store for a task, the [n]-th remote invocation, the [n]-th poll of a child
    process, the status of the final stop request, and after how many
    recorded events SIGTERM arrives. *)
Record Script := mkScript {
  clock : nat -> Q;
  rand : nat -> Z;
  store_faults : nat -> option Fault;
  inputs : string -> exn + pyval;
  invocations : nat -> Invocation;
  proc_polls : nat -> option Z;
  stop_response : exn + Z;
  sigterm_at : option nat
}.

Record State := mkState {
  script : Script;
  AGENT_EXEC_TIMESTAMP_MS : Z;
  execution_is_completed_flag : Z;
  next_refresh_timestamp : Q;
  next_expiration_timestamp : Q;
  ticks : nat;
  draws : nat;
  queue : list Message;
  status_table : list (string * Row);
  store_calls : nat;
  invoke_calls : nat;
  polls : nat;
  files : list (string * string);
  trace : list Event
}.

Definition set_AGENT_EXEC_TIMESTAMP_MS (v : Z) (s : State) : State :=
  mkState (script s) v (execution_is_completed_flag s) (next_refresh_timestamp s) (next_expiration_timestamp s) (ticks s) (draws s) (queue s) (status_table s) (store_calls s) (invoke_calls s) (polls s) (files s) (trace s).

Definition set_execution_is_completed_flag (v : Z) (s : State) : State :=
  mkState (script s) (AGENT_EXEC_TIMESTAMP_MS s) v (next_refresh_timestamp s) (next_expiration_timestamp s) (ticks s) (draws s) (queue s) (status_table s) (store_calls s) (invoke_calls s) (polls s) (files s) (trace s).

Definition set_next_refresh_timestamp (v : Q) (s : State) : State :=
  mkState (script s) (AGENT_EXEC_TIMESTAMP_MS s) (execution_is_completed_flag s) v (next_expiration_timestamp s) (ticks s) (draws s) (queue s) (status_table s) (store_calls s) (invoke_calls s) (polls s) (files s) (trace s).

Definition set_next_expiration_timestamp (v : Q) (s : State) : State :=
  mkState (script s) (AGENT_EXEC_TIMESTAMP_MS s) (execution_is_completed_flag s) (next_refresh_timestamp s) v (ticks s) (draws s) (queue s) (status_table s) (store_calls s) (invoke_calls s) (polls s) (files s) (trace s).

Definition set_ticks (v : nat) (s : State) : State :=
  mkState (script s) (AGENT_EXEC_TIMESTAMP_MS s) (execution_is_completed_flag s) (next_refresh_timestamp s) (next_expiration_timestamp s) v (draws s) (queue s) (status_table s) (store_calls s) (invoke_calls s) (polls s) (files s) (trace s).

Definition set_draws (v : nat) (s : State) : State :=
  mkState (script s) (AGENT_EXEC_TIMESTAMP_MS s) (execution_is_completed_flag s) (next_refresh_timestamp s) (next_expiration_timestamp s) (ticks s) v (queue s) (status_table s) (store_calls s) (invoke_calls s) (polls s) (files s) (trace s).

Definition set_queue (v : list Message) (s : State) : State :=
  mkState (script s) (AGENT_EXEC_TIMESTAMP_MS s) (execution_is_completed_flag s) (next_refresh_timestamp s) (next_expiration_timestamp s) (ticks s) (draws s) v (status_table s) (store_calls s) (invoke_calls s) (polls s) (files s) (trace s).

Definition set_status_table (v : list (string * Row)) (s : State) : State :=
  mkState (script s) (AGENT_EXEC_TIMESTAMP_MS s) (execution_is_completed_flag s) (next_refresh_timestamp s) (next_expiration_timestamp s) (ticks s) (draws s) (queue s) v (store_calls s) (invoke_calls s) (polls s) (files s) (trace s).

Definition set_store_calls (v : nat) (s : State) : State :=
  mkState (script s) (AGENT_EXEC_TIMESTAMP_MS s) (execution_is_completed_flag s) (next_refresh_timestamp s) (next_expiration_timestamp s) (ticks s) (draws s) (queue s) (status_table s) v (invoke_calls s) (polls s) (files s) (trace s).

Definition set_invoke_calls (v : nat) (s : State) : State :=
  mkState (script s) (AGENT_EXEC_TIMESTAMP_MS s) (execution_is_completed_flag s) (next_refresh_timestamp s) (next_expiration_timestamp s) (ticks s) (draws s) (queue s) (status_table s) (store_calls s) v (polls s) (files s) (trace s).

Definition set_polls (v : nat) (s : State) : State :=
  mkState (script s) (AGENT_EXEC_TIMESTAMP_MS s) (execution_is_completed_flag s) (next_refresh_timestamp s) (next_expiration_timestamp s) (ticks s) (draws s) (queue s) (status_table s) (store_calls s) (invoke_calls s) v (files s) (trace s).

Definition set_files (v : list (string * string)) (s : State) : State :=
  mkState (script s) (AGENT_EXEC_TIMESTAMP_MS s) (execution_is_completed_flag s) (next_refresh_timestamp s) (next_expiration_timestamp s) (ticks s) (draws s) (queue s) (status_table s) (store_calls s) (invoke_calls s) (polls s) v (trace s).

Definition set_trace (v : list Event) (s : State) : State :=
  mkState (script s) (AGENT_EXEC_TIMESTAMP_MS s) (execution_is_completed_flag s) (next_refresh_timestamp s) (next_expiration_timestamp s) (ticks s) (draws s) (queue s) (status_table s) (store_calls s) (invoke_calls s) (polls s) (files s) v.


(** ** The monad: state, exceptions, and fuel for unbounded loops *)

Inductive result (A : Type) : Type :=
| Ok (a : A)
| Raise (e : exn)
| OutOfFuel.

Arguments Ok {A} a.
Arguments Raise {A} e.
Arguments OutOfFuel {A}.

Definition M (A : Type) : Type := State -> result A * State.

Definition ret {A : Type} (a : A) : M A := fun s => (Ok a, s).

Definition bind {A B : Type} (m : M A) (f : A -> M B) : M B :=
  fun s =>
    match m s with
    | (Ok a, s') => f a s'
    | (Raise e, s') => (Raise e, s')
    | (OutOfFuel, s') => (OutOfFuel, s')
    end.

Definition raise {A : Type} (e : exn) : M A := fun s => (Raise e, s).

Definition out_of_fuel {A : Type} : M A := fun s => (OutOfFuel, s).

Definition gets {A : Type} (f : State -> A) : M A := fun s => (Ok (f s), s).

Definition modify (f : State -> State) : M unit := fun s => (Ok tt, f s).

Definition lift {A : Type} (x : exn + A) : M A :=
  match x with
  | inl e => raise e
  | inr a => ret a
  end.

(** [try: m except Exception as e: h e]. *)
Definition try_except {A : Type} (m : M A) (h : exn -> M A) : M A :=
  fun s =>
    match m s with
    | (Raise e, s') => h e s'
    | other => other
    end.

Declare Scope agent_scope.
Delimit Scope agent_scope with agent.
Notation "x <- m ;; k" := (bind m (fun x => k))
  (at level 61, m at next level, right associativity) : agent_scope.
Notation "m ;; k" := (bind m (fun _ => k))
  (at level 61, right associativity) : agent_scope.
Open Scope agent_scope.

(** ** GracefulKiller and the arrival of SIGTERM *)

(** [GracefulKiller.kill_now] is [False] until [exit_gracefully] has run, and
    the handler runs when SIGTERM arrives, wherever the agent is at that
    moment: the script places the arrival after a number of recorded events. *)
Definition kill_now (s : State) : bool :=
  match sigterm_at (script s) with
  | Some n => Nat.leb n (List.length (trace s))
  | None => false
  end.

Definition emit (e : Event) : M unit :=
  modify (fun s => set_trace (trace s ++ [e]) s).

(** ** The environment's operations *)

(** [time.time()]. *)
Definition time_time : M Q :=
  fun s => (Ok (clock (script s) (ticks s)), set_ticks (S (ticks s)) s).

Definition draw : M Z :=
  fun s => (Ok (rand (script s) (draws s)), set_draws (S (draws s)) s).

(** [random.randint(a, b)]: an integer between [a] and [b], both included. *)
Definition randint (a b : Z) : M Z :=
  r <- draw ;; ret (a + r mod (b - a + 1)).

(** [random.uniform(a, b)]. *)
Definition uniform (a b : Q) : M Q :=
  r <- draw ;;
  ret (a + (b - a) * ((r mod 9007199254740992) # 9007199254740992))%Q.

(** [time.sleep] and [asyncio.sleep]. *)
Definition sleep (sec : Q) : M unit := emit (EvSleep sec).

(** [tasks_queue.receive_messages(MaxNumberOfMessages, WaitTimeSeconds)]. *)
Definition receive_messages (MaxNumberOfMessages : nat) (WaitTimeSeconds : Z)
  : M (list Message) :=
  q <- gets queue ;;
  let got := firstn MaxNumberOfMessages q in
  emit (EvReceive got) ;;
  ret got.

Definition other_handle (h : string) (m : Message) : bool :=
  negb (String.eqb (receipt_handle m) h).

(** [message.delete()]. *)
Definition message_delete (m : Message) : M unit :=
  modify (fun s => set_queue (filter (other_handle (receipt_handle m)) (queue s)) s) ;;
  emit (EvDelete (receipt_handle m)).

(** [message.change_visibility(VisibilityTimeout)]. *)
Definition change_visibility (m : Message) (VisibilityTimeout : Q) : M unit :=
  emit (EvChangeVisibility (receipt_handle m) VisibilityTimeout).

Fixpoint table_get (k : string) (t : list (string * Row)) : option Row :=
  match t with
  | [] => None
  | (k', r) :: rest => if String.eqb k k' then Some r else table_get k rest
  end.

Fixpoint table_set (k : string) (r : Row) (t : list (string * Row))
  : list (string * Row) :=
  match t with
  | [] => [(k, r)]
  | (k', r') :: rest =>
      if String.eqb k k' then (k, r) :: rest else (k', r') :: table_set k r rest
  end.

Definition next_fault : M (option Fault) :=
  fun s => (Ok (store_faults (script s) (store_calls s)),
            set_store_calls (S (store_calls s)) s).

(** Modelled from the spec: the conditional row update of
    [utils.dynamodb_common], which is not among the sources.  "every mutation
    is a conditional write whose predicate encodes the caller's claimed
    state"; a refused write hands back [(False, _, error)], any other store
    error is raised. *)
Definition conditional_write (tid : string) (cond : Row -> bool)
  (upd : Row -> Row) : M ddb_result :=
  f <- next_fault ;;
  match f with
  | Some (Throw e) => raise e
  | Some (Reject code) => ret (Rejected code)
  | _ =>
      t <- gets status_table ;;
      match table_get tid t with
      | Some row =>
          if cond row
          then modify (set_status_table (table_set tid (upd row) t)) ;; ret Accepted
          else ret (Rejected "ConditionalCheckFailedException")
      | None => ret (Rejected "ConditionalCheckFailedException")
      end
  end.

(** Modelled from the spec: [ddb.claim_task_to_yourself].  "Attempt the claim
    conditional write on the status row with predicate (owner==none and
    status==pending), setting owner to self, status to processing-<self>,
    heartbeat_expiration, and retries to retries + 1". *)
Definition claim_task_to_yourself (task : Task) (self_id : string) (ttl : Q)
  : M ddb_result :=
  r <- conditional_write (task_id task)
         (fun row => String.eqb (task_owner row) "none"
                     && String.eqb (task_status row) "pending")
         (fun row => mkRow ("processing-" ++ self_id)%string self_id ttl
                       (retries row + 1) (task_completion_timestamp row)) ;;
  emit (EvClaim (task_id task) self_id ttl r) ;;
  ret r.

(** Modelled from the spec: [ddb.update_own_tasks_ttl].  "a conditional update
    of the row with predicate owner == self, writing a freshly generated
    heartbeat_expiration". *)
Definition update_own_tasks_ttl (task : Task) (self_id : string) (ttl : Q)
  : M ddb_result :=
  r <- conditional_write (task_id task)
         (fun row => String.eqb (task_owner row) self_id)
         (fun row => mkRow (task_status row) (task_owner row) ttl
                       (retries row) (task_completion_timestamp row)) ;;
  emit (EvUpdateTTL (task_id task) self_id ttl r) ;;
  ret r.

(** Modelled from the spec: [ddb.read_task_row], a point read of the row. *)
Definition read_task_row (tid : string) : M (option (list Row)) :=
  f <- next_fault ;;
  match f with
  | Some (Throw e) => raise e
  | Some (Answer resp) => emit (EvReadRow tid resp) ;; ret resp
  | _ =>
      t <- gets status_table ;;
      let resp := Some (match table_get tid t with
                        | Some row => [row]
                        | None => []
                        end) in
      emit (EvReadRow tid resp) ;;
      ret resp
  end.

(** [stdout_iom]: the artifact store. *)
Definition put_output_from_bytes (tid data : string) : M unit :=
  emit (EvPutBytes tid data).

Definition put_output_from_file (tid : string) (file_name : option string)
  : M unit :=
  emit (EvPutFile tid file_name).

(** [json.loads(base64.b64decode(stdout_iom.get_input_to_bytes(tid)).decode("utf-8"))]:
    the stored input as the three library decodings deliver it. *)
Definition get_input_decoded (tid : string) : M pyval :=
  emit (EvGetInput tid) ;;
  x <- gets (fun s => inputs (script s) tid) ;;
  lift x.

(** [EventsCounter.increment] and [.set] on the two counters, and the two
    performance trackers. *)
Definition event_counter_pre_increment (name : string) (v : Z) : M unit :=
  emit (EvCounterPre name v).

Definition event_counter_post_increment (name : string) (v : Z) : M unit :=
  emit (EvCounterPost name v).

Definition event_counter_post_set (name v : string) : M unit :=
  emit (EvCounterPostSet name v).

Definition perf_tracker_pre : string := "perf_tracker_pre".
Definition perf_tracker_post : string := "perf_tracker_post".

Definition add_metric_sample (perf : string) (st : pyval)
  (from_event to_event : string) : M unit :=
  emit (EvMetricSample perf st from_event to_event).

Definition submit_measurements (perf : string) : M unit :=
  emit (EvSubmitMeasurements perf).

Fixpoint file_set (name content : string) (fs : list (string * string))
  : list (string * string) :=
  match fs with
  | [] => [(name, content)]
  | (n, c) :: rest =>
      if String.eqb name n then (name, content) :: rest
      else (n, c) :: file_set name content rest
  end.

Fixpoint file_get (name : string) (fs : list (string * string)) : option string :=
  match fs with
  | [] => None
  | (n, c) :: rest => if String.eqb name n then Some c else file_get name rest
  end.

(** [open(name, "w")]: creates the file, or truncates it. *)
Definition open_w (name : string) : M string :=
  modify (fun s => set_files (file_set name "" (files s)) s) ;;
  emit (EvOpen name) ;;
  ret name.

Definition close (f : string) : M unit := emit (EvClose f).

(** [lambda_client.invoke(FunctionName, InvocationType='RequestResponse', Payload, LogType='Tail')]. *)
Definition lambda_invoke (FunctionName : string) (payload : pyval) : M Invocation :=
  emit (EvInvoke FunctionName payload) ;;
  fun s => (Ok (invocations (script s) (invoke_calls s)),
            set_invoke_calls (S (invoke_calls s)) s).

Definition Popen (command : list pyval) : M unit := emit (EvPopen command).

(** [proc.poll()]. *)
Definition proc_poll : M (option Z) :=
  fun s => (Ok (proc_polls (script s) (polls s)), set_polls (S (polls s)) s).

(** [requests.post(url)], answering the status code. *)
Definition requests_post (url : string) : M Z :=
  emit (EvPost url) ;;
  r <- gets (fun s => stop_response (script s)) ;;
  lift r.

(** ** agent.py *)

Section Agent.

Variable cfg : Config.

(** [get_time_now_ms]: [int(round(time.time() * 1000))]. *)
Definition get_time_now_ms : M Z :=
  t <- time_time ;; ret (py_round (t * 1000)).

(** Modelled from the spec: [TTLExpirationGenerator], which is not among the
    sources.  "On each call to generate_next_ttl(), it advances
    next_refresh_at to now + refresh_interval and returns an object exposing
    next_expiration_at = now + expiration_offset"; both start at 0. *)
Definition generate_next_ttl : M unit :=
  now <- time_time ;;
  modify (fun s =>
    set_next_expiration_timestamp (now + task_ttl_expiration_offset_sec cfg)%Q
      (set_next_refresh_timestamp (now + task_ttl_refresh_interval_sec cfg)%Q s)).

Definition get_next_expiration_timestamp : M Q := gets next_expiration_timestamp.

Definition get_next_refresh_timestamp : M Q := gets next_refresh_timestamp.

(** [task["stats"][stage]["tstmp"] = v]. *)
Definition set_stage_tstmp (task : Task) (stage : string) (v : Z) : M Task :=
  match stats task with
  | PDict d =>
      match dict_get stage d with
      | Some (PDict entry) =>
          ret (mkTask (task_id task) (task_definition task) (sqs_handle_id task)
                 (PDict (dict_set stage (PDict (dict_set "tstmp" (PInt v) entry)) d)))
      | Some _ => raise TypeError
      | None => raise (KeyError stage)
      end
  | _ => raise TypeError
  end.

Definition is_throttling (code : string) : bool :=
  String.eqb code "ThrottlingException"
  || String.eqb code "ProvisionedThroughputExceededException".

Definition is_task_has_been_cancelled (tid : string) : M bool :=
  ddb_response <- read_task_row tid ;;
  match ddb_response with
  | Some Items =>
      if Nat.eqb (List.length Items) 1
      then match Items with
           | item :: _ =>
               if startswith (task_status item) "cancelled" then ret true
               else ret false
           | [] => raise IndexError
           end
      else ret false
  | None => ret false
  end.

Definition try_to_acquire_a_task : M (option (Message * Task)) :=
  messages <- receive_messages 1 10 ;;
  task_pick_up_from_sqs_ms <- get_time_now_ms ;;
  match messages with
  | [] =>
      event_counter_pre_increment "agent_no_messages_in_tasks_queue" 1 ;;
      ret None
  | message :: _ =>
      now <- get_time_now_ms ;;
      modify (set_AGENT_EXEC_TIMESTAMP_MS now) ;;
      let task := mkTask (task_id (body message)) (task_definition (body message))
                    (Some (receipt_handle message)) (stats (body message)) in
      claimed <- try_except
        (generate_next_ttl ;;
         ttl <- get_next_expiration_timestamp ;;
         r <- claim_task_to_yourself task (SELF_ID cfg) ttl ;;
         if negb (succeeded r) then
           event_counter_pre_increment "agent_failed_to_claim_ddb_task" 1 ;;
           cancelled <- is_task_has_been_cancelled (task_id task) ;;
           if cancelled then
             message_delete message ;;
             ret false
           else
             d <- randint 1 3 ;;
             sleep (inject_Z d) ;;
             ret false
         else ret true)
        (fun error_acquiring => raise error_acquiring) ;;
      if claimed then
        change_visibility message (agent_sqs_visibility_timeout_sec cfg) ;;
        task <- set_stage_tstmp task "stage3_agent_01_task_acquired_sqs_tstmp"
                  task_pick_up_from_sqs_ms ;;
        now <- get_time_now_ms ;;
        task <- set_stage_tstmp task "stage3_agent_02_task_acquired_ddb_tstmp" now ;;
        event_counter_pre_increment "agent_successful_acquire_a_task" 1 ;;
        ret (Some (message, task))
      else ret None
  end.

Definition submit_post_agent_measurements (task : Task) (perf : option string)
  : M unit :=
  let perf := match perf with None => perf_tracker_post | Some p => p end in
  add_metric_sample perf (stats task)
    "stage3_agent_02_task_acquired_ddb_tstmp"
    "stage4_agent_02_S3_stdout_delivered_tstmp" ;;
  submit_measurements perf.

Definition submit_pre_agent_measurements (task : Task) : M unit :=
  add_metric_sample perf_tracker_pre (stats task)
    "stage2_sbmtlmba_02_before_batch_write_tstmp"
    "stage3_agent_02_task_acquired_ddb_tstmp" ;;
  submit_measurements perf_tracker_pre.

(** Modelled from the spec: [ddb.dynamodb_update_task_status_to_finished].
    "a conditional update processing-X to finished with predicate
    owner == self, setting task_completion_timestamp to now". *)
Definition dynamodb_update_task_status_to_finished (task : Task)
  (self_id : string) : M ddb_result :=
  now <- get_time_now_ms ;;
  r <- conditional_write (task_id task)
         (fun row => String.eqb (task_owner row) self_id)
         (fun row => mkRow "finished" (task_owner row)
                       (heartbeat_expiration_timestamp row) (retries row) now) ;;
  emit (EvFinished (task_id task) self_id r) ;;
  ret r.

(** The [while True] of [process_subprocess_completion]. *)
Fixpoint set_finished_loop (fuel : nat) (task : Task) (count : Z) : M ddb_result :=
  match fuel with
  | O => out_of_fuel
  | S fuel' =>
      let count := count + 1 in
      time_start_ms <- get_time_now_ms ;;
      r <- dynamodb_update_task_status_to_finished task (SELF_ID cfg) ;;
      time_end_ms <- get_time_now_ms ;;
      match r with
      | Rejected code =>
          if is_throttling code then set_finished_loop fuel' task count
          else ret r
      | Accepted => ret r
      end
  end.

(** The task dictionary is updated in place by the source; here the updated
    task is handed back. *)
Definition process_subprocess_completion (fuel : nat) (perf : string)
  (task : Task) (sqs_msg : Message) (fname_stdout : option string)
  (stdout : option string) : M Task :=
  now <- get_time_now_ms ;;
  task <- set_stage_tstmp task "stage4_agent_01_user_code_finished_tstmp" now ;;
  match stdout with
  | Some out => put_output_from_bytes (task_id task) (b64encode out)
  | None => put_output_from_file (task_id task) fname_stdout
  end ;;
  now <- get_time_now_ms ;;
  task <- set_stage_tstmp task "stage4_agent_02_S3_stdout_delivered_tstmp" now ;;
  ddb_res <- set_finished_loop fuel task 0 ;;
  (if negb (succeeded ddb_res) then
     event_counter_post_increment "ddb_set_task_finished_failed" 1
   else
     event_counter_post_increment "ddb_set_task_finished_succeeded" 1 ;;
     message_delete sqs_msg) ;;
  logged <- get_time_now_ms ;;
  now <- get_time_now_ms ;;
  started <- gets AGENT_EXEC_TIMESTAMP_MS ;;
  event_counter_post_increment "agent_total_time_ms" (now - started) ;;
  event_counter_post_set "str_pod_id" (SELF_ID cfg) ;;
  submit_post_agent_measurements task (Some perf) ;;
  ret task.

(** [task_def["worker_arguments"][i]]. *)
Definition worker_argument (task_def : pyval) (i : nat) : M pyval :=
  match task_def with
  | PDict d =>
      match dict_get "worker_arguments" d with
      | Some (PList l) =>
          match nth_error l i with
          | Some v => ret v
          | None => raise IndexError
          end
      | Some (PStr s) =>
          match String.get i s with
          | Some c => ret (PStr (String c EmptyString))
          | None => raise IndexError
          end
      | Some (PDict _) => raise (KeyError "0")
      | Some _ => raise TypeError
      | None => raise (KeyError "worker_arguments")
      end
  | _ => raise TypeError
  end.

(** The [while True] of [do_task_local_execution_thread]. *)
Fixpoint poll_loop (fuel : nat) (perf : string) (task : Task) (sqs_msg : Message)
  (fname_stdout : string) : M (Z * Task) :=
  match fuel with
  | O => out_of_fuel
  | S fuel' =>
      retcode <- proc_poll ;;
      match retcode with
      | Some rc =>
          modify (set_execution_is_completed_flag 1) ;;
          task <- process_subprocess_completion fuel perf task sqs_msg
                    (Some fname_stdout) None ;;
          ret (rc, task)
      | None =>
          sleep (work_proc_status_pull_interval_sec cfg) ;;
          poll_loop fuel' perf task sqs_msg fname_stdout
      end
  end.

Definition do_task_local_execution_thread (fuel : nat) (perf : string)
  (task : Task) (sqs_msg : Message) (task_def : pyval)
  (f_stdout f_stderr fname_stdout : string) : M (Z * Task) :=
  a0 <- worker_argument task_def 0 ;;
  a1 <- worker_argument task_def 1 ;;
  a2 <- worker_argument task_def 2 ;;
  let command := [PStr "./mock_compute_engine"; a0; a1; a2] in
  Popen command ;;
  poll_loop fuel perf task sqs_msg fname_stdout.

(** [do_task_local_lambda_execution_thread], up to its [await]. *)
Definition do_task_local_lambda_execution_thread_start (task_def : pyval)
  : M (Z * Invocation) :=
  t_start <- get_time_now_ms ;;
  inv <- lambda_invoke (LAMBDA_FONCTION_NAME cfg) task_def ;;
  ret (t_start, inv).

(** [do_task_local_lambda_execution_thread], from the response on. *)
Definition do_task_local_lambda_execution_thread_resume (fuel : nat)
  (perf : string) (task : Task) (sqs_msg : Message) (t_start : Z)
  (response : LambdaResponse) : M (string * Task) :=
  logs <- lift (LogResult response) ;;
  ret_value <- lift (Payload response) ;;
  modify (set_execution_is_completed_flag 1) ;;
  task <- (if contains "BOOTSTRAP ERROR" ret_value then
             event_counter_post_increment "bootstrap_failure" 1 ;;
             ret task
           else
             now <- get_time_now_ms ;;
             event_counter_post_increment "task_exec_time_ms" (now - t_start) ;;
             process_subprocess_completion fuel perf task sqs_msg None
               (Some ret_value)) ;;
  ret (ret_value, task).

(** The [while True] of [update_ttl_if_required]. *)
Fixpoint update_ttl_loop (fuel : nat) (task : Task) (count : Z) : M bool :=
  match fuel with
  | O => out_of_fuel
  | S fuel' =>
      let count := count + 1 in
      t1 <- get_time_now_ms ;;
      generate_next_ttl ;;
      ttl <- get_next_expiration_timestamp ;;
      r <- update_own_tasks_ttl task (SELF_ID cfg) ttl ;;
      t2 <- get_time_now_ms ;;
      match r with
      | Rejected code =>
          if is_throttling code then update_ttl_loop fuel' task count
          else ret false
      | Accepted => ret true
      end
  end.

Definition update_ttl_if_required (fuel : nat) (task : Task) : M bool :=
  refresh <- get_next_refresh_timestamp ;;
  required <- (if Qeq_bool refresh 0 then ret true
               else
                 refresh <- get_next_refresh_timestamp ;;
                 now <- time_time ;;
                 ret (Qlt_bool refresh
                        (now + work_proc_status_pull_interval_sec cfg)%Q)) ;;
  if (required : bool) then update_ttl_loop fuel task 0 else ret true.

(** Where [do_ttl_updates_thread] stands when it gives control back. *)
Inductive renewer : Type :=
| Sleeping
| ReturnedFalse
| Finished.

(** [do_ttl_updates_thread] from the head of its loop to its next [await]
    or [return]. *)
Definition do_ttl_updates_thread_step (fuel : nat) (task : Task) : M renewer :=
  flag <- gets execution_is_completed_flag ;;
  if Z.eqb flag 0 then
    ddb_res <- update_ttl_if_required fuel task ;;
    if negb ddb_res then
      event_counter_post_increment "counter_update_ttl_failed" 1 ;;
      submit_post_agent_measurements task None ;;
      ret ReturnedFalse
    else
      sleep (work_proc_status_pull_interval_sec cfg) ;;
      ret Sleeping
  else ret Finished.

(** [do_ttl_updates_thread] over [n] wake-ups. *)
Fixpoint do_ttl_updates_thread (n fuel : nat) (task : Task) : M renewer :=
  match n with
  | O => ret Sleeping
  | S n' =>
      st <- do_ttl_updates_thread_step fuel task ;;
      match st with
      | Sleeping => do_ttl_updates_thread n' fuel task
      | _ => ret st
      end
  end.

(** The bytes to execute, or a value that is not bytes. *)
Inductive execution_payload : Type :=
| FromStorage (decoded : pyval)
| Inline (v : pyval).

Definition prepare_arguments_for_execution (task : Task) : M execution_payload :=
  if Z.eqb (task_input_passed_via_external_storage cfg) 1 then
    v <- get_input_decoded (task_id task) ;;
    ret (FromStorage v)
  else ret (Inline (task_definition task)).

(** [json.loads(bin_protobuf.decode("utf-8"))]: the value taken from a decoded
    message body is never [bytes] and has no [decode]. *)
Definition decode_and_load (p : execution_payload) : M pyval :=
  match p with
  | FromStorage v => ret v
  | Inline _ => raise (AttributeError "decode")
  end.

(** [run_task]: the two coroutines that [asyncio.gather] runs on the one
    thread, in the order the event loop runs them: the execution up to its
    [await], the renewer while the invocation is pending, the rest of the
    execution, and the renewer's last look at the flag.  The source returns
    [True]; the task as it was left is handed back. *)
Definition run_task (fuel : nat) (task : Task) (sqs_msg : Message) : M Task :=
  bin_protobuf <- prepare_arguments_for_execution task ;;
  task_def <- decode_and_load bin_protobuf ;;
  submit_pre_agent_measurements task ;;
  let fname_stdout := ("./stdout-" ++ task_id task ++ ".log")%string in
  let fname_stderr := ("./stderr-" ++ task_id task ++ ".log")%string in
  f_stdout <- open_w fname_stdout ;;
  f_stderr <- open_w fname_stderr ;;
  modify (set_execution_is_completed_flag 0) ;;
  started <- do_task_local_lambda_execution_thread_start task_def ;;
  st <- do_ttl_updates_thread (S (renewer_wakeups (snd started))) fuel task ;;
  response <- lift (outcome (snd started)) ;;
  finished <- do_task_local_lambda_execution_thread_resume fuel perf_tracker_post
                task sqs_msg (fst started) response ;;
  match st with
  | Sleeping => do_ttl_updates_thread_step fuel (snd finished) ;; ret tt
  | _ => ret tt
  end ;;
  close f_stdout ;;
  close f_stderr ;;
  ret (snd finished).

(** One turn of the loop of [event_loop]. *)
Definition event_loop_body (fuel : nat) : M unit :=
  acquired <- try_to_acquire_a_task ;;
  match acquired with
  | Some (sqs_msg, task) => run_task fuel task sqs_msg ;; ret tt
  | None =>
      timeout <- uniform (empty_task_queue_backoff_timeout_sec cfg)
                   (2 * empty_task_queue_backoff_timeout_sec cfg)%Q ;;
      sleep timeout
  end.

(** [while not killer.kill_now]. *)
Fixpoint event_loop_while (turns fuel : nat) : M unit :=
  match turns with
  | O => out_of_fuel
  | S turns' =>
      k <- gets kill_now ;;
      if (k : bool) then ret tt
      else event_loop_body fuel ;; event_loop_while turns' fuel
  end.

Definition event_loop (turns fuel : nat) : M unit :=
  event_loop_while turns fuel ;;
  let url := (LAMBDA_ENDPOINT_URL cfg ++ "/2018-06-01/stop")%string in
  status_code <- requests_post url ;;
  ret tt.

End Agent.

(** ** Vocabulary of the statements *)

Definition finished_attempts (cfg : Config) (task : Task) (codes : list string)
  : list Event :=
  map (fun c => EvFinished (task_id task) (SELF_ID cfg) (Rejected c)) codes.

Definition settled (r : ddb_result) : Prop :=
  forall c, r = Rejected c -> is_throttling c = false.

Definition artifact_put (task : Task) (fname_stdout stdout : option string)
  : Event :=
  match stdout with
  | Some out => EvPutBytes (task_id task) (b64encode out)
  | None => EvPutFile (task_id task) fname_stdout
  end.

Definition commit_tail (sqs_msg : Message) (r : ddb_result) : list Event :=
  match r with
  | Accepted =>
      [EvCounterPost "ddb_set_task_finished_succeeded" 1;
       EvDelete (receipt_handle sqs_msg)]
  | Rejected _ => [EvCounterPost "ddb_set_task_finished_failed" 1]
  end.

Definition final_measurements (cfg : Config) (perf : string) (task' : Task)
  (total : Z) : list Event :=
  [EvCounterPost "agent_total_time_ms" total;
   EvCounterPostSet "str_pod_id" (SELF_ID cfg);
   EvMetricSample perf (stats task')
     "stage3_agent_02_task_acquired_ddb_tstmp"
     "stage4_agent_02_S3_stdout_delivered_tstmp";
   EvSubmitMeasurements perf].

(** Everything the committer does that leaves the process, in order: the
    artifact put, the throttled attempts of the finished write, the attempt
    that settles it with [r], what follows from [r], the final measurements. *)
Definition commit_events (cfg : Config) (perf : string) (task task' : Task)
  (sqs_msg : Message) (fname_stdout stdout : option string)
  (codes : list string) (r : ddb_result) (total : Z) : list Event :=
  artifact_put task fname_stdout stdout
  :: finished_attempts cfg task codes
  ++ [EvFinished (task_id task) (SELF_ID cfg) r]
  ++ commit_tail sqs_msg r
  ++ final_measurements cfg perf task' total.

(** ** Scenarios *)

Definition cfg0 : Config :=
  mkConfig 1 (1 # 2) 60 20 1 3600 false "0" "self" "http://localhost:9001"
    "mock_compute_engine".

Definition stage_entry (label : string) : string * pyval :=
  (label, PDict [("label", PStr label); ("tstmp", PInt 0)]).

(** The [stats] of a task as the submission side prepares them: one entry
    for each stage. *)
Definition staged_stats : pyval :=
  PDict [stage_entry "stage3_agent_01_task_acquired_sqs_tstmp";
         stage_entry "stage3_agent_02_task_acquired_ddb_tstmp";
         stage_entry "stage4_agent_01_user_code_finished_tstmp";
         stage_entry "stage4_agent_02_S3_stdout_delivered_tstmp"].

Definition task_T1 (st : pyval) : Task := mkTask "T1" (PStr "...") None st.

Definition message_T1 (st : pyval) : Message := mkMessage (task_T1 st) "receipt-1".

Definition worker_input : pyval :=
  PDict [("worker_arguments", PList [PStr "1000"; PStr "1"; PStr "1"])].

(** A calm environment: the clock advances one second per reading, no
    store fault, the remote function answers ["result"] after the renewer
    woke up twice more, no SIGTERM. *)
Definition calm_script : Script :=
  mkScript (fun n => (1000 + inject_Z (Z.of_nat n))%Q) (fun n => Z.of_nat n)
    (fun _ => None) (fun _ => inr worker_input)
    (fun _ => mkInvocation 2 (inr (mkLambdaResponse (inr "log") (inr "result"))))
    (fun _ => Some 0) (inr 200) None.

Definition initial (sc : Script) (q : list Message) (t : list (string * Row))
  : State :=
  mkState sc 0 0 0 0 0 0 q t 0 0 0 [] [].

Definition row (status owner : string) : Row := mkRow status owner 0 0 0.

Definition value_or {A : Type} (r : result A) (d : A) : A :=
  match r with
  | Ok a => a
  | _ => d
  end.

(** The row is still ours when the task completes. *)
Definition owned_world : State :=
  initial calm_script [message_T1 staged_stats]
    [("T1", row "processing-self" "self")].

(** The watchdog has taken the row back before the task completes. *)
Definition reclaimed_world : State :=
  initial calm_script [message_T1 staged_stats] [("T1", row "pending" "none")].

Definition commit_on (s : State) : result Task * State :=
  process_subprocess_completion cfg0 5 perf_tracker_post (task_T1 staged_stats)
    (message_T1 staged_stats) None (Some "result") s.

(** What the cancellation probe makes of the answer to its read. *)
Definition answers_cancelled (resp : option (list Row)) : bool :=
  match resp with
  | Some [item] => startswith (task_status item) "cancelled"
  | _ => false
  end.

(** What the acquirer does, up to the probe's read, when its claim is refused. *)
Definition lost_claim_events (cfg : Config) (m : Message) (ttl : Q)
  (code : string) (resp : option (list Row)) : list Event :=
  [EvReceive [m];
   EvClaim (task_id (body m)) (SELF_ID cfg) ttl (Rejected code);
   EvCounterPre "agent_failed_to_claim_ddb_task" 1;
   EvReadRow (task_id (body m)) resp].

Definition won_claim_events (cfg : Config) (m : Message) (ttl : Q) : list Event :=
  [EvReceive [m];
   EvClaim (task_id (body m)) (SELF_ID cfg) ttl Accepted;
   EvChangeVisibility (receipt_handle m) (agent_sqs_visibility_timeout_sec cfg);
   EvCounterPre "agent_successful_acquire_a_task" 1].

(** [task["stats"][stage]["tstmp"]], when it is there and an integer. *)
Definition stage_tstmp (task : Task) (stage : string) : option Z :=
  match stats task with
  | PDict d =>
      match dict_get stage d with
      | Some (PDict entry) =>
          match dict_get "tstmp" entry with
          | Some (PInt v) => Some v
          | _ => None
          end
      | _ => None
      end
  | _ => None
  end.

(** The [n]-th reading of the clock as [get_time_now_ms] delivers it. *)
Definition reading_ms (sc : Script) (n : nat) : Z := py_round (clock sc n * 1000).

(** The row was cancelled by the client before the task was picked up. *)
Definition cancelled_world : State :=
  initial calm_script [message_T1 staged_stats]
    [("T1", row "cancelled-by-user" "none")].

(** The row is owned by another agent. *)
Definition contended_world : State :=
  initial calm_script [message_T1 staged_stats]
    [("T1", row "processing-other" "other")].

(** There is no row for the task. *)
Definition rowless_world : State :=
  initial calm_script [message_T1 staged_stats] [].

(** The happy path of the specification's first scenario, taken literally:
    the message's [stats] are an empty dictionary. *)
Definition unstaged_world : State :=
  initial calm_script [message_T1 (PDict [])] [("T1", row "pending" "none")].

(** The same with [stats] as the submission side prepares them. *)
Definition pending_world : State :=
  initial calm_script [message_T1 staged_stats] [("T1", row "pending" "none")].

(** The task an acquisition returned, if it returned one. *)
Definition acquired_task (r : result (option (Message * Task))) : Task :=
  match r with
  | Ok (Some (_, task)) => task
  | _ => task_T1 PNone
  end.

(** The renewer's test: "the first time we are resetting ttl value or the
    next time we will come to this point ttl ticket will expire". *)
Definition refresh_due (cfg : Config) (s : State) : bool :=
  Qeq_bool (next_refresh_timestamp s) 0
  || Qlt_bool (next_refresh_timestamp s)
       (clock (script s) (ticks s) + work_proc_status_pull_interval_sec cfg)%Q.

(** The clock readings that test has consumed. *)
Definition ticks_after_test (s : State) : nat :=
  if Qeq_bool (next_refresh_timestamp s) 0 then ticks s else S (ticks s).

(** What the [k]-th status-table call answers to a write that requires
    [owner == self], the table being as in [s]; [None] if the call raises. *)
Definition owned_write_answer (cfg : Config) (task : Task) (s : State) (k : nat)
  : option ddb_result :=
  match store_faults (script s) k with
  | Some (Throw _) => None
  | Some (Reject c) => Some (Rejected c)
  | _ =>
      Some (match table_get (task_id task) (status_table s) with
            | Some row =>
                if String.eqb (task_owner row) (SELF_ID cfg) then Accepted
                else Rejected "ConditionalCheckFailedException"
            | None => Rejected "ConditionalCheckFailedException"
            end)
  end.

(** One attempt of the heartbeat update entered when [t] clock readings have
    been taken: the expiration it writes comes from the reading it takes
    itself. *)
Definition renewal_attempt (cfg : Config) (task : Task) (sc : Script) (t : nat)
  (r : ddb_result) : Event :=
  EvUpdateTTL (task_id task) (SELF_ID cfg)
    (clock sc (S t) + task_ttl_expiration_offset_sec cfg)%Q r.

(** The attempts refused with the throttling codes [codes], one after the
    other; each takes three clock readings. *)
Fixpoint throttled_renewals (cfg : Config) (task : Task) (sc : Script) (t : nat)
  (codes : list string) : list Event :=
  match codes with
  | [] => []
  | c :: rest =>
      renewal_attempt cfg task sc t (Rejected c)
      :: throttled_renewals cfg task sc (3 + t) rest
  end.

Definition renewal_epilogue (cfg : Config) (task : Task) (ok : bool) : list Event :=
  if ok then [EvSleep (work_proc_status_pull_interval_sec cfg)]
  else [EvCounterPost "counter_update_ttl_failed" 1;
        EvMetricSample perf_tracker_post (stats task)
          "stage3_agent_02_task_acquired_ddb_tstmp"
          "stage4_agent_02_S3_stdout_delivered_tstmp";
        EvSubmitMeasurements perf_tracker_post].

(** The store refuses the first two calls with [ThrottlingException]. *)
Definition throttled_script : Script :=
  mkScript (clock calm_script) (rand calm_script)
    (fun n => if Nat.ltb n 2 then Some (Reject "ThrottlingException") else None)
    (inputs calm_script) (invocations calm_script) (proc_polls calm_script)
    (stop_response calm_script) (sigterm_at calm_script).

Definition throttled_world : State :=
  initial throttled_script [message_T1 staged_stats]
    [("T1", row "processing-self" "self")].

(** The store refuses every call with
    [ProvisionedThroughputExceededException]. *)
Definition congested_script : Script :=
  mkScript (clock calm_script) (rand calm_script)
    (fun _ => Some (Reject "ProvisionedThroughputExceededException"))
    (inputs calm_script) (invocations calm_script) (proc_polls calm_script)
    (stop_response calm_script) (sigterm_at calm_script).

Definition congested_world : State :=
  initial congested_script [message_T1 staged_stats]
    [("T1", row "processing-self" "self")].


(** What a computation may do to the state it runs in: the script is the
    environment's and is never written, the clock is only read forward, the
    trace only grows, by events that [P] admits, and the files are as they
    were unless one was opened. *)
Definition opens (e : Event) : bool :=
  match e with EvOpen _ => true | _ => false end.

Definition evolves (P : Event -> bool) (s s' : State) : Prop :=
  script s' = script s
  /\ (ticks s <= ticks s')%nat
  /\ exists ev,
       trace s' = trace s ++ ev
       /\ Forall (fun e => P e = true) ev
       /\ (Forall (fun e => opens e = false) ev -> files s' = files s).

Definition respects {A : Type} (P : Event -> bool) (m : M A) : Prop :=
  forall s, evolves P s (snd (m s)).

(** Events of the remote path that touch no file and do not stop the remote
    runtime. *)
Definition quiet (e : Event) : bool :=
  match e with
  | EvPopen _ | EvPutFile _ _ | EvOpen _ | EvPost _ => false
  | _ => true
  end.

(** Events of a turn of the loop on the remote path. *)
Definition in_turn (e : Event) : bool :=
  match e with
  | EvPopen _ | EvPutFile _ _ | EvPost _ => false
  | _ => true
  end.

(** Events other than spawning a child process and uploading a file. *)
Definition remote_only (e : Event) : bool :=
  match e with
  | EvPopen _ | EvPutFile _ _ => false
  | _ => true
  end.

(** SIGTERM arrives once twelve events have been recorded, while the first
    task is in flight; the stop request is answered 500. *)
Definition interrupted_script : Script :=
  mkScript (clock calm_script) (rand calm_script) (store_faults calm_script)
    (inputs calm_script) (invocations calm_script) (proc_polls calm_script)
    (inr 500) (Some 12%nat).

Definition interrupted_world : State :=
  initial interrupted_script [message_T1 staged_stats]
    [("T1", row "pending" "none")].

(** A deployment whose task definitions travel in the message itself. *)
Definition inline_cfg : Config :=
  mkConfig 1 (1 # 2) 60 20 0 3600 false "0" "self" "http://localhost:9001"
    "mock_compute_engine".

(** The clock does not advance between the readings of one turn. *)
Definition frozen_script : Script :=
  mkScript (fun _ => 1000%Q) (rand calm_script) (store_faults calm_script)
    (inputs calm_script) (invocations calm_script) (proc_polls calm_script)
    (stop_response calm_script) (sigterm_at calm_script).

Definition frozen_world : State :=
  initial frozen_script [message_T1 staged_stats]
    [("T1", row "pending" "none")].

(** The task a run handed back, if it returned. *)
Definition ran_task (r : result Task) : Task := value_or r (task_T1 PNone).

(** The child process is still running at the first two polls and has
    exited with code 0 at the third. *)
Definition slow_child_script : Script :=
  mkScript (clock calm_script) (rand calm_script) (store_faults calm_script)
    (inputs calm_script) (invocations calm_script)
    (fun n => if Nat.ltb n 2 then None else Some 0)
    (stop_response calm_script) (sigterm_at calm_script).

Definition slow_child_world : State :=
  initial slow_child_script [message_T1 staged_stats]
    [("T1", row "processing-self" "self")].

(** An agent with nothing in its queue. *)
Definition idle_world : State := initial calm_script [] [].

(** The task a local execution handed back, if it returned. *)
Definition executed_task (r : result (Z * Task)) : Task :=
  match r with
  | Ok (_, t) => t
  | _ => task_T1 PNone
  end.

(** Stats that lack the entry of the last stage. *)
Definition half_staged : dict :=
  [stage_entry "stage3_agent_01_task_acquired_sqs_tstmp";
   stage_entry "stage3_agent_02_task_acquired_ddb_tstmp";
   stage_entry "stage4_agent_01_user_code_finished_tstmp"].

(** * Properties *)

(** ** Running computations *)

Lemma bind_Ok {A B : Type} (m : M A) (f : A -> M B) s b s' :
  bind m f s = (Ok b, s') ->
  exists a s1, m s = (Ok a, s1) /\ f a s1 = (Ok b, s').
Proof.
  unfold bind. destruct (m s) as [[a | e |] s1]; intros H; try discriminate.
  exists a, s1. auto.
Qed.

Lemma bind_run {A B : Type} (m : M A) (f : A -> M B) s a s1 :
  m s = (Ok a, s1) -> bind m f s = f a s1.
Proof. unfold bind. intros ->. reflexivity. Qed.

Lemma bind_cases {A B : Type} (m : M A) (f : A -> M B) s r s' :
  bind m f s = (r, s') ->
  (exists a s1, m s = (Ok a, s1) /\ f a s1 = (r, s'))
  \/ (exists e, m s = (Raise e, s') /\ r = Raise e)
  \/ (m s = (OutOfFuel, s') /\ r = OutOfFuel).
Proof.
  unfold bind. destruct (m s) as [[a | e |] s1]; intros H.
  - left. eauto.
  - right. left. inversion H. eauto.
  - right. right. inversion H. auto.
Qed.

Lemma emit_run e s : emit e s = (Ok tt, set_trace (trace s ++ [e]) s).
Proof. reflexivity. Qed.

Ltac state_simpl :=
  cbn [script AGENT_EXEC_TIMESTAMP_MS execution_is_completed_flag
       next_refresh_timestamp next_expiration_timestamp ticks draws
       queue status_table store_calls invoke_calls polls files trace
       set_AGENT_EXEC_TIMESTAMP_MS set_execution_is_completed_flag
       set_next_refresh_timestamp set_next_expiration_timestamp
       set_ticks set_draws set_queue set_status_table set_store_calls
       set_invoke_calls set_polls set_files set_trace fst snd] in *.

Lemma pair_Ok_inv {A : Type} (x a : A) (t s' : State) :
  (Ok x, t) = (Ok a, s') -> a = x /\ s' = t.
Proof. intros H. inversion H. auto. Qed.

Ltac subst_lhs H :=
  lazymatch type of H with
  | ?v = ?t => first [ is_var v; subst v | constr_eq v t; clear H | idtac ]
  end.

Ltac settle_run H :=
  first [ discriminate H
        | apply pair_Ok_inv in H;
          let Ea := fresh "Ea" in
          let Es := fresh "Es" in
          destruct H as [Ea Es]; subst_lhs Es; subst_lhs Ea; state_simpl ].

(** A primitive that returned: its result and final state, kept as
    equations. *)
Ltac keep_run H :=
  first [ discriminate H
        | apply pair_Ok_inv in H;
          let Ea := fresh "Ea" in
          let Es := fresh "Es" in
          destruct H as [Ea Es] ].

Lemma pair_inv {A : Type} (x y : result A) (t s' : State) :
  (x, t) = (y, s') -> y = x /\ s' = t.
Proof. intros H. inversion H. auto. Qed.

(** A primitive that ended in any way. *)
Ltac keep_any H :=
  apply pair_inv in H;
  let Ea := fresh "Ea" in
  let Es := fresh "Es" in
  destruct H as [Ea Es];
  first [ discriminate Ea | injection Ea as Ea | idtac ].

(** Inversion of a computation that returned: one layer at a time. *)
Ltac inv_gen settle H :=
  lazymatch type of H with
  | bind _ _ _ = (Ok _, _) =>
      let a := fresh "a" in
      let s := fresh "s" in
      let H1 := fresh "R" in
      apply bind_Ok in H; destruct H as (a & s & H1 & H);
      inv_gen settle H1; cbv beta in H; inv_gen settle H
  | bind _ _ _ = (_, _) =>
      let a := fresh "a" in
      let s := fresh "s" in
      let e := fresh "e" in
      let H1 := fresh "R" in
      let Er := fresh "Er" in
      apply bind_cases in H;
      destruct H as [(a & s & H1 & H) | [(e & H1 & Er) | (H1 & Er)]];
      [ inv_gen settle H1; cbv beta in H; inv_gen settle H
      | inv_gen settle H1
      | inv_gen settle H1 ]
  | emit _ _ = (_, _) => rewrite emit_run in H; settle H
  | ret _ _ = (_, _) => unfold ret in H; settle H
  | raise _ _ = (_, _) => unfold raise in H; settle H
  | out_of_fuel _ = (_, _) => unfold out_of_fuel in H; settle H
  | gets _ _ = (_, _) => unfold gets in H; settle H
  | modify _ _ = (_, _) => unfold modify in H; settle H
  | time_time _ = (_, _) => unfold time_time in H; settle H
  | draw _ = (_, _) => unfold draw in H; settle H
  | next_fault _ = (_, _) => unfold next_fault in H; settle H
  | proc_poll _ = (_, _) => unfold proc_poll in H; settle H
  | get_time_now_ms _ = (_, _) => unfold get_time_now_ms in H; inv_gen settle H
  | sleep _ _ = (_, _) => unfold sleep in H; inv_gen settle H
  | event_counter_pre_increment _ _ _ = (_, _) =>
      unfold event_counter_pre_increment in H; inv_gen settle H
  | event_counter_post_increment _ _ _ = (_, _) =>
      unfold event_counter_post_increment in H; inv_gen settle H
  | event_counter_post_set _ _ _ = (_, _) =>
      unfold event_counter_post_set in H; inv_gen settle H
  | put_output_from_bytes _ _ _ = (_, _) =>
      unfold put_output_from_bytes in H; inv_gen settle H
  | put_output_from_file _ _ _ = (_, _) =>
      unfold put_output_from_file in H; inv_gen settle H
  | add_metric_sample _ _ _ _ _ = (_, _) =>
      unfold add_metric_sample in H; inv_gen settle H
  | submit_measurements _ _ = (_, _) => unfold submit_measurements in H; inv_gen settle H
  | change_visibility _ _ _ = (_, _) => unfold change_visibility in H; inv_gen settle H
  | message_delete _ _ = (_, _) => unfold message_delete in H; inv_gen settle H
  | close _ _ = (_, _) => unfold close in H; inv_gen settle H
  | Popen _ _ = (_, _) => unfold Popen in H; inv_gen settle H
  | open_w _ _ = (_, _) => unfold open_w in H; inv_gen settle H
  | randint _ _ _ = (_, _) => unfold randint in H; inv_gen settle H
  | uniform _ _ _ = (_, _) => unfold uniform in H; inv_gen settle H
  | receive_messages _ _ _ = (_, _) => unfold receive_messages in H; inv_gen settle H
  | generate_next_ttl _ _ = (_, _) => unfold generate_next_ttl in H; inv_gen settle H
  | get_next_expiration_timestamp _ = (_, _) =>
      unfold get_next_expiration_timestamp in H; inv_gen settle H
  | get_next_refresh_timestamp _ = (_, _) =>
      unfold get_next_refresh_timestamp in H; inv_gen settle H
  | submit_post_agent_measurements _ _ _ = (_, _) =>
      unfold submit_post_agent_measurements in H; inv_gen settle H
  | submit_pre_agent_measurements _ _ = (_, _) =>
      unfold submit_pre_agent_measurements in H; inv_gen settle H
  | _ => idtac
  end.

(** [inv_run] substitutes results and states as it goes; [inv_keep] leaves
    them as equations, to be substituted once the computation is taken apart;
    [inv_all] does so for a computation that ended in any way. *)
Ltac inv_run H := inv_gen settle_run H.
Ltac inv_keep H := inv_gen keep_run H.
Ltac inv_all H := inv_gen keep_any H.

Lemma set_stage_tstmp_Ok task stage v s task' s' :
  set_stage_tstmp task stage v s = (Ok task', s') ->
  s' = s /\ task_id task' = task_id task
  /\ task_definition task' = task_definition task
  /\ sqs_handle_id task' = sqs_handle_id task
  /\ exists d entry,
       stats task = PDict d /\ dict_get stage d = Some (PDict entry)
       /\ stats task' =
            PDict (dict_set stage (PDict (dict_set "tstmp" (PInt v) entry)) d).
Proof.
  unfold set_stage_tstmp. intros H.
  destruct (stats task) as [| | | | |d] eqn:Hs; try (inv_run H; discriminate).
  destruct (dict_get stage d) as [[| | | | |entry]|] eqn:Hg;
    try (inv_run H; discriminate).
  inv_run H. cbn. repeat split; eauto.
Qed.

(** ** The completion committer *)

Lemma conditional_write_trace tid cond upd s r s' :
  conditional_write tid cond upd s = (Ok r, s') -> trace s' = trace s.
Proof.
  unfold conditional_write. intros H. inv_run H.
  destruct (store_faults (script s) (store_calls s)) as [[code | e | resp]|];
    inv_run H; try reflexivity.
  all: state_simpl; destruct (table_get tid (status_table s)) as [row|];
    [destruct (cond row)|]; inv_run H; reflexivity.
Qed.

Lemma finished_write_trace cfg task s r s' :
  dynamodb_update_task_status_to_finished task (SELF_ID cfg) s = (Ok r, s') ->
  trace s' = trace s ++ [EvFinished (task_id task) (SELF_ID cfg) r].
Proof.
  unfold dynamodb_update_task_status_to_finished. intros H.
  apply bind_Ok in H. destruct H as (now & s1 & H1 & H). inv_run H1.
  apply bind_Ok in H. destruct H as (r1 & s2 & H2 & H).
  apply conditional_write_trace in H2. inv_run H.
  state_simpl. rewrite H2. reflexivity.
Qed.

Lemma set_finished_loop_trace cfg fuel : forall task count s r s',
  set_finished_loop cfg fuel task count s = (Ok r, s') ->
  exists codes,
    Forall (fun c => is_throttling c = true) codes /\ settled r
    /\ trace s' = trace s ++ finished_attempts cfg task codes
                    ++ [EvFinished (task_id task) (SELF_ID cfg) r].
Proof.
  induction fuel as [|fuel IH]; intros task count s r s' H;
    cbn [set_finished_loop] in H.
  - inv_run H.
  - apply bind_Ok in H. destruct H as (t1 & s1 & H1 & H). inv_run H1.
    apply bind_Ok in H. destruct H as (r1 & s2 & H2 & H).
    apply finished_write_trace in H2.
    apply bind_Ok in H. destruct H as (t2 & s3 & H3 & H). inv_run H3.
    destruct r1 as [|code].
    + inv_run H. exists []. repeat split; auto. intros c Hc; discriminate.
    + destruct (is_throttling code) eqn:Hcode.
      * apply IH in H. destruct H as (codes & Hall & Hset & Ht).
        exists (code :: codes). repeat split; auto.
        state_simpl. rewrite Ht, H2. cbn. rewrite <- app_assoc. reflexivity.
      * inv_run H. exists []. repeat split; auto.
        intros c Hc. inversion Hc; subst. assumption.
Qed.

Lemma process_subprocess_completion_trace cfg fuel perf task sqs_msg fname
  stdout s task' s' :
  process_subprocess_completion cfg fuel perf task sqs_msg fname stdout s
    = (Ok task', s') ->
  exists codes r total,
    Forall (fun c => is_throttling c = true) codes /\ settled r
    /\ task_id task' = task_id task
    /\ trace s' = trace s ++ commit_events cfg perf task task' sqs_msg fname
                               stdout codes r total.
Proof.
  unfold process_subprocess_completion. intros H. inv_run H.
  apply set_stage_tstmp_Ok in R. destruct R as (-> & Hid1 & _).
  apply set_stage_tstmp_Ok in R1. destruct R1 as (-> & Hid2 & _).
  apply set_finished_loop_trace in R2.
  destruct R2 as (codes & Hall & Hset & Ht).
  exists codes, a2.
  eexists. repeat split; try assumption; [congruence|].
  assert (H1 : trace s1 = trace s ++ [artifact_put task fname stdout]).
  { unfold artifact_put. rewrite <- Hid1.
    destruct stdout; inv_run R0; reflexivity. }
  assert (H4 : trace s4 = trace s3 ++ commit_tail sqs_msg a2).
  { destruct a2; cbn [succeeded negb] in R3; inv_run R3; state_simpl;
      [rewrite <- app_assoc|]; reflexivity. }
  state_simpl. rewrite H4, Ht. state_simpl. rewrite H1.
  unfold commit_events, final_measurements, finished_attempts.
  rewrite Hid2, Hid1. repeat rewrite <- app_assoc. reflexivity.
Qed.

Lemma not_in_finished_attempts cfg task codes h :
  ~ In (EvDelete h) (finished_attempts cfg task codes).
Proof.
  unfold finished_attempts. rewrite in_map_iff. intros (c & Hc & _). discriminate.
Qed.

Lemma delete_in_commit_events cfg perf task task' sqs_msg fname stdout codes r
  total :
  In (EvDelete (receipt_handle sqs_msg))
     (commit_events cfg perf task task' sqs_msg fname stdout codes r total)
  <-> r = Accepted.
Proof.
  unfold commit_events, final_measurements. split.
  - intros [H | H].
    + destruct stdout; discriminate.
    + rewrite !in_app_iff in H. destruct H as [H | [H | [H | H]]].
      * exfalso. eapply not_in_finished_attempts; eauto.
      * destruct H as [H | []]. discriminate.
      * destruct r; [reflexivity|]. destruct H as [H | []]. discriminate.
      * cbn in H. intuition discriminate.
  - intros ->. right. rewrite !in_app_iff. right. right. left. cbn. auto.
Qed.

(** C1.  When the committer returns, what it did is the artifact put, the
    throttled attempts of the finished write, and the attempt [r] that
    settled it; the queue message is deleted if and only if [r] is an
    accepted write.  A refused write is followed by
    [ddb_set_task_finished_failed] and then directly by the final
    measurements; an accepted one by [ddb_set_task_finished_succeeded] and
    the delete. *)
Theorem completion_deletes_message_iff_finished_write_accepted
  cfg fuel perf task sqs_msg fname stdout s task' s' :
  process_subprocess_completion cfg fuel perf task sqs_msg fname stdout s
    = (Ok task', s') ->
  exists codes r total,
    Forall (fun c => is_throttling c = true) codes /\ settled r
    /\ trace s' = trace s ++ commit_events cfg perf task task' sqs_msg fname
                               stdout codes r total
    /\ (In (EvDelete (receipt_handle sqs_msg))
           (commit_events cfg perf task task' sqs_msg fname stdout codes r total)
        <-> r = Accepted)
    /\ commit_tail sqs_msg r
       = match r with
         | Accepted => [EvCounterPost "ddb_set_task_finished_succeeded" 1;
                        EvDelete (receipt_handle sqs_msg)]
         | Rejected _ => [EvCounterPost "ddb_set_task_finished_failed" 1]
         end.
Proof.
  intros H. apply process_subprocess_completion_trace in H.
  destruct H as (codes & r & total & Hall & Hset & _ & Ht).
  exists codes, r, total. repeat split; try assumption.
  - apply delete_in_commit_events.
  - apply delete_in_commit_events.
Qed.

Example commit_on_owned_world :
  fst (commit_on owned_world) <> OutOfFuel
  /\ trace (snd (commit_on owned_world))
     = [EvPutBytes "T1" "cmVzdWx0"; EvFinished "T1" "self" Accepted;
        EvCounterPost "ddb_set_task_finished_succeeded" 1; EvDelete "receipt-1";
        EvCounterPost "agent_total_time_ms" 1006000;
        EvCounterPostSet "str_pod_id" "self";
        EvMetricSample perf_tracker_post
          (stats (value_or (fst (commit_on owned_world)) (task_T1 PNone)))
          "stage3_agent_02_task_acquired_ddb_tstmp"
          "stage4_agent_02_S3_stdout_delivered_tstmp";
        EvSubmitMeasurements perf_tracker_post]
  /\ queue (snd (commit_on owned_world)) = []
  /\ status_table (snd (commit_on owned_world))
     = [("T1", mkRow "finished" "self" 0 0 1003000)].
Proof. vm_compute. repeat split. discriminate. Qed.

Lemma completion_deletes_message_iff_finished_write_accepted_witness :
  commit_on reclaimed_world
  = (Ok (value_or (fst (commit_on reclaimed_world)) (task_T1 PNone)),
     snd (commit_on reclaimed_world))
  /\ exists codes r total,
       Forall (fun c => is_throttling c = true) codes /\ settled r
       /\ trace (snd (commit_on reclaimed_world))
          = trace reclaimed_world
            ++ commit_events cfg0 perf_tracker_post (task_T1 staged_stats)
                 (value_or (fst (commit_on reclaimed_world)) (task_T1 PNone))
                 (message_T1 staged_stats) None (Some "result") codes r total
       /\ (In (EvDelete (receipt_handle (message_T1 staged_stats)))
              (commit_events cfg0 perf_tracker_post (task_T1 staged_stats)
                 (value_or (fst (commit_on reclaimed_world)) (task_T1 PNone))
                 (message_T1 staged_stats) None (Some "result") codes r total)
           <-> r = Accepted)
       /\ commit_tail (message_T1 staged_stats) r
          = match r with
            | Accepted => [EvCounterPost "ddb_set_task_finished_succeeded" 1;
                           EvDelete (receipt_handle (message_T1 staged_stats))]
            | Rejected _ => [EvCounterPost "ddb_set_task_finished_failed" 1]
            end.
Proof.
  split.
  - vm_compute. reflexivity.
  - apply (completion_deletes_message_iff_finished_write_accepted cfg0 5
             perf_tracker_post (task_T1 staged_stats) (message_T1 staged_stats)
             None (Some "result") reclaimed_world).
    vm_compute. reflexivity.
Defined.

Example commit_on_reclaimed_world :
  trace (snd (commit_on reclaimed_world))
  = [EvPutBytes "T1" "cmVzdWx0";
     EvFinished "T1" "self" (Rejected "ConditionalCheckFailedException");
     EvCounterPost "ddb_set_task_finished_failed" 1;
     EvCounterPost "agent_total_time_ms" 1006000;
     EvCounterPostSet "str_pod_id" "self";
     EvMetricSample perf_tracker_post
       (stats (value_or (fst (commit_on reclaimed_world)) (task_T1 PNone)))
       "stage3_agent_02_task_acquired_ddb_tstmp"
       "stage4_agent_02_S3_stdout_delivered_tstmp";
     EvSubmitMeasurements perf_tracker_post]
  /\ queue (snd (commit_on reclaimed_world)) = [message_T1 staged_stats].
Proof. vm_compute. split; reflexivity. Qed.

(** ** The acquirer *)

Lemma try_except_reraise {A : Type} (m : M A) s :
  try_except m (fun e => raise e) s = m s.
Proof.
  unfold try_except, raise. destruct (m s) as [[a | e |] s1]; reflexivity.
Qed.

Lemma conditional_write_Ok tid cond upd s r s' :
  conditional_write tid cond upd s = (Ok r, s') ->
  exists T,
    s' = set_status_table T (set_store_calls (S (store_calls s)) s)
    /\ (forall c, r = Rejected c -> T = status_table s).
Proof.
  unfold conditional_write. intros H. inv_run H.
  destruct (store_faults (script s) (store_calls s)) as [[code | e | resp]|];
    inv_run H.
  1: { exists (status_table s). split; [destruct s; reflexivity | auto]. }
  all: state_simpl; destruct (table_get tid (status_table s)) as [rw|];
    [destruct (cond rw)|]; inv_run H;
    try (exists (status_table s); split; [destruct s; reflexivity | auto]).
  all: eexists; split; [reflexivity | intros c Hc; discriminate].
Qed.

Lemma read_task_row_Ok tid s resp s' :
  read_task_row tid s = (Ok resp, s') ->
  s' = set_trace (trace s ++ [EvReadRow tid resp])
         (set_store_calls (S (store_calls s)) s).
Proof.
  unfold read_task_row. intros H. inv_run H.
  destruct (store_faults (script s) (store_calls s)) as [[code | e | r]|];
    inv_run H; reflexivity.
Qed.

Lemma is_task_has_been_cancelled_Ok tid s b s' :
  is_task_has_been_cancelled tid s = (Ok b, s') ->
  exists resp,
    b = answers_cancelled resp
    /\ s' = set_trace (trace s ++ [EvReadRow tid resp])
              (set_store_calls (S (store_calls s)) s).
Proof.
  unfold is_task_has_been_cancelled. intros H.
  apply bind_Ok in H. destruct H as (resp & s1 & H1 & H).
  apply read_task_row_Ok in H1. exists resp. subst s1.
  destruct resp as [[|item [|item2 items]]|]; cbn in H |- *.
  - inv_run H. auto.
  - destruct (startswith (task_status item) "cancelled"); inv_run H; auto.
  - inv_run H. auto.
  - inv_run H. auto.
Qed.

Lemma claim_task_to_yourself_Ok task self ttl s r s' :
  claim_task_to_yourself task self ttl s = (Ok r, s') ->
  exists T,
    s' = set_trace (trace s ++ [EvClaim (task_id task) self ttl r])
           (set_status_table T (set_store_calls (S (store_calls s)) s))
    /\ (forall c, r = Rejected c -> T = status_table s).
Proof.
  unfold claim_task_to_yourself. intros H.
  apply bind_Ok in H. destruct H as (r1 & s1 & H1 & H).
  apply conditional_write_Ok in H1. destruct H1 as (T & -> & HT).
  inv_run H. exists T. split; [reflexivity | assumption].
Qed.

Lemma randint_range a b s d s' :
  a <= b -> randint a b s = (Ok d, s') ->
  a <= d <= b /\ s' = set_draws (S (draws s)) s.
Proof.
  intros Hab H. inv_run H. split; [|reflexivity].
  pose proof (Z.mod_pos_bound (rand (script s) (draws s)) (b - a + 1)). lia.
Qed.

Lemma dict_get_set_same k v d : dict_get k (dict_set k v d) = Some v.
Proof.
  induction d as [|[k' v'] d IH]; cbn.
  - rewrite String.eqb_refl. reflexivity.
  - destruct (String.eqb k k') eqn:E; cbn.
    + rewrite String.eqb_refl. reflexivity.
    + rewrite E. exact IH.
Qed.

Lemma dict_get_set_other k k' v d :
  k <> k' -> dict_get k (dict_set k' v d) = dict_get k d.
Proof.
  intros Hne. induction d as [|[k2 v2] d IH]; cbn.
  - apply String.eqb_neq in Hne. rewrite Hne. reflexivity.
  - destruct (String.eqb k' k2) eqn:E; cbn.
    + apply String.eqb_eq in E. subst k2.
      apply String.eqb_neq in Hne. rewrite Hne. reflexivity.
    + destruct (String.eqb k k2); [reflexivity | exact IH].
Qed.

Lemma set_stage_tstmp_same task stage v s task' s' :
  set_stage_tstmp task stage v s = (Ok task', s') ->
  stage_tstmp task' stage = Some v.
Proof.
  intros H. apply set_stage_tstmp_Ok in H.
  destruct H as (_ & _ & _ & _ & d & entry & _ & _ & Hs).
  unfold stage_tstmp. rewrite Hs, dict_get_set_same, dict_get_set_same.
  reflexivity.
Qed.

Lemma set_stage_tstmp_other task stage v s task' s' stage' :
  set_stage_tstmp task stage v s = (Ok task', s') ->
  stage' <> stage ->
  stage_tstmp task' stage' = stage_tstmp task stage'.
Proof.
  intros H Hne. apply set_stage_tstmp_Ok in H.
  destruct H as (_ & _ & _ & _ & d & entry & Hd & _ & Hs).
  unfold stage_tstmp. rewrite Hs, Hd, dict_get_set_other by assumption.
  reflexivity.
Qed.

Ltac state_simpl_goal :=
  cbn [script AGENT_EXEC_TIMESTAMP_MS execution_is_completed_flag
       next_refresh_timestamp next_expiration_timestamp ticks draws
       queue status_table store_calls invoke_calls polls files trace
       set_AGENT_EXEC_TIMESTAMP_MS set_execution_is_completed_flag
       set_next_refresh_timestamp set_next_expiration_timestamp
       set_ticks set_draws set_queue set_status_table set_store_calls
       set_invoke_calls set_polls set_files set_trace fst snd].

(** Replaces, in the goal, the results and states that [inv_keep] named by
    what they are, one equation at a time, simplifying after each. *)
Ltac unwind :=
  repeat match goal with
         | E : ?v = _ |- _ =>
             is_var v;
             lazymatch goal with
             | |- context [v] => rewrite E; state_simpl_goal
             end
         end.

Lemma firstn_1_nil {A : Type} (q : list A) : [] = firstn 1 q -> q = [].
Proof. destruct q; [reflexivity | discriminate]. Qed.

Lemma firstn_1_cons {A : Type} (m : A) ms (q : list A) :
  m :: ms = firstn 1 q -> exists rest, q = m :: rest.
Proof.
  destruct q as [|x rest]; [discriminate|].
  cbn. intros H. inversion H. eauto.
Qed.

Lemma try_to_acquire_a_task_Ok cfg s r s' :
  try_to_acquire_a_task cfg s = (Ok r, s') ->
  script s' = script s
  /\ ((queue s = [] /\ r = None
       /\ trace s' = trace s ++ [EvReceive [];
                                 EvCounterPre "agent_no_messages_in_tasks_queue" 1]
       /\ queue s' = queue s /\ status_table s' = status_table s)
      \/ exists m rest ttl,
           queue s = m :: rest
           /\ ttl = (clock (script s) (2 + ticks s)
                     + task_ttl_expiration_offset_sec cfg)%Q
           /\ ((exists task',
                  r = Some (m, task')
                  /\ trace s' = trace s ++ won_claim_events cfg m ttl
                  /\ task_id task' = task_id (body m)
                  /\ sqs_handle_id task' = Some (receipt_handle m)
                  /\ stage_tstmp task' "stage3_agent_01_task_acquired_sqs_tstmp"
                     = Some (reading_ms (script s) (ticks s))
                  /\ stage_tstmp task' "stage3_agent_02_task_acquired_ddb_tstmp"
                     = Some (reading_ms (script s) (3 + ticks s))
                  /\ ticks s' = (4 + ticks s)%nat
                  /\ queue s' = queue s)
               \/ (exists code resp,
                     r = None /\ status_table s' = status_table s
                     /\ ((answers_cancelled resp = true
                          /\ trace s' = trace s
                               ++ lost_claim_events cfg m ttl code resp
                               ++ [EvDelete (receipt_handle m)]
                          /\ queue s'
                             = filter (other_handle (receipt_handle m)) (queue s))
                         \/ (answers_cancelled resp = false
                             /\ exists d,
                                  1 <= d <= 3
                                  /\ trace s' = trace s
                                       ++ lost_claim_events cfg m ttl code resp
                                       ++ [EvSleep (inject_Z d)]
                                  /\ queue s' = queue s))))).
Proof.
  unfold try_to_acquire_a_task. intros H.
  apply bind_Ok in H. destruct H as (msgs & s1 & Hrecv & H).
  inv_keep Hrecv. inv_keep H.
  destruct msgs as [|m ms].
  - inv_keep H. apply firstn_1_nil in Ea1. rewrite Ea in Ea1.
    split; [unwind; reflexivity|]. left.
    repeat split; unwind; rewrite ?Ea1; cbn [firstn]; rewrite <- ?app_assoc;
      reflexivity.
  - inv_keep H. rewrite try_except_reraise in R. inv_keep R.
    apply firstn_1_cons in Ea1. destruct Ea1 as (rest & Hq). rewrite Ea in Hq.
    apply claim_task_to_yourself_Ok in R0. destruct R0 as (T & Es12 & HT).
    cbn [task_id] in *.
    destruct a10 as [|code]; cbn [succeeded negb] in R.
    + inv_keep R. subst a6. inv_keep H.
      pose proof (set_stage_tstmp_Ok _ _ _ _ _ _ R) as (E1 & Hid1 & _ & Hh1 & _).
      pose proof (set_stage_tstmp_Ok _ _ _ _ _ _ R0) as (E2 & Hid2 & _ & Hh2 & _).
      pose proof (set_stage_tstmp_other _ _ _ _ _ _
                    "stage3_agent_01_task_acquired_sqs_tstmp" R0
                    ltac:(discriminate)) as Hst1.
      rewrite (set_stage_tstmp_same _ _ _ _ _ _ R) in Hst1.
      pose proof (set_stage_tstmp_same _ _ _ _ _ _ R0) as Hst2.
      cbn [task_id sqs_handle_id] in Hid1, Hh1.
      clear R R0.
      split; [unwind; reflexivity|]. right.
      exists m, rest. eexists. split; [exact Hq|]. split; [reflexivity|].
      left. eexists. split; [unwind; reflexivity|]. repeat split.
      * unwind. rewrite Hq. cbn [firstn]. unfold won_claim_events.
        rewrite <- !app_assoc. reflexivity.
      * congruence.
      * congruence.
      * rewrite Hst1. unwind. reflexivity.
      * rewrite Hst2. unwind. reflexivity.
      * unwind. reflexivity.
      * unwind. reflexivity.
    + specialize (HT code eq_refl). subst T.
      inv_keep R. apply is_task_has_been_cancelled_Ok in R0.
      destruct R0 as (resp & Ec & Es20).
      rewrite Ec in R. clear Ec.
      destruct (answers_cancelled resp) eqn:Hc.
      * inv_keep R. subst a6. inv_keep H.
        split; [unwind; reflexivity|]. right.
        exists m, rest. eexists. split; [exact Hq|]. split; [reflexivity|].
        right. exists code, resp.
        split; [unwind; reflexivity|]. split; [unwind; reflexivity|].
        left. split; [exact Hc|]. split.
        -- unwind. rewrite Hq. cbn [firstn]. unfold lost_claim_events.
           rewrite <- !app_assoc. reflexivity.
        -- unwind. reflexivity.
      * inv_keep R. subst a6. inv_keep H.
        split; [unwind; reflexivity|]. right.
        exists m, rest. eexists. split; [exact Hq|]. split; [reflexivity|].
        right. exists code, resp.
        split; [unwind; reflexivity|]. split; [unwind; reflexivity|].
        right. split; [exact Hc|].
        exists (1 + rand (script s) (draws s) mod (3 - 1 + 1)).
        split; [|split].
        -- pose proof (Z.mod_pos_bound (rand (script s) (draws s)) (3 - 1 + 1)).
           lia.
        -- unwind. rewrite Hq. cbn [firstn]. unfold lost_claim_events.
           rewrite <- !app_assoc. reflexivity.
        -- unwind. reflexivity.
Qed.


(** C2.  When the claim write of a received task is refused, the acquirer
    counts [agent_failed_to_claim_ddb_task], then reads the row, and returns
    [(None, None)] with the status table as it was.  If the answer is one row
    whose status begins with ["cancelled"], the only thing that follows is the
    delete of the queue message; otherwise the only thing that follows is a
    sleep of 1 to 3 seconds and the queue is as it was. *)
Theorem refused_claim_probes_then_deletes_or_backs_off
  cfg s r s' evs tid owner ttl code :
  try_to_acquire_a_task cfg s = (Ok r, s') ->
  trace s' = trace s ++ evs ->
  In (EvClaim tid owner ttl (Rejected code)) evs ->
  r = None
  /\ status_table s' = status_table s
  /\ exists m rest resp,
       queue s = m :: rest /\ tid = task_id (body m) /\ owner = SELF_ID cfg
       /\ ((answers_cancelled resp = true
            /\ evs = lost_claim_events cfg m ttl code resp
                     ++ [EvDelete (receipt_handle m)]
            /\ queue s' = filter (other_handle (receipt_handle m)) (queue s))
           \/ (answers_cancelled resp = false
               /\ exists d,
                    1 <= d <= 3
                    /\ evs = lost_claim_events cfg m ttl code resp
                             ++ [EvSleep (inject_Z d)]
                    /\ queue s' = queue s)).
Proof.
  intros H Ht Hin. apply try_to_acquire_a_task_Ok in H.
  destruct H as (_ & [(_ & _ & Ht' & _) | (m & rest & ttl0 & Hq & _ & H)]).
  - rewrite Ht' in Ht. apply app_inv_head in Ht. subst evs.
    cbn in Hin. intuition discriminate.
  - destruct H as [(task' & _ & Ht' & _) | (code0 & resp & Hr & HT & H)].
    + rewrite Ht' in Ht. apply app_inv_head in Ht. subst evs.
      cbn in Hin. intuition discriminate.
    + assert (Hev : forall tail,
                (forall t o l c, ~ In (EvClaim t o l (Rejected c)) tail) ->
                evs = lost_claim_events cfg m ttl0 code0 resp ++ tail ->
                tid = task_id (body m) /\ owner = SELF_ID cfg
                /\ ttl0 = ttl /\ code0 = code).
      { intros tail Hno ->. unfold lost_claim_events in Hin. cbn in Hin.
        destruct Hin as [Hin | [Hin | [Hin | [Hin | Hin]]]];
          try discriminate; [inversion Hin; auto | exfalso; eapply Hno; eauto]. }
      split; [assumption|]. split; [assumption|].
      exists m, rest, resp.
      destruct H as [(Hc & Ht' & Hq') | (Hc & d & Hd & Ht' & Hq')];
        rewrite Ht' in Ht; apply app_inv_head in Ht; symmetry in Ht.
      * assert (Hno : forall t o l c,
                  ~ In (EvClaim t o l (Rejected c)) [EvDelete (receipt_handle m)]).
        { cbn. intuition discriminate. }
        destruct (Hev _ Hno Ht) as (-> & -> & -> & ->).
        split; [assumption|]. split; [reflexivity|]. split; [reflexivity|].
        left. auto.
      * assert (Hno : forall t o l c,
                  ~ In (EvClaim t o l (Rejected c)) [EvSleep (inject_Z d)]).
        { cbn. intuition discriminate. }
        destruct (Hev _ Hno Ht) as (-> & -> & -> & ->).
        split; [assumption|]. split; [reflexivity|]. split; [reflexivity|].
        right. split; [assumption|]. exists d. auto.
Qed.

Lemma refused_claim_probes_then_deletes_or_backs_off_witness :
  try_to_acquire_a_task cfg0 cancelled_world
  = (Ok None, snd (try_to_acquire_a_task cfg0 cancelled_world))
  /\ trace (snd (try_to_acquire_a_task cfg0 cancelled_world))
     = trace cancelled_world
       ++ trace (snd (try_to_acquire_a_task cfg0 cancelled_world))
  /\ In (EvClaim "T1" "self" (clock calm_script 2 + 60)%Q
           (Rejected "ConditionalCheckFailedException"))
        (trace (snd (try_to_acquire_a_task cfg0 cancelled_world)))
  /\ @None (Message * Task) = None
  /\ status_table (snd (try_to_acquire_a_task cfg0 cancelled_world))
     = status_table cancelled_world
  /\ exists m rest resp,
       queue cancelled_world = m :: rest
       /\ "T1" = task_id (body m) /\ "self" = SELF_ID cfg0
       /\ ((answers_cancelled resp = true
            /\ trace (snd (try_to_acquire_a_task cfg0 cancelled_world))
               = lost_claim_events cfg0 m (clock calm_script 2 + 60)%Q
                   "ConditionalCheckFailedException" resp
                 ++ [EvDelete (receipt_handle m)]
            /\ queue (snd (try_to_acquire_a_task cfg0 cancelled_world))
               = filter (other_handle (receipt_handle m)) (queue cancelled_world))
           \/ (answers_cancelled resp = false
               /\ exists d,
                    1 <= d <= 3
                    /\ trace (snd (try_to_acquire_a_task cfg0 cancelled_world))
                       = lost_claim_events cfg0 m (clock calm_script 2 + 60)%Q
                           "ConditionalCheckFailedException" resp
                         ++ [EvSleep (inject_Z d)]
                    /\ queue (snd (try_to_acquire_a_task cfg0 cancelled_world))
                       = queue cancelled_world)).
Proof.
  assert (H1 : try_to_acquire_a_task cfg0 cancelled_world
               = (Ok None, snd (try_to_acquire_a_task cfg0 cancelled_world))).
  { vm_compute. reflexivity. }
  assert (H2 : trace (snd (try_to_acquire_a_task cfg0 cancelled_world))
               = trace cancelled_world
                 ++ trace (snd (try_to_acquire_a_task cfg0 cancelled_world))).
  { vm_compute. reflexivity. }
  assert (H3 : In (EvClaim "T1" "self" (clock calm_script 2 + 60)%Q
                     (Rejected "ConditionalCheckFailedException"))
                  (trace (snd (try_to_acquire_a_task cfg0 cancelled_world)))).
  { vm_compute. auto. }
  split; [exact H1|]. split; [exact H2|]. split; [exact H3|].
  exact (refused_claim_probes_then_deletes_or_backs_off cfg0 cancelled_world
           None _ _ "T1" "self" _ _ H1 H2 H3).
Defined.

Example acquire_in_cancelled_world :
  trace (snd (try_to_acquire_a_task cfg0 cancelled_world))
  = [EvReceive [message_T1 staged_stats];
     EvClaim "T1" "self" 1062 (Rejected "ConditionalCheckFailedException");
     EvCounterPre "agent_failed_to_claim_ddb_task" 1;
     EvReadRow "T1" (Some [row "cancelled-by-user" "none"]);
     EvDelete "receipt-1"]
  /\ queue (snd (try_to_acquire_a_task cfg0 cancelled_world)) = [].
Proof. vm_compute. split; reflexivity. Qed.

Example acquire_in_contended_world :
  trace (snd (try_to_acquire_a_task cfg0 contended_world))
  = [EvReceive [message_T1 staged_stats];
     EvClaim "T1" "self" 1062 (Rejected "ConditionalCheckFailedException");
     EvCounterPre "agent_failed_to_claim_ddb_task" 1;
     EvReadRow "T1" (Some [row "processing-other" "other"]);
     EvSleep 1]
  /\ queue (snd (try_to_acquire_a_task cfg0 contended_world))
     = [message_T1 staged_stats].
Proof. vm_compute. split; reflexivity. Qed.

Lemma answers_cancelled_unreadable resp :
  resp = None \/ (exists items, resp = Some items /\ List.length items <> 1%nat) ->
  answers_cancelled resp = false.
Proof.
  intros [-> | (items & -> & Hlen)]; [reflexivity|].
  destruct items as [|item [|item2 items]]; cbn in *; congruence.
Qed.

(** C9.  When the read of the cancellation probe is answered with no response
    or with a number of items other than one, the probe returns [False]; the
    acquirer then sleeps 1 to 3 seconds and returns [(None, None)], and the
    queue message is not deleted. *)
Theorem unreadable_row_is_handled_as_contention
  cfg s r s' evs tid resp :
  try_to_acquire_a_task cfg s = (Ok r, s') ->
  trace s' = trace s ++ evs ->
  In (EvReadRow tid resp) evs ->
  resp = None \/ (exists items, resp = Some items /\ List.length items <> 1%nat) ->
  (forall t b t',
     is_task_has_been_cancelled tid t = (Ok b, t') ->
     trace t' = trace t ++ [EvReadRow tid resp] ->
     b = false)
  /\ r = None
  /\ (exists before d, 1 <= d <= 3 /\ evs = before ++ [EvSleep (inject_Z d)])
  /\ (forall h, ~ In (EvDelete h) evs)
  /\ queue s' = queue s.
Proof.
  intros H Ht Hin Hbad. split.
  { intros t b t' Hp Hpt. apply is_task_has_been_cancelled_Ok in Hp.
    destruct Hp as (resp' & -> & ->). state_simpl.
    apply app_inv_head in Hpt. inversion Hpt; subst.
    apply answers_cancelled_unreadable; assumption. }
  apply answers_cancelled_unreadable in Hbad.
  apply try_to_acquire_a_task_Ok in H.
  destruct H as (_ & [(_ & _ & Ht' & _) | (m & rest & ttl0 & Hq & _ & H)]).
  - rewrite Ht' in Ht. apply app_inv_head in Ht. subst evs.
    cbn in Hin. intuition discriminate.
  - destruct H as [(task' & _ & Ht' & _) | (code0 & resp0 & Hr & HT & H)].
    + rewrite Ht' in Ht. apply app_inv_head in Ht. subst evs.
      cbn in Hin. intuition discriminate.
    + assert (Hev : forall tail,
                (forall t x, ~ In (EvReadRow t x) tail) ->
                evs = lost_claim_events cfg m ttl0 code0 resp0 ++ tail ->
                resp0 = resp).
      { intros tail Hno ->. unfold lost_claim_events in Hin. cbn in Hin.
        destruct Hin as [Hin | [Hin | [Hin | [Hin | Hin]]]];
          try discriminate; [inversion Hin; auto | exfalso; eapply Hno; eauto]. }
      destruct H as [(Hc & Ht' & Hq') | (Hc & d & Hd & Ht' & Hq')];
        rewrite Ht' in Ht; apply app_inv_head in Ht; symmetry in Ht.
      * assert (Hno : forall t x,
                  ~ In (EvReadRow t x) [EvDelete (receipt_handle m)]).
        { cbn. intuition discriminate. }
        pose proof (Hev _ Hno Ht) as ->. congruence.
      * assert (Hno : forall t x, ~ In (EvReadRow t x) [EvSleep (inject_Z d)]).
        { cbn. intuition discriminate. }
        pose proof (Hev _ Hno Ht) as ->.
        split; [assumption|]. split; [eauto|]. split; [|assumption].
        intros h. rewrite Ht. unfold lost_claim_events. cbn.
        intuition discriminate.
Qed.

Lemma unreadable_row_is_handled_as_contention_witness :
  try_to_acquire_a_task cfg0 rowless_world
  = (Ok None, snd (try_to_acquire_a_task cfg0 rowless_world))
  /\ trace (snd (try_to_acquire_a_task cfg0 rowless_world))
     = trace rowless_world ++ trace (snd (try_to_acquire_a_task cfg0 rowless_world))
  /\ In (EvReadRow "T1" (Some []))
        (trace (snd (try_to_acquire_a_task cfg0 rowless_world)))
  /\ (@Some (list Row) [] = None
      \/ (exists items : list Row,
            Some [] = Some items /\ List.length items <> 1%nat))
  /\ (forall t b t',
        is_task_has_been_cancelled "T1" t = (Ok b, t') ->
        trace t' = trace t ++ [EvReadRow "T1" (Some [])] ->
        b = false)
  /\ @None (Message * Task) = None
  /\ (exists before d,
        1 <= d <= 3
        /\ trace (snd (try_to_acquire_a_task cfg0 rowless_world))
           = before ++ [EvSleep (inject_Z d)])
  /\ (forall h,
        ~ In (EvDelete h) (trace (snd (try_to_acquire_a_task cfg0 rowless_world))))
  /\ queue (snd (try_to_acquire_a_task cfg0 rowless_world)) = queue rowless_world.
Proof.
  assert (H1 : try_to_acquire_a_task cfg0 rowless_world
               = (Ok None, snd (try_to_acquire_a_task cfg0 rowless_world))).
  { vm_compute. reflexivity. }
  assert (H2 : trace (snd (try_to_acquire_a_task cfg0 rowless_world))
               = trace rowless_world
                 ++ trace (snd (try_to_acquire_a_task cfg0 rowless_world))).
  { vm_compute. reflexivity. }
  assert (H3 : In (EvReadRow "T1" (Some []))
                  (trace (snd (try_to_acquire_a_task cfg0 rowless_world)))).
  { vm_compute. auto 6. }
  assert (H4 : @Some (list Row) [] = None
               \/ (exists items : list Row,
                     Some [] = Some items /\ List.length items <> 1%nat)).
  { right. exists []. split; [reflexivity | discriminate]. }
  split; [exact H1|]. split; [exact H2|]. split; [exact H3|]. split; [exact H4|].
  exact (unreadable_row_is_handled_as_contention cfg0 rowless_world None _ _
           "T1" (Some []) H1 H2 H3 H4).
Defined.

Example acquire_in_rowless_world :
  trace (snd (try_to_acquire_a_task cfg0 rowless_world))
  = [EvReceive [message_T1 staged_stats];
     EvClaim "T1" "self" 1062 (Rejected "ConditionalCheckFailedException");
     EvCounterPre "agent_failed_to_claim_ddb_task" 1;
     EvReadRow "T1" (Some []);
     EvSleep 1]
  /\ queue (snd (try_to_acquire_a_task cfg0 rowless_world))
     = [message_T1 staged_stats].
Proof. vm_compute. split; reflexivity. Qed.

(** ** Further properties of the acquirer *)

(** X1.  With no message in the queue the acquirer returns [(None, None)]
    after counting [agent_no_messages_in_tasks_queue]: it takes one clock
    reading, makes no status-table call and leaves [AGENT_EXEC_TIMESTAMP_MS]
    as it was. *)
Theorem empty_queue_is_counted_and_nothing_is_claimed cfg s :
  queue s = [] ->
  exists s',
    try_to_acquire_a_task cfg s = (Ok None, s')
    /\ trace s' = trace s ++ [EvReceive [];
                              EvCounterPre "agent_no_messages_in_tasks_queue" 1]
    /\ store_calls s' = store_calls s
    /\ status_table s' = status_table s
    /\ AGENT_EXEC_TIMESTAMP_MS s' = AGENT_EXEC_TIMESTAMP_MS s
    /\ ticks s' = S (ticks s).
Proof.
  intros Hq. destruct (try_to_acquire_a_task cfg s) as [res s'] eqn:H.
  exists s'. unfold try_to_acquire_a_task in H.
  apply bind_cases in H.
  destruct H as [(msgs & s1 & Hrecv & H) | [(e & Hrecv & _) | (Hrecv & _)]];
    inv_all Hrecv.
  rewrite Ea, Hq in Ea1. cbn [firstn] in Ea1. subst msgs.
  inv_all H.
  repeat split; unwind; rewrite ?Hq; cbn [firstn]; rewrite <- ?app_assoc;
    reflexivity.
Qed.

Lemma empty_queue_is_counted_and_nothing_is_claimed_witness :
  queue (initial calm_script [] []) = []
  /\ exists s',
       try_to_acquire_a_task cfg0 (initial calm_script [] []) = (Ok None, s')
       /\ trace s'
          = trace (initial calm_script [] [])
            ++ [EvReceive [];
                EvCounterPre "agent_no_messages_in_tasks_queue" 1]
       /\ store_calls s' = store_calls (initial calm_script [] [])
       /\ status_table s' = status_table (initial calm_script [] [])
       /\ AGENT_EXEC_TIMESTAMP_MS s'
          = AGENT_EXEC_TIMESTAMP_MS (initial calm_script [] [])
       /\ ticks s' = S (ticks (initial calm_script [] [])).
Proof.
  split; [reflexivity|].
  apply (empty_queue_is_counted_and_nothing_is_claimed cfg0
           (initial calm_script [] [])).
  reflexivity.
Defined.
Ltac unwind_in H :=
  repeat match goal with
         | E : ?v = _ |- _ =>
             is_var v;
             lazymatch type of H with
             | context [v] =>
                 rewrite E in H;
                 cbn [script AGENT_EXEC_TIMESTAMP_MS execution_is_completed_flag
                      next_refresh_timestamp next_expiration_timestamp ticks
                      draws queue status_table store_calls invoke_calls polls
                      files trace set_AGENT_EXEC_TIMESTAMP_MS
                      set_execution_is_completed_flag set_next_refresh_timestamp
                      set_next_expiration_timestamp set_ticks set_draws set_queue
                      set_status_table set_store_calls set_invoke_calls set_polls
                      set_files set_trace fst snd] in H
             end
         end.

Lemma conditional_write_any tid cond upd s res s' :
  conditional_write tid cond upd s = (res, s') ->
  (exists r T,
     res = Ok r
     /\ s' = set_status_table T (set_store_calls (S (store_calls s)) s)
     /\ (forall c, r = Rejected c -> T = status_table s))
  \/ (exists e, res = Raise e /\ s' = set_store_calls (S (store_calls s)) s).
Proof.
  unfold conditional_write, bind, next_fault, gets, modify, ret, raise.
  intros H. cbn [status_table set_store_calls] in H.
  destruct (store_faults (script s) (store_calls s)) as [[code | e | resp]|].
  - inversion H; subst. left. exists (Rejected code), (status_table s).
    split; [reflexivity|]. split; [destruct s; reflexivity | auto].
  - inversion H; subst. right. eauto.
  - cbn [status_table set_store_calls] in H.
    destruct (table_get tid (status_table s)) as [rw|]; [destruct (cond rw)|];
      inversion H; subst; left.
    + eexists; eexists. split; [reflexivity|].
      split; [reflexivity | intros c Hc; discriminate].
    + eexists; exists (status_table s). split; [reflexivity|].
      split; [destruct s; reflexivity | auto].
    + eexists; exists (status_table s). split; [reflexivity|].
      split; [destruct s; reflexivity | auto].
  - cbn [status_table set_store_calls] in H.
    destruct (table_get tid (status_table s)) as [rw|]; [destruct (cond rw)|];
      inversion H; subst; left.
    + eexists; eexists. split; [reflexivity|].
      split; [reflexivity | intros c Hc; discriminate].
    + eexists; exists (status_table s). split; [reflexivity|].
      split; [destruct s; reflexivity | auto].
    + eexists; exists (status_table s). split; [reflexivity|].
      split; [destruct s; reflexivity | auto].
Qed.

Lemma claim_task_to_yourself_any task self ttl s res s' :
  claim_task_to_yourself task self ttl s = (res, s') ->
  (exists r T,
     res = Ok r
     /\ s' = set_trace (trace s ++ [EvClaim (task_id task) self ttl r])
               (set_status_table T (set_store_calls (S (store_calls s)) s))
     /\ (forall c, r = Rejected c -> T = status_table s))
  \/ (exists e, res = Raise e /\ s' = set_store_calls (S (store_calls s)) s).
Proof.
  unfold claim_task_to_yourself. intros H.
  apply bind_cases in H.
  destruct H as [(r & s1 & Hw & H) | [(e & Hw & Er) | (Hw & Er)]];
    apply conditional_write_any in Hw;
    destruct Hw as [(r' & T & Hr & Hs & HT) | (e' & Hr & Hs)]; try discriminate.
  - inversion Hr; subst r'. inv_all H. left. exists r, T.
    subst. auto.
  - right. exists e. subst. auto.
Qed.

Lemma read_task_row_any tid s res s' :
  read_task_row tid s = (res, s') ->
  (exists resp,
     res = Ok resp
     /\ s' = set_trace (trace s ++ [EvReadRow tid resp])
               (set_store_calls (S (store_calls s)) s))
  \/ (exists e, res = Raise e /\ s' = set_store_calls (S (store_calls s)) s).
Proof.
  unfold read_task_row, bind, next_fault, gets, emit, modify, ret, raise.
  intros H. cbn [status_table set_store_calls trace] in H.
  destruct (store_faults (script s) (store_calls s)) as [[code | e | resp]|];
    inversion H; subst; clear H;
    try (right; eexists; split; reflexivity);
    left; eexists; split; reflexivity.
Qed.

Lemma is_task_has_been_cancelled_any tid s res s' :
  is_task_has_been_cancelled tid s = (res, s') ->
  (exists resp,
     res = Ok (answers_cancelled resp)
     /\ s' = set_trace (trace s ++ [EvReadRow tid resp])
               (set_store_calls (S (store_calls s)) s))
  \/ (exists e, res = Raise e /\ s' = set_store_calls (S (store_calls s)) s).
Proof.
  unfold is_task_has_been_cancelled. intros H.
  apply bind_cases in H.
  destruct H as [(resp & s1 & Hr & H) | [(e & Hr & Er) | (Hr & Er)]];
    apply read_task_row_any in Hr;
    destruct Hr as [(resp' & Hr & Hs) | (e' & Hr & Hs)]; try discriminate.
  - inversion Hr; subst resp'. left. exists resp. subst s1.
    destruct resp as [[|item [|item2 items]]|]; cbn in H |- *;
      try (destruct (startswith (task_status item) "cancelled"));
      inv_all H; subst; auto.
  - right. exists e. subst. auto.
Qed.

(** The [try] block of the acquirer, however it ends: either the claim was
    accepted and nothing else was done, or no accepted claim was recorded. *)
Lemma claim_block_any cfg (message : Message) (task : Task) s res s' :
  (generate_next_ttl cfg ;;
   ttl <- get_next_expiration_timestamp ;;
   r <- claim_task_to_yourself task (SELF_ID cfg) ttl ;;
   if negb (succeeded r) then
     event_counter_pre_increment "agent_failed_to_claim_ddb_task" 1 ;;
     cancelled <- is_task_has_been_cancelled (task_id task) ;;
     if cancelled then
       message_delete message ;;
       ret false
     else
       d <- randint 1 3 ;;
       sleep (inject_Z d) ;;
       ret false
   else ret true) s = (res, s') ->
  exists l,
    trace s' = trace s ++ l
    /\ ((res = Ok true
         /\ l = [EvClaim (task_id task) (SELF_ID cfg)
                   (clock (script s) (ticks s)
                    + task_ttl_expiration_offset_sec cfg)%Q Accepted]
         /\ queue s' = queue s)
        \/ ((res = Ok false \/ exists e, res = Raise e)
            /\ forall t o x, ~ In (EvClaim t o x Accepted) l)).
Proof.
  intros H.
  apply bind_cases in H.
  destruct H as [(u & s1 & Hg & H) | [(e & Hg & _) | (Hg & _)]]; inv_all Hg.
  apply bind_cases in H.
  destruct H as [(ttl & s2 & Hx & H) | [(e & Hx & _) | (Hx & _)]]; inv_all Hx.
  apply bind_cases in H.
  destruct H as [(r & s3 & Hc & H) | [(e & Hc & Er) | (Hc & Er)]];
    apply claim_task_to_yourself_any in Hc;
    destruct Hc as [(r' & T & Hr & Hs3 & HT) | (e' & Hr & Hs3)];
    try discriminate.
  - inversion Hr; subst r'; clear Hr.
    destruct r as [|code]; cbn [succeeded negb] in H.
    + inv_all H. exists [EvClaim (task_id task) (SELF_ID cfg) ttl Accepted].
      split; [unwind; reflexivity|]. left.
      split; [unwind; reflexivity|]. split; [unwind; reflexivity|].
      unwind. reflexivity.
    + specialize (HT code eq_refl). subst T.
      apply bind_cases in H.
      destruct H as [(u1 & s4 & Hk & H) | [(e & Hk & _) | (Hk & _)]];
        inv_all Hk.
      apply bind_cases in H.
      destruct H as [(c & s5 & Hp & H) | [(e & Hp & Er) | (Hp & Er)]];
        apply is_task_has_been_cancelled_any in Hp;
        destruct Hp as [(resp & Hr & Hs5) | (e' & Hr & Hs5)];
        try discriminate.
      * inversion Hr; subst c; clear Hr.
        destruct (answers_cancelled resp).
        -- inv_all H. eexists. split; [unwind; rewrite <- !app_assoc; reflexivity|].
           right. split; [left; unwind; reflexivity|].
           cbn. intuition discriminate.
        -- inv_all H. eexists. split; [unwind; rewrite <- !app_assoc; reflexivity|].
           right. split; [left; unwind; reflexivity|].
           cbn. intuition discriminate.
      * eexists. split; [unwind; rewrite <- !app_assoc; reflexivity|].
        right. split; [right; exists e; assumption|].
        cbn. intuition discriminate.
  - exists []. split; [unwind; rewrite app_nil_r; reflexivity|].
    right. split; [right; exists e; assumption|]. cbn. auto.
Qed.

(** The [try] block as it stands in [try_to_acquire_a_task]. *)
Lemma acquire_block_any cfg (m : Message) s r0 sx :
  try_except
    (generate_next_ttl cfg ;;
     ttl <- get_next_expiration_timestamp ;;
     r <- claim_task_to_yourself
            (mkTask (task_id (body m)) (task_definition (body m))
               (Some (receipt_handle m)) (stats (body m)))
            (SELF_ID cfg) ttl ;;
     if negb (succeeded r) then
       event_counter_pre_increment "agent_failed_to_claim_ddb_task" 1 ;;
       cancelled <- is_task_has_been_cancelled
                      (task_id
                         (mkTask (task_id (body m)) (task_definition (body m))
                            (Some (receipt_handle m)) (stats (body m)))) ;;
       if cancelled then
         message_delete m ;;
         ret false
       else
         d <- randint 1 3 ;;
         sleep (inject_Z d) ;;
         ret false
     else ret true)
    (fun error_acquiring => raise error_acquiring) s = (r0, sx) ->
  exists l,
    trace sx = trace s ++ l
    /\ ((r0 = Ok true
         /\ l = [EvClaim (task_id (body m)) (SELF_ID cfg)
                   (clock (script s) (ticks s)
                    + task_ttl_expiration_offset_sec cfg)%Q Accepted]
         /\ queue sx = queue s)
        \/ ((r0 = Ok false \/ exists e, r0 = Raise e)
            /\ forall t o x, ~ In (EvClaim t o x Accepted) l)).
Proof.
  intros Hb. rewrite try_except_reraise in Hb.
  apply claim_block_any in Hb. exact Hb.
Qed.

(** X3.  When the claim is accepted but the task's [stats] have no entry for
    [stage3_agent_01_task_acquired_sqs_tstmp], the acquirer raises [KeyError]
    right after extending the visibility: the success counter is not emitted
    and the message is not deleted. *)
Theorem unstaged_stats_raise_after_the_claim
  cfg s res s' m rest evs tid owner ttl d :
  try_to_acquire_a_task cfg s = (res, s') ->
  queue s = m :: rest ->
  trace s' = trace s ++ evs ->
  In (EvClaim tid owner ttl Accepted) evs ->
  stats (body m) = PDict d ->
  dict_get "stage3_agent_01_task_acquired_sqs_tstmp" d = None ->
  res = Raise (KeyError "stage3_agent_01_task_acquired_sqs_tstmp")
  /\ evs = [EvReceive [m];
            EvClaim (task_id (body m)) (SELF_ID cfg) ttl Accepted;
            EvChangeVisibility (receipt_handle m)
              (agent_sqs_visibility_timeout_sec cfg)]
  /\ queue s' = queue s.
Proof.
  unfold try_to_acquire_a_task. intros H Hq Ht Hin Hst Hget.
  apply bind_cases in H.
  destruct H as [(msgs & s1 & Hrecv & H) | [(e & Hrecv & _) | (Hrecv & _)]];
    inv_all Hrecv.
  rewrite Ea, Hq in Ea1. cbn [firstn] in Ea1. subst msgs.
  apply bind_cases in H.
  destruct H as [(t0 & s9 & Ht0 & H) | [(e & Ht0 & _) | (Ht0 & _)]];
    inv_all Ht0.
  apply bind_cases in H.
  destruct H as [(t1 & s10 & Ht1 & H) | [(e & Ht1 & _) | (Ht1 & _)]];
    inv_all Ht1.
  apply bind_cases in H.
  destruct H as [(u & s11 & Hm & H) | [(e & Hm & _) | (Hm & _)]]; inv_all Hm.
  apply bind_cases in H.
  assert (Hev : forall l,
            (forall t o x, ~ In (EvClaim t o x Accepted) l) ->
            evs = [EvReceive [m]] ++ l -> False).
  { intros l Hno ->. destruct Hin as [Hin | Hin]; [discriminate|].
    eapply Hno; eauto. }
  destruct H as [(claimed & s12 & Hb & H) | [(e & Hb & Er) | (Hb & Er)]];
    apply acquire_block_any in Hb; destruct Hb as (l & Hl & Hcase).
  - destruct Hcase as [(Hr & -> & Hq12) | ([Hr | (e & Hr)] & Hno)];
      try discriminate.
    + inversion Hr; subst claimed; clear Hr.
      apply bind_cases in H.
      destruct H as [(u1 & s13 & Hv & H) | [(e & Hv & _) | (Hv & _)]];
        inv_all Hv.
      apply bind_cases in H.
      unfold set_stage_tstmp in H. cbn [stats] in H. rewrite Hst, Hget in H.
      destruct H as [(tk & s14 & Hk & H) | [(e & Hk & Er) | (Hk & Er)]];
        inv_all Hk.
      subst e res.
      assert (Hevs : evs = [EvReceive [m];
                            EvClaim (task_id (body m)) (SELF_ID cfg)
                              (clock (script s) (2 + ticks s)
                               + task_ttl_expiration_offset_sec cfg)%Q Accepted;
                            EvChangeVisibility (receipt_handle m)
                              (agent_sqs_visibility_timeout_sec cfg)]).
      { apply (app_inv_head (trace s)). rewrite <- Ht. unwind. rewrite Hl.
        unwind. rewrite Hq. cbn [firstn]. rewrite <- !app_assoc. reflexivity. }
      split; [reflexivity|]. split.
      * rewrite Hevs in Hin |- *. cbn in Hin.
        destruct Hin as [Hin | [Hin | [Hin | []]]]; try discriminate.
        inversion Hin. reflexivity.
      * unwind. rewrite Hq12. unwind. reflexivity.
    + inversion Hr; subst claimed; clear Hr. inv_all H. exfalso.
      apply (Hev l Hno). apply (app_inv_head (trace s)). rewrite <- Ht.
      unwind. rewrite Hl. unwind. rewrite Hq. cbn [firstn].
      rewrite <- !app_assoc. reflexivity.
  - exfalso. destruct Hcase as [(Hr & _) | (_ & Hno)]; [discriminate|].
    apply (Hev l Hno). apply (app_inv_head (trace s)). rewrite <- Ht.
    rewrite Hl. unwind. rewrite Hq. cbn [firstn].
    rewrite <- !app_assoc. reflexivity.
  - exfalso. destruct Hcase as [(Hr & _) | ([Hr | (e & Hr)] & _)];
      discriminate.
Qed.

Lemma unstaged_stats_raise_after_the_claim_witness :
  try_to_acquire_a_task cfg0 unstaged_world
  = (Raise (KeyError "stage3_agent_01_task_acquired_sqs_tstmp"),
     snd (try_to_acquire_a_task cfg0 unstaged_world))
  /\ queue unstaged_world = message_T1 (PDict []) :: []
  /\ trace (snd (try_to_acquire_a_task cfg0 unstaged_world))
     = trace unstaged_world
       ++ trace (snd (try_to_acquire_a_task cfg0 unstaged_world))
  /\ In (EvClaim "T1" "self" (clock calm_script 2 + 60)%Q Accepted)
        (trace (snd (try_to_acquire_a_task cfg0 unstaged_world)))
  /\ stats (body (message_T1 (PDict []))) = PDict []
  /\ dict_get "stage3_agent_01_task_acquired_sqs_tstmp" [] = None
  /\ Raise (KeyError "stage3_agent_01_task_acquired_sqs_tstmp")
     = @Raise (option (Message * Task))
         (KeyError "stage3_agent_01_task_acquired_sqs_tstmp")
  /\ trace (snd (try_to_acquire_a_task cfg0 unstaged_world))
     = [EvReceive [message_T1 (PDict [])];
        EvClaim (task_id (body (message_T1 (PDict [])))) (SELF_ID cfg0)
          (clock calm_script 2 + 60)%Q Accepted;
        EvChangeVisibility (receipt_handle (message_T1 (PDict [])))
          (agent_sqs_visibility_timeout_sec cfg0)]
  /\ queue (snd (try_to_acquire_a_task cfg0 unstaged_world))
     = queue unstaged_world.
Proof.
  assert (H1 : try_to_acquire_a_task cfg0 unstaged_world
               = (Raise (KeyError "stage3_agent_01_task_acquired_sqs_tstmp"),
                  snd (try_to_acquire_a_task cfg0 unstaged_world))).
  { vm_compute. reflexivity. }
  assert (H2 : queue unstaged_world = message_T1 (PDict []) :: []).
  { reflexivity. }
  assert (H3 : trace (snd (try_to_acquire_a_task cfg0 unstaged_world))
               = trace unstaged_world
                 ++ trace (snd (try_to_acquire_a_task cfg0 unstaged_world))).
  { vm_compute. reflexivity. }
  assert (H4 : In (EvClaim "T1" "self" (clock calm_script 2 + 60)%Q Accepted)
                  (trace (snd (try_to_acquire_a_task cfg0 unstaged_world)))).
  { vm_compute. auto. }
  assert (H5 : stats (body (message_T1 (PDict []))) = PDict []).
  { reflexivity. }
  assert (H6 : dict_get "stage3_agent_01_task_acquired_sqs_tstmp" [] = None).
  { reflexivity. }
  split; [exact H1|]. split; [exact H2|]. split; [exact H3|].
  split; [exact H4|]. split; [exact H5|]. split; [exact H6|].
  exact (unstaged_stats_raise_after_the_claim cfg0 unstaged_world _ _ _ _ _
           "T1" "self" _ [] H1 H2 H3 H4 H5 H6).
Defined.

Example acquire_in_unstaged_world :
  status_table (snd (try_to_acquire_a_task cfg0 unstaged_world))
  = [("T1", mkRow "processing-self" "self" 1062 1 0)].
Proof. vm_compute. reflexivity. Qed.

(** X2.  When the acquirer returns a message and a task, the message is the
    head of the queue and is still in it, the claim was accepted with an
    expiration generated from the third clock reading, the visibility was
    extended to [agent_sqs_visibility_timeout_sec], the task carries the
    receipt handle, [stage3_agent_01] holds the reading taken right after the
    receive (before the claim) and [stage3_agent_02] the one taken after it. *)
Theorem acquired_task_carries_handle_and_stage3_stamps cfg s m task' s' :
  try_to_acquire_a_task cfg s = (Ok (Some (m, task')), s') ->
  exists rest,
    queue s = m :: rest
    /\ trace s' = trace s
                  ++ won_claim_events cfg m
                       (clock (script s) (2 + ticks s)
                        + task_ttl_expiration_offset_sec cfg)%Q
    /\ task_id task' = task_id (body m)
    /\ sqs_handle_id task' = Some (receipt_handle m)
    /\ stage_tstmp task' "stage3_agent_01_task_acquired_sqs_tstmp"
       = Some (reading_ms (script s) (ticks s))
    /\ stage_tstmp task' "stage3_agent_02_task_acquired_ddb_tstmp"
       = Some (reading_ms (script s) (3 + ticks s))
    /\ ticks s' = (4 + ticks s)%nat
    /\ queue s' = queue s.
Proof.
  intros H. apply try_to_acquire_a_task_Ok in H.
  destruct H as (_ & [(_ & Hr & _) | (m0 & rest & ttl0 & Hq & Httl & H)]);
    [discriminate|].
  destruct H as [(t0 & Hr & Ht & Hid & Hh & H1 & H2 & Htk & Hq')
                | (code0 & resp & Hr & _)]; [|discriminate].
  inversion Hr; subst m0 t0. subst ttl0. exists rest.
  repeat split; assumption.
Qed.

Lemma acquired_task_carries_handle_and_stage3_stamps_witness :
  try_to_acquire_a_task cfg0 pending_world
  = (Ok (Some (message_T1 staged_stats,
               acquired_task (fst (try_to_acquire_a_task cfg0 pending_world)))),
     snd (try_to_acquire_a_task cfg0 pending_world))
  /\ exists rest,
       queue pending_world = message_T1 staged_stats :: rest
       /\ trace (snd (try_to_acquire_a_task cfg0 pending_world))
          = trace pending_world
            ++ won_claim_events cfg0 (message_T1 staged_stats)
                 (clock (script pending_world) (2 + ticks pending_world)
                  + task_ttl_expiration_offset_sec cfg0)%Q
       /\ task_id
            (acquired_task (fst (try_to_acquire_a_task cfg0 pending_world)))
          = task_id (body (message_T1 staged_stats))
       /\ sqs_handle_id
            (acquired_task (fst (try_to_acquire_a_task cfg0 pending_world)))
          = Some (receipt_handle (message_T1 staged_stats))
       /\ stage_tstmp
            (acquired_task (fst (try_to_acquire_a_task cfg0 pending_world)))
            "stage3_agent_01_task_acquired_sqs_tstmp"
          = Some (reading_ms (script pending_world) (ticks pending_world))
       /\ stage_tstmp
            (acquired_task (fst (try_to_acquire_a_task cfg0 pending_world)))
            "stage3_agent_02_task_acquired_ddb_tstmp"
          = Some (reading_ms (script pending_world) (3 + ticks pending_world))
       /\ ticks (snd (try_to_acquire_a_task cfg0 pending_world))
          = (4 + ticks pending_world)%nat
       /\ queue (snd (try_to_acquire_a_task cfg0 pending_world))
          = queue pending_world.
Proof.
  split.
  - vm_compute. reflexivity.
  - apply (acquired_task_carries_handle_and_stage3_stamps cfg0 pending_world).
    vm_compute. reflexivity.
Defined.


(** ** The lease renewer *)

Lemma update_own_tasks_ttl_any task self ttl s res s' :
  update_own_tasks_ttl task self ttl s = (res, s') ->
  (exists r T,
     res = Ok r
     /\ s' = set_trace (trace s ++ [EvUpdateTTL (task_id task) self ttl r])
               (set_status_table T (set_store_calls (S (store_calls s)) s))
     /\ (forall c, r = Rejected c -> T = status_table s))
  \/ (exists e, res = Raise e /\ s' = set_store_calls (S (store_calls s)) s).
Proof.
  unfold update_own_tasks_ttl. intros H.
  apply bind_cases in H.
  destruct H as [(r & s1 & Hw & H) | [(e & Hw & Er) | (Hw & Er)]];
    apply conditional_write_any in Hw;
    destruct Hw as [(r' & T & Hr & Hs & HT) | (e' & Hr & Hs)]; try discriminate.
  - inversion Hr; subst r'. inv_all H. left. exists r, T.
    subst. auto.
  - right. exists e. subst. auto.
Qed.

Lemma update_own_tasks_ttl_answer cfg task ttl s res s' :
  update_own_tasks_ttl task (SELF_ID cfg) ttl s = (res, s') ->
  match owned_write_answer cfg task s (store_calls s) with
  | Some r => res = Ok r
  | None => exists e, res = Raise e
  end.
Proof.
  unfold update_own_tasks_ttl, conditional_write, owned_write_answer, bind,
    next_fault, gets, modify, emit, ret, raise.
  intros H. cbn [status_table set_store_calls] in H.
  destruct (store_faults (script s) (store_calls s)) as [[code | e | resp]|].
  - inversion H; reflexivity.
  - inversion H; eauto.
  - cbn [status_table set_store_calls] in H.
    destruct (table_get (task_id task) (status_table s)) as [rw|];
      [destruct (String.eqb (task_owner rw) (SELF_ID cfg))|];
      inversion H; reflexivity.
  - cbn [status_table set_store_calls] in H.
    destruct (table_get (task_id task) (status_table s)) as [rw|];
      [destruct (String.eqb (task_owner rw) (SELF_ID cfg))|];
      inversion H; reflexivity.
Qed.

(** One turn of the loop of [update_ttl_if_required] that did not raise: the
    state after the attempt and what the loop does next. *)
Lemma update_ttl_loop_turn cfg fuel task count s res s' :
  update_ttl_loop cfg (S fuel) task count s = (res, s') ->
  (exists e, res = Raise e /\ trace s' = trace s
             /\ owned_write_answer cfg task s (store_calls s) = None)
  \/ exists r s1,
       owned_write_answer cfg task s (store_calls s) = Some r
       /\ trace s1 = trace s ++ [renewal_attempt cfg task (script s) (ticks s) r]
       /\ script s1 = script s
       /\ ticks s1 = (3 + ticks s)%nat
       /\ store_calls s1 = S (store_calls s)
       /\ execution_is_completed_flag s1 = execution_is_completed_flag s
       /\ queue s1 = queue s
       /\ (forall c, r = Rejected c -> status_table s1 = status_table s)
       /\ match r with
          | Rejected c =>
              if is_throttling c
              then update_ttl_loop cfg fuel task (count + 1) s1 = (res, s')
              else res = Ok false /\ s' = s1
          | Accepted => res = Ok true /\ s' = s1
          end.
Proof.
  cbn [update_ttl_loop]. intros H.
  apply bind_cases in H.
  destruct H as [(t1 & sa & H1 & H) | [(e & H1 & _) | (H1 & _)]]; inv_all H1.
  apply bind_cases in H.
  destruct H as [(u & sb & H2 & H) | [(e & H2 & _) | (H2 & _)]]; inv_all H2.
  apply bind_cases in H.
  destruct H as [(ttl & sc & H3 & H) | [(e & H3 & _) | (H3 & _)]]; inv_all H3.
  apply bind_cases in H.
  assert (Hans : owned_write_answer cfg task sc (store_calls sc)
                 = owned_write_answer cfg task s (store_calls s)).
  { unfold owned_write_answer. unwind. reflexivity. }
  destruct H as [(r & sd & H4 & H) | [(e & H4 & Er) | (H4 & Er)]];
    pose proof (update_own_tasks_ttl_answer _ _ _ _ _ _ H4) as Ha;
    rewrite Hans in Ha;
    apply update_own_tasks_ttl_any in H4;
    destruct H4 as [(r' & T & Hr & Hs4 & HT) | (e' & Hr & Hs4)];
    try discriminate.
  - inversion Hr; subst r'; clear Hr.
    apply bind_cases in H.
    destruct H as [(t2 & se & H5 & H) | [(e & H5 & _) | (H5 & _)]]; inv_all H5.
    right. exists r, se.
    split.
    { destruct (owned_write_answer cfg task s (store_calls s)) as [r0|];
        [inversion Ha; reflexivity | destruct Ha as (e0 & He0); discriminate]. }
    split; [unfold renewal_attempt; unwind; reflexivity|].
    split; [unwind; reflexivity|]. split; [unwind; reflexivity|].
    split; [unwind; reflexivity|]. split; [unwind; reflexivity|].
    split; [unwind; reflexivity|].
    split; [intros c Hc; unwind; rewrite (HT c Hc); unwind; reflexivity|].
    destruct r as [|c]; [|destruct (is_throttling c)];
      try (inv_all H; split; [assumption | congruence]).
    exact H.
  - left. exists e. split; [assumption|]. split; [unwind; reflexivity|].
    destruct (owned_write_answer cfg task s (store_calls s)) as [r0|];
      [subst res; discriminate | reflexivity].
Qed.

Lemma update_ttl_loop_Ok cfg fuel : forall task count s ok s',
  update_ttl_loop cfg fuel task count s = (Ok ok, s') ->
  exists codes r,
    Forall (fun c => is_throttling c = true) codes /\ settled r
    /\ ok = succeeded r
    /\ trace s' = trace s
                  ++ throttled_renewals cfg task (script s) (ticks s) codes
                  ++ [renewal_attempt cfg task (script s)
                        (3 * List.length codes + ticks s) r]
    /\ script s' = script s
    /\ ticks s' = (3 * S (List.length codes) + ticks s)%nat
    /\ store_calls s' = (S (List.length codes) + store_calls s)%nat
    /\ execution_is_completed_flag s' = execution_is_completed_flag s
    /\ queue s' = queue s.
Proof.
  induction fuel as [|fuel IH]; intros task count s ok s' H.
  - cbn in H. discriminate.
  - apply update_ttl_loop_turn in H.
    destruct H as [(e & He & _) | (r & s1 & _ & Ht & Hsc & Htk & Hst & Hfl & Hq & _ & H)];
      [discriminate|].
    destruct r as [|c].
    + destruct H as (Hr & ->). inversion Hr; subst ok.
      exists [], Accepted. cbn [List.length throttled_renewals app Nat.mul Nat.add].
      repeat split; auto. intros c Hc; discriminate.
    + destruct (is_throttling c) eqn:Hc.
      * apply IH in H.
        destruct H as (codes & r & Hall & Hset & Hok & Ht' & Hsc' & Htk' & Hst'
                       & Hfl' & Hq').
        exists (c :: codes), r.
        split; [constructor; assumption|]. split; [assumption|].
        split; [assumption|].
        split.
        { rewrite Ht', Ht, Hsc, Htk. cbn [throttled_renewals List.length].
          rewrite <- app_assoc. cbn [app].
          replace (3 * S (List.length codes) + ticks s)%nat
            with (3 * List.length codes + (3 + ticks s))%nat by lia.
          reflexivity. }
        split; [congruence|].
        split; [rewrite Htk', Htk; cbn [List.length]; lia|].
        split; [rewrite Hst', Hst; cbn [List.length]; lia|].
        split; congruence.
      * destruct H as (Hr & ->). inversion Hr; subst ok.
        exists [], (Rejected c).
        cbn [List.length throttled_renewals app Nat.mul Nat.add].
        repeat split; auto. intros c' Hc'. inversion Hc'; subst. assumption.
Qed.

(** While every answer of the store is a throttling refusal, the loop of
    [update_ttl_if_required] goes on: it has not returned after any number
    of turns. *)
Lemma update_ttl_loop_throttled cfg task fuel : forall count s,
  (forall i, exists c,
     store_faults (script s) (i + store_calls s) = Some (Reject c)
     /\ is_throttling c = true) ->
  fst (update_ttl_loop cfg fuel task count s) = OutOfFuel.
Proof.
  induction fuel as [|fuel IH]; intros count s Hthr; [reflexivity|].
  destruct (update_ttl_loop cfg (S fuel) task count s) as [res s'] eqn:H.
  apply update_ttl_loop_turn in H.
  destruct (Hthr O) as (c & Hc & Hthc). cbn [Nat.add] in Hc.
  assert (Hans : owned_write_answer cfg task s (store_calls s)
                 = Some (Rejected c)).
  { unfold owned_write_answer. rewrite Hc. reflexivity. }
  destruct H as [(e & _ & _ & Hnone) | (r & s1 & Hr & _ & Hsc & _ & Hst & _ & _ & _ & H)].
  - rewrite Hans in Hnone. discriminate.
  - rewrite Hans in Hr. inversion Hr; subst r. rewrite Hthc in H.
    specialize (IH (count + 1) s1).
    rewrite H in IH. apply IH. intros i.
    destruct (Hthr (S i)) as (c' & Hc' & Hthc').
    exists c'. rewrite Hsc, Hst.
    replace (i + S (store_calls s))%nat with (S i + store_calls s)%nat by lia.
    auto.
Qed.

Lemma update_ttl_if_required_Ok cfg fuel task s ok s' :
  update_ttl_if_required cfg fuel task s = (Ok ok, s') ->
  script s' = script s
  /\ execution_is_completed_flag s' = execution_is_completed_flag s
  /\ queue s' = queue s
  /\ ((refresh_due cfg s = false /\ ok = true /\ trace s' = trace s
       /\ store_calls s' = store_calls s)
      \/ (refresh_due cfg s = true
          /\ exists codes r,
               Forall (fun c => is_throttling c = true) codes /\ settled r
               /\ ok = succeeded r
               /\ trace s' = trace s
                    ++ throttled_renewals cfg task (script s)
                         (ticks_after_test s) codes
                    ++ [renewal_attempt cfg task (script s)
                          (3 * List.length codes + ticks_after_test s) r]
               /\ store_calls s'
                  = (S (List.length codes) + store_calls s)%nat)).
Proof.
  unfold update_ttl_if_required, refresh_due, ticks_after_test. intros H.
  apply bind_Ok in H. destruct H as (refresh & sa & Hr & H). inv_keep Hr.
  subst refresh sa.
  apply bind_Ok in H. destruct H as (required & sb & Hreq & H).
  destruct (Qeq_bool (next_refresh_timestamp s) 0) eqn:Hz.
  - inv_keep Hreq. subst required sb. cbn [orb].
    apply update_ttl_loop_Ok in H.
    destruct H as (codes & r & Hall & Hset & Hok & Ht & Hsc & _ & Hst & Hfl & Hq).
    repeat split; try assumption. right. split; [reflexivity|].
    exists codes, r. repeat split; assumption.
  - inv_keep Hreq. cbn [orb].
    assert (Hreq : required
                   = Qlt_bool (next_refresh_timestamp s)
                       (clock (script s) (ticks s)
                        + work_proc_status_pull_interval_sec cfg)%Q).
    { unwind. reflexivity. }
    rewrite <- Hreq. destruct required.
    + apply update_ttl_loop_Ok in H.
      destruct H as (codes & r & Hall & Hset & Hok & Ht & Hsc & _ & Hst & Hfl & Hq).
      assert (Hsb : script sb = script s) by (unwind; reflexivity).
      assert (Htb : ticks sb = S (ticks s)) by (unwind; reflexivity).
      assert (Hcb : store_calls sb = store_calls s) by (unwind; reflexivity).
      assert (Hrb : trace sb = trace s) by (unwind; reflexivity).
      assert (Hfb : execution_is_completed_flag sb
                    = execution_is_completed_flag s) by (unwind; reflexivity).
      assert (Hqb : queue sb = queue s) by (unwind; reflexivity).
      split; [congruence|]. split; [congruence|]. split; [congruence|].
      right. split; [reflexivity|]. exists codes, r.
      repeat split; try assumption.
      * rewrite Ht, Hsb, Htb, Hrb. reflexivity.
      * rewrite Hst, Hcb. reflexivity.
    + inv_keep H.
      split; [unwind; reflexivity|]. split; [unwind; reflexivity|].
      split; [unwind; reflexivity|].
      left. repeat split; unwind; reflexivity.
Qed.

(** X4.  One turn of the renewer while the execution is in flight.  A
    heartbeat update is issued if and only if [next_refresh_timestamp] is 0
    or lies before the present time plus the polling interval.  When it is
    issued, every attempt refused with a throttling code is followed by
    another one, each writing the expiration generated from its own clock
    reading, until an attempt is accepted (the renewer then sleeps one
    interval) or refused otherwise (it then counts
    [counter_update_ttl_failed], submits the measurements and returns
    [False]). *)
Theorem renewal_is_issued_iff_due_and_repeated_while_throttled
  cfg fuel task s st s' :
  execution_is_completed_flag s = 0 ->
  do_ttl_updates_thread_step cfg fuel task s = (Ok st, s') ->
  exists updates ok,
    trace s' = trace s ++ updates ++ renewal_epilogue cfg task ok
    /\ st = (if ok then Sleeping else ReturnedFalse)
    /\ (refresh_due cfg s = false -> updates = [] /\ ok = true)
    /\ (refresh_due cfg s = true ->
        exists codes r,
          Forall (fun c => is_throttling c = true) codes /\ settled r
          /\ ok = succeeded r
          /\ updates
             = throttled_renewals cfg task (script s) (ticks_after_test s) codes
               ++ [renewal_attempt cfg task (script s)
                     (3 * List.length codes + ticks_after_test s) r]).
Proof.
  unfold do_ttl_updates_thread_step. intros Hflag H.
  apply bind_Ok in H. destruct H as (flag & sa & Hg & H). inv_keep Hg.
  subst flag sa. rewrite Hflag in H. cbn [Z.eqb] in H.
  apply bind_Ok in H. destruct H as (ok & sb & Hu & H).
  apply update_ttl_if_required_Ok in Hu.
  destruct Hu as (_ & _ & _ & Hu).
  assert (Hep : trace s' = trace sb ++ renewal_epilogue cfg task ok
                /\ st = (if ok then Sleeping else ReturnedFalse)).
  { destruct ok; cbn [negb] in H; inv_keep H; unfold renewal_epilogue;
      (split; [unwind; rewrite <- ?app_assoc; reflexivity
              | unwind; reflexivity]). }
  destruct Hep as (Hep & Hst).
  destruct Hu as [(Hdue & Hok & Ht & _) | (Hdue & codes & r & Hall & Hset & Hok & Ht & _)].
  - exists [], ok. rewrite Hep, Ht. cbn [app].
    repeat split; try assumption; rewrite Hdue in *; try discriminate.
  - exists (throttled_renewals cfg task (script s) (ticks_after_test s) codes
            ++ [renewal_attempt cfg task (script s)
                  (3 * List.length codes + ticks_after_test s) r]), ok.
    rewrite Hep, Ht. rewrite <- !app_assoc.
    split; [reflexivity|]. split; [assumption|].
    split; [rewrite Hdue; discriminate|].
    intros _. exists codes, r. repeat split; assumption.
Qed.

Lemma renewal_is_issued_iff_due_and_repeated_while_throttled_witness :
  execution_is_completed_flag throttled_world = 0
  /\ do_ttl_updates_thread_step cfg0 5 (task_T1 staged_stats) throttled_world
     = (Ok Sleeping,
        snd (do_ttl_updates_thread_step cfg0 5 (task_T1 staged_stats)
               throttled_world))
  /\ exists updates ok,
       trace (snd (do_ttl_updates_thread_step cfg0 5 (task_T1 staged_stats)
                     throttled_world))
       = trace throttled_world ++ updates
         ++ renewal_epilogue cfg0 (task_T1 staged_stats) ok
       /\ Sleeping = (if ok then Sleeping else ReturnedFalse)
       /\ (refresh_due cfg0 throttled_world = false -> updates = [] /\ ok = true)
       /\ (refresh_due cfg0 throttled_world = true ->
           exists codes r,
             Forall (fun c => is_throttling c = true) codes /\ settled r
             /\ ok = succeeded r
             /\ updates
                = throttled_renewals cfg0 (task_T1 staged_stats)
                    (script throttled_world) (ticks_after_test throttled_world)
                    codes
                  ++ [renewal_attempt cfg0 (task_T1 staged_stats)
                        (script throttled_world)
                        (3 * List.length codes
                         + ticks_after_test throttled_world) r]).
Proof.
  split; [reflexivity|]. split.
  - vm_compute. reflexivity.
  - apply (renewal_is_issued_iff_due_and_repeated_while_throttled cfg0 5
             (task_T1 staged_stats) throttled_world).
    + reflexivity.
    + vm_compute. reflexivity.
Defined.

Example renewal_in_throttled_world :
  trace (snd (do_ttl_updates_thread_step cfg0 5 (task_T1 staged_stats)
                throttled_world))
  = [EvUpdateTTL "T1" "self" 1061 (Rejected "ThrottlingException");
     EvUpdateTTL "T1" "self" 1064 (Rejected "ThrottlingException");
     EvUpdateTTL "T1" "self" 1067 Accepted;
     EvSleep (1 # 2)]
  /\ status_table (snd (do_ttl_updates_thread_step cfg0 5 (task_T1 staged_stats)
                          throttled_world))
     = [("T1", mkRow "processing-self" "self" 1067 0 0)].
Proof. vm_compute. split; reflexivity. Qed.

Lemma update_ttl_if_required_due cfg fuel task s :
  refresh_due cfg s = true ->
  exists s0,
    update_ttl_if_required cfg fuel task s = update_ttl_loop cfg fuel task 0 s0
    /\ script s0 = script s /\ store_calls s0 = store_calls s.
Proof.
  unfold refresh_due, update_ttl_if_required, bind,
    get_next_refresh_timestamp, gets, time_time, ret.
  destruct (Qeq_bool (next_refresh_timestamp s) 0); cbn [orb].
  - intros _. exists s. auto.
  - intros ->. eexists. split; [reflexivity|]. split; reflexivity.
Qed.

(** X5.  The renewer has no retry limit: while the store keeps refusing the
    heartbeat update with a throttling code, a turn of the renewer that has
    an update to make does not come to an end, however long it runs. *)
Theorem renewal_goes_on_while_throttled cfg fuel task s :
  execution_is_completed_flag s = 0 ->
  refresh_due cfg s = true ->
  (forall i, exists c,
     store_faults (script s) (i + store_calls s) = Some (Reject c)
     /\ is_throttling c = true) ->
  fst (do_ttl_updates_thread_step cfg fuel task s) = OutOfFuel.
Proof.
  intros Hflag Hdue Hthr.
  destruct (update_ttl_if_required_due cfg fuel task s Hdue)
    as (s0 & Heq & Hsc & Hst).
  pose proof (update_ttl_loop_throttled cfg task fuel 0 s0) as Hloop.
  rewrite Hsc, Hst in Hloop. specialize (Hloop Hthr).
  unfold do_ttl_updates_thread_step, bind, gets.
  rewrite Hflag. cbn [Z.eqb]. rewrite Heq.
  destruct (update_ttl_loop cfg fuel task 0 s0) as [res sx].
  cbn [fst] in Hloop. subst res. reflexivity.
Qed.

Lemma renewal_goes_on_while_throttled_witness :
  execution_is_completed_flag congested_world = 0
  /\ refresh_due cfg0 congested_world = true
  /\ (forall i, exists c,
        store_faults (script congested_world) (i + store_calls congested_world)
        = Some (Reject c)
        /\ is_throttling c = true)
  /\ fst (do_ttl_updates_thread_step cfg0 7 (task_T1 staged_stats)
            congested_world)
     = OutOfFuel.
Proof.
  assert (H1 : execution_is_completed_flag congested_world = 0) by reflexivity.
  assert (H2 : refresh_due cfg0 congested_world = true) by reflexivity.
  assert (H3 : forall i, exists c,
             store_faults (script congested_world)
               (i + store_calls congested_world)
             = Some (Reject c)
             /\ is_throttling c = true).
  { intros i. exists "ProvisionedThroughputExceededException".
    split; reflexivity. }
  split; [exact H1|]. split; [exact H2|]. split; [exact H3|].
  exact (renewal_goes_on_while_throttled cfg0 7 (task_T1 staged_stats)
           congested_world H1 H2 H3).
Defined.


(** ** The remote invocation *)

(** X6.  When the payload returned by the remote function contains
    ["BOOTSTRAP ERROR"], the execution marks itself completed, counts
    [bootstrap_failure] and does nothing else: no artifact is put, the status
    table is not written, and the queue message is not deleted. *)
Theorem bootstrap_failure_commits_nothing
  cfg fuel perf task sqs_msg t_start response logs ret_value s :
  LogResult response = inr logs ->
  Payload response = inr ret_value ->
  contains "BOOTSTRAP ERROR" ret_value = true ->
  do_task_local_lambda_execution_thread_resume cfg fuel perf task sqs_msg
    t_start response s
  = (Ok (ret_value, task),
     set_trace (trace s ++ [EvCounterPost "bootstrap_failure" 1])
       (set_execution_is_completed_flag 1 s)).
Proof.
  intros Hlog Hpay Hmark.
  unfold do_task_local_lambda_execution_thread_resume.
  rewrite Hlog, Hpay. unfold lift, bind, ret, modify. rewrite Hmark.
  reflexivity.
Qed.

Lemma bootstrap_failure_commits_nothing_witness :
  LogResult (mkLambdaResponse (inr "log") (inr "BOOTSTRAP ERROR: no runtime"))
  = inr "log"
  /\ Payload (mkLambdaResponse (inr "log") (inr "BOOTSTRAP ERROR: no runtime"))
     = inr "BOOTSTRAP ERROR: no runtime"
  /\ contains "BOOTSTRAP ERROR" "BOOTSTRAP ERROR: no runtime" = true
  /\ do_task_local_lambda_execution_thread_resume cfg0 5 perf_tracker_post
       (task_T1 staged_stats) (message_T1 staged_stats) 1000
       (mkLambdaResponse (inr "log") (inr "BOOTSTRAP ERROR: no runtime"))
       owned_world
     = (Ok ("BOOTSTRAP ERROR: no runtime", task_T1 staged_stats),
        set_trace (trace owned_world ++ [EvCounterPost "bootstrap_failure" 1])
          (set_execution_is_completed_flag 1 owned_world)).
Proof.
  split; [reflexivity|]. split; [reflexivity|]. split; [reflexivity|].
  apply (bootstrap_failure_commits_nothing cfg0 5 perf_tracker_post
           (task_T1 staged_stats) (message_T1 staged_stats) 1000
           (mkLambdaResponse (inr "log") (inr "BOOTSTRAP ERROR: no runtime"))
           "log" "BOOTSTRAP ERROR: no runtime" owned_world);
    reflexivity.
Defined.

(** X7.  When the payload does not contain ["BOOTSTRAP ERROR"] and the
    execution returns, it has counted [task_exec_time_ms] with the time since
    the invocation started and then done exactly what the committer does for
    that payload as in-memory stdout: the artifact put is the base64 of the
    payload. *)
Theorem remote_payload_is_committed_as_stdout
  cfg fuel perf task sqs_msg t_start response logs ret_value s v task' s' :
  LogResult response = inr logs ->
  Payload response = inr ret_value ->
  contains "BOOTSTRAP ERROR" ret_value = false ->
  do_task_local_lambda_execution_thread_resume cfg fuel perf task sqs_msg
    t_start response s = (Ok (v, task'), s') ->
  v = ret_value
  /\ exists codes r total,
       Forall (fun c => is_throttling c = true) codes /\ settled r
       /\ trace s' = trace s
            ++ EvCounterPost "task_exec_time_ms"
                 (reading_ms (script s) (ticks s) - t_start)
            :: EvPutBytes (task_id task) (b64encode ret_value)
            :: finished_attempts cfg task codes
            ++ [EvFinished (task_id task) (SELF_ID cfg) r]
            ++ commit_tail sqs_msg r
            ++ final_measurements cfg perf task' total.
Proof.
  intros Hlog Hpay Hmark H.
  unfold do_task_local_lambda_execution_thread_resume in H.
  rewrite Hlog, Hpay in H. cbn [lift] in H.
  apply bind_Ok in H. destruct H as (l & sa & Hl & H). inv_keep Hl.
  apply bind_Ok in H. destruct H as (p & sb & Hp & H). inv_keep Hp.
  subst p. rewrite Hmark in H.
  apply bind_Ok in H. destruct H as (u & sc & Hu & H). inv_keep Hu.
  apply bind_Ok in H. destruct H as (tk & sd & Hc & H). inv_keep H.
  apply bind_Ok in Hc. destruct Hc as (now & se & Hn & Hc). inv_keep Hn.
  apply bind_Ok in Hc. destruct Hc as (u2 & sf & He & Hc). inv_keep He.
  apply process_subprocess_completion_trace in Hc.
  destruct Hc as (codes & r & total & Hall & Hset & Hid & Ht).
  split; [congruence|].
  exists codes, r, total. split; [assumption|]. split; [assumption|].
  unfold commit_events, artifact_put in Ht.
  assert (Htk : task' = tk) by congruence. subst tk.
  unwind. rewrite Ht. unwind. unfold reading_ms.
  rewrite <- !app_assoc. reflexivity.
Qed.

Lemma remote_payload_is_committed_as_stdout_witness :
  LogResult (mkLambdaResponse (inr "log") (inr "result")) = inr "log"
  /\ Payload (mkLambdaResponse (inr "log") (inr "result")) = inr "result"
  /\ contains "BOOTSTRAP ERROR" "result" = false
  /\ do_task_local_lambda_execution_thread_resume cfg0 5 perf_tracker_post
       (task_T1 staged_stats) (message_T1 staged_stats) 1000
       (mkLambdaResponse (inr "log") (inr "result")) owned_world
     = (Ok ("result",
            snd (value_or
                   (fst (do_task_local_lambda_execution_thread_resume cfg0 5
                           perf_tracker_post (task_T1 staged_stats)
                           (message_T1 staged_stats) 1000
                           (mkLambdaResponse (inr "log") (inr "result"))
                           owned_world))
                   (EmptyString, task_T1 PNone))),
        snd (do_task_local_lambda_execution_thread_resume cfg0 5
               perf_tracker_post (task_T1 staged_stats)
               (message_T1 staged_stats) 1000
               (mkLambdaResponse (inr "log") (inr "result")) owned_world))
  /\ "result" = "result"
  /\ exists codes r total,
       Forall (fun c => is_throttling c = true) codes /\ settled r
       /\ trace (snd (do_task_local_lambda_execution_thread_resume cfg0 5
                        perf_tracker_post (task_T1 staged_stats)
                        (message_T1 staged_stats) 1000
                        (mkLambdaResponse (inr "log") (inr "result"))
                        owned_world))
          = trace owned_world
            ++ EvCounterPost "task_exec_time_ms"
                 (reading_ms (script owned_world) (ticks owned_world) - 1000)
            :: EvPutBytes (task_id (task_T1 staged_stats)) (b64encode "result")
            :: finished_attempts cfg0 (task_T1 staged_stats) codes
            ++ [EvFinished (task_id (task_T1 staged_stats)) (SELF_ID cfg0) r]
            ++ commit_tail (message_T1 staged_stats) r
            ++ final_measurements cfg0 perf_tracker_post
                 (snd (value_or
                         (fst (do_task_local_lambda_execution_thread_resume
                                 cfg0 5 perf_tracker_post
                                 (task_T1 staged_stats)
                                 (message_T1 staged_stats) 1000
                                 (mkLambdaResponse (inr "log") (inr "result"))
                                 owned_world))
                         (EmptyString, task_T1 PNone))) total.
Proof.
  assert (H1 : LogResult (mkLambdaResponse (inr "log") (inr "result"))
               = inr "log") by reflexivity.
  assert (H2 : Payload (mkLambdaResponse (inr "log") (inr "result"))
               = inr "result") by reflexivity.
  assert (H3 : contains "BOOTSTRAP ERROR" "result" = false) by reflexivity.
  split; [exact H1|]. split; [exact H2|]. split; [exact H3|].
  match goal with |- ?run /\ _ =>
    assert (H4 : run) by (vm_compute; reflexivity)
  end.
  split; [exact H4|].
  exact (remote_payload_is_committed_as_stdout cfg0 5 perf_tracker_post
           (task_T1 staged_stats) (message_T1 staged_stats) 1000
           (mkLambdaResponse (inr "log") (inr "result")) "log" "result"
           owned_world _ _ _ H1 H2 H3 H4).
Defined.


(** ** What a run leaves alone *)

Lemma evolves_refl P s : evolves P s s.
Proof.
  split; [reflexivity|]. split; [lia|].
  exists []. rewrite app_nil_r. auto.
Qed.

Lemma evolves_trans P s1 s2 s3 :
  evolves P s1 s2 -> evolves P s2 s3 -> evolves P s1 s3.
Proof.
  intros (Hs1 & Ht1 & ev1 & He1 & Hp1 & Hf1) (Hs2 & Ht2 & ev2 & He2 & Hp2 & Hf2).
  split; [congruence|]. split; [lia|].
  exists (ev1 ++ ev2). split; [rewrite He2, He1, app_assoc; reflexivity|].
  split; [apply Forall_app; auto|].
  intros H. apply Forall_app in H. destruct H as (Ha & Hb).
  rewrite (Hf2 Hb). apply Hf1, Ha.
Qed.

Lemma evolves_weaken (P Q : Event -> bool) s s' :
  (forall e, P e = true -> Q e = true) -> evolves P s s' -> evolves Q s s'.
Proof.
  intros HPQ (Hs & Ht & ev & He & Hp & Hf).
  split; [assumption|]. split; [assumption|].
  exists ev. split; [assumption|]. split; [|assumption].
  eapply Forall_impl; [|exact Hp]. exact HPQ.
Qed.

Lemma evolves_frame P s s' :
  script s' = script s -> (ticks s <= ticks s')%nat -> trace s' = trace s ->
  files s' = files s -> evolves P s s'.
Proof.
  intros Hs Ht He Hf. split; [assumption|]. split; [assumption|].
  exists []. rewrite app_nil_r. auto.
Qed.

Lemma evolves_event P e s s' :
  script s' = script s -> ticks s' = ticks s -> trace s' = trace s ++ [e] ->
  P e = true -> (opens e = false -> files s' = files s) -> evolves P s s'.
Proof.
  intros Hs Ht He Hp Hf. split; [assumption|]. split; [lia|].
  exists [e]. split; [assumption|]. split; [auto|].
  intros H. inversion H. auto.
Qed.

Lemma quiet_in_turn e : quiet e = true -> in_turn e = true.
Proof. destruct e; auto. Qed.

Lemma in_turn_remote_only e : in_turn e = true -> remote_only e = true.
Proof. destruct e; auto. Qed.

Lemma quiet_opens e : quiet e = true -> opens e = false.
Proof. destruct e; auto; discriminate. Qed.

Lemma respects_weaken {A : Type} (m : M A) :
  respects quiet m -> respects in_turn m.
Proof. intros H s. eapply evolves_weaken; [exact quiet_in_turn|apply H]. Qed.

Lemma respects_weaken_turn {A : Type} (m : M A) :
  respects in_turn m -> respects remote_only m.
Proof. intros H s. eapply evolves_weaken; [exact in_turn_remote_only|apply H]. Qed.

Lemma respects_ret {A : Type} P (a : A) : respects P (ret a).
Proof. intros s. apply evolves_refl. Qed.

Lemma respects_raise {A : Type} P e : respects P (@raise A e).
Proof. intros s. apply evolves_refl. Qed.

Lemma respects_out_of_fuel {A : Type} P : respects P (@out_of_fuel A).
Proof. intros s. apply evolves_refl. Qed.

Lemma respects_gets {A : Type} P (f : State -> A) : respects P (gets f).
Proof. intros s. apply evolves_refl. Qed.

Lemma respects_lift {A : Type} P (x : exn + A) : respects P (lift x).
Proof. destruct x; intros s; apply evolves_refl. Qed.

Lemma respects_bind {A B : Type} P (m : M A) (f : A -> M B) :
  respects P m -> (forall a, respects P (f a)) -> respects P (bind m f).
Proof.
  intros Hm Hf s. unfold bind. specialize (Hm s).
  destruct (m s) as [[a | e |] s1]; cbn [snd] in *; try assumption.
  eapply evolves_trans; [exact Hm|apply Hf].
Qed.

Lemma respects_try_except {A : Type} P (m : M A) (h : exn -> M A) :
  respects P m -> (forall e, respects P (h e)) -> respects P (try_except m h).
Proof.
  intros Hm Hh s. unfold try_except. specialize (Hm s).
  destruct (m s) as [[a | e |] s1]; cbn [snd] in *; try assumption.
  eapply evolves_trans; [exact Hm|apply Hh].
Qed.

Lemma respects_modify P (f : State -> State) :
  (forall s, script (f s) = script s) -> (forall s, ticks (f s) = ticks s) ->
  (forall s, trace (f s) = trace s) -> (forall s, files (f s) = files s) ->
  respects P (modify f).
Proof.
  intros Hs Ht He Hf s. apply evolves_frame; cbn [snd modify]; auto.
  rewrite Ht. lia.
Qed.

Lemma respects_emit P e : P e = true -> opens e = false -> respects P (emit e).
Proof.
  intros Hp Ho s. apply (evolves_event P e); auto.
Qed.

Lemma respects_time_time P : respects P time_time.
Proof. intros s. apply evolves_frame; cbn; auto. Qed.

Lemma respects_draw P : respects P draw.
Proof. intros s. apply evolves_frame; cbn; auto. Qed.

Lemma respects_next_fault P : respects P next_fault.
Proof. intros s. apply evolves_frame; cbn; auto. Qed.

Lemma respects_proc_poll P : respects P proc_poll.
Proof. intros s. apply evolves_frame; cbn; auto. Qed.

Create HintDb respects.

#[export] Hint Resolve respects_time_time respects_draw respects_next_fault
  respects_proc_poll : respects.

(** One step through a computation built from [bind], [match] and calls
    whose frame is known. *)
Ltac respects_step :=
  first
    [ assumption
    | match goal with IH : forall _, _ |- _ => solve [apply IH] end
    | solve [auto with respects nocore]
    | apply respects_ret | apply respects_raise | apply respects_out_of_fuel
    | apply respects_gets | apply respects_lift
    | apply respects_emit; reflexivity
    | apply respects_modify; intros; reflexivity
    | match goal with
      | |- respects _ (bind _ _) => apply respects_bind; [|intros]
      | |- respects _ (try_except _ _) => apply respects_try_except; [|intros]
      | |- respects _ (match ?x with _ => _ end) => destruct x
      end
    | progress cbv beta zeta ].

Ltac respects_tac := repeat respects_step.


Lemma respects_get_time_now_ms P : respects P get_time_now_ms.
Proof. unfold get_time_now_ms. respects_tac. Qed.

Lemma respects_sleep sec : respects quiet (sleep sec).
Proof. unfold sleep. respects_tac. Qed.

Lemma respects_randint P a b : respects P (randint a b).
Proof. unfold randint. respects_tac. Qed.

Lemma respects_uniform P a b : respects P (uniform a b).
Proof. unfold uniform. respects_tac. Qed.

Lemma respects_receive_messages n w : respects quiet (receive_messages n w).
Proof. unfold receive_messages. respects_tac. Qed.

Lemma respects_message_delete m : respects quiet (message_delete m).
Proof. unfold message_delete. respects_tac. Qed.

Lemma respects_change_visibility m t : respects quiet (change_visibility m t).
Proof. unfold change_visibility. respects_tac. Qed.

Lemma respects_conditional_write P tid cond upd :
  respects P (conditional_write tid cond upd).
Proof. unfold conditional_write. respects_tac. Qed.

#[export] Hint Resolve respects_get_time_now_ms respects_sleep respects_randint
  respects_uniform respects_receive_messages respects_message_delete
  respects_change_visibility respects_conditional_write : respects.

Lemma respects_claim_task_to_yourself task self ttl :
  respects quiet (claim_task_to_yourself task self ttl).
Proof. unfold claim_task_to_yourself. respects_tac. Qed.

Lemma respects_update_own_tasks_ttl task self ttl :
  respects quiet (update_own_tasks_ttl task self ttl).
Proof. unfold update_own_tasks_ttl. respects_tac. Qed.

Lemma respects_read_task_row tid : respects quiet (read_task_row tid).
Proof. unfold read_task_row. respects_tac. Qed.

Lemma respects_put_output_from_bytes tid data :
  respects quiet (put_output_from_bytes tid data).
Proof. unfold put_output_from_bytes. respects_tac. Qed.

Lemma respects_get_input_decoded tid : respects quiet (get_input_decoded tid).
Proof. unfold get_input_decoded. respects_tac. Qed.

Lemma respects_event_counter_pre_increment name v :
  respects quiet (event_counter_pre_increment name v).
Proof. unfold event_counter_pre_increment. respects_tac. Qed.

Lemma respects_event_counter_post_increment name v :
  respects quiet (event_counter_post_increment name v).
Proof. unfold event_counter_post_increment. respects_tac. Qed.

Lemma respects_event_counter_post_set name v :
  respects quiet (event_counter_post_set name v).
Proof. unfold event_counter_post_set. respects_tac. Qed.

Lemma respects_add_metric_sample perf st a b :
  respects quiet (add_metric_sample perf st a b).
Proof. unfold add_metric_sample. respects_tac. Qed.

Lemma respects_submit_measurements perf : respects quiet (submit_measurements perf).
Proof. unfold submit_measurements. respects_tac. Qed.

Lemma respects_close f : respects quiet (close f).
Proof. unfold close. respects_tac. Qed.

Lemma respects_lambda_invoke fn payload : respects quiet (lambda_invoke fn payload).
Proof.
  unfold lambda_invoke. apply respects_bind; [respects_tac|].
  intros _ s. apply evolves_frame; cbn; auto.
Qed.

Lemma respects_requests_post url : respects remote_only (requests_post url).
Proof. unfold requests_post. respects_tac. Qed.

Lemma respects_open_w name : respects in_turn (open_w name).
Proof.
  intros s. apply (evolves_event in_turn (EvOpen name)); cbn; auto.
  discriminate.
Qed.

#[export] Hint Resolve respects_claim_task_to_yourself
  respects_update_own_tasks_ttl respects_read_task_row
  respects_put_output_from_bytes respects_get_input_decoded
  respects_event_counter_pre_increment respects_event_counter_post_increment
  respects_event_counter_post_set respects_add_metric_sample
  respects_submit_measurements respects_close respects_lambda_invoke
  respects_requests_post respects_open_w : respects.

Lemma respects_generate_next_ttl P cfg : respects P (generate_next_ttl cfg).
Proof. unfold generate_next_ttl. respects_tac. Qed.

Lemma respects_get_next_expiration_timestamp P :
  respects P get_next_expiration_timestamp.
Proof. unfold get_next_expiration_timestamp. respects_tac. Qed.

Lemma respects_get_next_refresh_timestamp P :
  respects P get_next_refresh_timestamp.
Proof. unfold get_next_refresh_timestamp. respects_tac. Qed.

Lemma respects_set_stage_tstmp P task stage v :
  respects P (set_stage_tstmp task stage v).
Proof. unfold set_stage_tstmp. respects_tac. Qed.

#[export] Hint Resolve respects_generate_next_ttl
  respects_get_next_expiration_timestamp respects_get_next_refresh_timestamp
  respects_set_stage_tstmp : respects.

Lemma respects_is_task_has_been_cancelled tid :
  respects quiet (is_task_has_been_cancelled tid).
Proof. unfold is_task_has_been_cancelled. respects_tac. Qed.

#[export] Hint Resolve respects_is_task_has_been_cancelled : respects.

Lemma respects_try_to_acquire_a_task cfg :
  respects quiet (try_to_acquire_a_task cfg).
Proof. unfold try_to_acquire_a_task. respects_tac. Qed.

Lemma respects_submit_post_agent_measurements task perf :
  respects quiet (submit_post_agent_measurements task perf).
Proof. unfold submit_post_agent_measurements. respects_tac. Qed.

Lemma respects_submit_pre_agent_measurements task :
  respects quiet (submit_pre_agent_measurements task).
Proof. unfold submit_pre_agent_measurements. respects_tac. Qed.

Lemma respects_dynamodb_update_task_status_to_finished task self :
  respects quiet (dynamodb_update_task_status_to_finished task self).
Proof. unfold dynamodb_update_task_status_to_finished. respects_tac. Qed.

#[export] Hint Resolve respects_try_to_acquire_a_task
  respects_submit_post_agent_measurements
  respects_submit_pre_agent_measurements
  respects_dynamodb_update_task_status_to_finished : respects.

Lemma respects_set_finished_loop cfg fuel : forall task count,
  respects quiet (set_finished_loop cfg fuel task count).
Proof.
  induction fuel as [|fuel IH]; intros task count; cbn [set_finished_loop];
    respects_tac.
Qed.

#[export] Hint Resolve respects_set_finished_loop : respects.

Lemma respects_process_subprocess_completion cfg fuel perf task sqs_msg fname out :
  respects quiet
    (process_subprocess_completion cfg fuel perf task sqs_msg fname (Some out)).
Proof. unfold process_subprocess_completion. respects_tac. Qed.

#[export] Hint Resolve respects_process_subprocess_completion : respects.

Lemma respects_do_task_local_lambda_execution_thread_start cfg task_def :
  respects quiet (do_task_local_lambda_execution_thread_start cfg task_def).
Proof. unfold do_task_local_lambda_execution_thread_start. respects_tac. Qed.

Lemma respects_do_task_local_lambda_execution_thread_resume
  cfg fuel perf task sqs_msg t_start response :
  respects quiet
    (do_task_local_lambda_execution_thread_resume cfg fuel perf task sqs_msg
       t_start response).
Proof. unfold do_task_local_lambda_execution_thread_resume. respects_tac. Qed.

Lemma respects_update_ttl_loop cfg fuel : forall task count,
  respects quiet (update_ttl_loop cfg fuel task count).
Proof.
  induction fuel as [|fuel IH]; intros task count; cbn [update_ttl_loop];
    respects_tac.
Qed.

#[export] Hint Resolve respects_do_task_local_lambda_execution_thread_start
  respects_do_task_local_lambda_execution_thread_resume
  respects_update_ttl_loop : respects.

Lemma respects_update_ttl_if_required cfg fuel task :
  respects quiet (update_ttl_if_required cfg fuel task).
Proof. unfold update_ttl_if_required. respects_tac. Qed.

#[export] Hint Resolve respects_update_ttl_if_required : respects.

Lemma respects_do_ttl_updates_thread_step cfg fuel task :
  respects quiet (do_ttl_updates_thread_step cfg fuel task).
Proof. unfold do_ttl_updates_thread_step. respects_tac. Qed.

#[export] Hint Resolve respects_do_ttl_updates_thread_step : respects.

Lemma respects_do_ttl_updates_thread cfg n fuel task :
  respects quiet (do_ttl_updates_thread cfg n fuel task).
Proof.
  induction n as [|n IH]; cbn [do_ttl_updates_thread]; respects_tac.
Qed.

Lemma respects_prepare_arguments_for_execution cfg task :
  respects quiet (prepare_arguments_for_execution cfg task).
Proof. unfold prepare_arguments_for_execution. respects_tac. Qed.

Lemma respects_decode_and_load P p : respects P (decode_and_load p).
Proof. unfold decode_and_load. respects_tac. Qed.

#[export] Hint Resolve respects_do_ttl_updates_thread
  respects_prepare_arguments_for_execution respects_decode_and_load : respects.

Ltac respects_turn :=
  repeat first [ solve [apply respects_weaken; auto with respects nocore]
               | respects_step ].

Lemma respects_run_task cfg fuel task sqs_msg :
  respects in_turn (run_task cfg fuel task sqs_msg).
Proof. unfold run_task. respects_turn. Qed.

#[export] Hint Resolve respects_run_task : respects.

Lemma respects_event_loop_body cfg fuel :
  respects in_turn (event_loop_body cfg fuel).
Proof. unfold event_loop_body. respects_turn. Qed.

#[export] Hint Resolve respects_event_loop_body : respects.

Lemma respects_event_loop_while cfg fuel turns :
  respects in_turn (event_loop_while cfg turns fuel).
Proof.
  induction turns as [|turns IH]; cbn [event_loop_while]; respects_turn.
Qed.

#[export] Hint Resolve respects_event_loop_while : respects.

Lemma respects_event_loop cfg turns fuel :
  respects remote_only (event_loop cfg turns fuel).
Proof.
  unfold event_loop.
  repeat first [ solve [apply respects_weaken_turn; auto with respects nocore]
               | respects_step ].
Qed.


(** ** The supervisor loop *)

Lemma evolves_kill_now P s s' :
  evolves P s s' -> kill_now s = true -> kill_now s' = true.
Proof.
  intros (Hs & _ & ev & He & _) H. unfold kill_now in *. rewrite Hs.
  destruct (sigterm_at (script s)) as [n|]; [|discriminate].
  apply Nat.leb_le in H. apply Nat.leb_le. rewrite He, length_app. lia.
Qed.

Lemma in_turn_no_post ev :
  Forall (fun e => in_turn e = true) ev -> forall url, ~ In (EvPost url) ev.
Proof.
  intros H url Hin. rewrite Forall_forall in H. specialize (H _ Hin).
  discriminate.
Qed.

Lemma event_loop_while_Ok cfg fuel turns : forall s u s1,
  event_loop_while cfg turns fuel s = (Ok u, s1) -> kill_now s1 = true.
Proof.
  induction turns as [|turns IH]; intros s u s1 H; cbn [event_loop_while] in H.
  - discriminate.
  - unfold bind at 1, gets in H. destruct (kill_now s) eqn:Hk.
    + unfold ret in H. congruence.
    + apply bind_Ok in H. destruct H as (v & sb & _ & H).
      exact (IH _ _ _ H).
Qed.

Lemma requests_post_Ok url s code s' :
  requests_post url s = (Ok code, s') ->
  s' = set_trace (trace s ++ [EvPost url]) s
  /\ stop_response (script s) = inr code.
Proof.
  unfold requests_post. intros H.
  apply bind_Ok in H. destruct H as (u & sa & He & H).
  rewrite emit_run in He. apply pair_Ok_inv in He. destruct He as (_ & Hsa).
  apply bind_Ok in H. destruct H as (r & sb & Hg & H).
  unfold gets in Hg. apply pair_Ok_inv in Hg. destruct Hg as (Hr & Hsb).
  subst r sb sa. cbn [script set_trace] in H.
  destruct (stop_response (script s)) as [e|c]; cbn [lift] in H.
  - discriminate.
  - unfold ret in H. apply pair_Ok_inv in H. destruct H as (Hc & Hs').
    subst. auto.
Qed.

(** X8.  However the environment answers and however the run ends, the loop
    never spawns a child process and never uploads a file to the artifact
    store: every task is executed by the remote function, and
    [do_task_local_execution_thread] is never started. *)
Theorem event_loop_never_spawns_a_process cfg turns fuel s :
  exists ev,
    trace (snd (event_loop cfg turns fuel s)) = trace s ++ ev
    /\ (forall command, ~ In (EvPopen command) ev)
    /\ (forall tid file_name, ~ In (EvPutFile tid file_name) ev).
Proof.
  destruct (respects_event_loop cfg turns fuel s) as (_ & _ & ev & He & Hp & _).
  exists ev. split; [assumption|]. rewrite Forall_forall in Hp.
  split; intros; intros Hin; specialize (Hp _ Hin); discriminate.
Qed.

(** X9.  Unless task inputs are passed via the external storage
    ([task_input_passed_via_external_storage == 1]), [run_task] cannot run a
    task: the definition taken from the decoded message body is not [bytes],
    so [.decode] raises [AttributeError] before any measurement is submitted,
    any file is opened or the function is invoked. *)
Theorem inline_task_definition_cannot_be_run cfg fuel task sqs_msg s :
  task_input_passed_via_external_storage cfg <> 1 ->
  run_task cfg fuel task sqs_msg s = (Raise (AttributeError "decode"), s).
Proof.
  intros H. unfold run_task, prepare_arguments_for_execution.
  destruct (Z.eqb_spec (task_input_passed_via_external_storage cfg) 1)
    as [E|_]; [contradiction|reflexivity].
Qed.

Lemma inline_task_definition_cannot_be_run_witness :
  task_input_passed_via_external_storage inline_cfg <> 1
  /\ run_task inline_cfg 5 (task_T1 staged_stats) (message_T1 staged_stats)
       owned_world
     = (Raise (AttributeError "decode"), owned_world).
Proof.
  assert (H : task_input_passed_via_external_storage inline_cfg <> 1)
    by (cbn; lia).
  split; [exact H|].
  exact (inline_task_definition_cannot_be_run inline_cfg 5
           (task_T1 staged_stats) (message_T1 staged_stats) owned_world H).
Defined.

(** X10.  [event_loop] returns only after SIGTERM has arrived: the stop
    request is its last act, it is sent once, and the signal had arrived by
    the time it was sent. *)
Theorem event_loop_returns_only_after_sigterm cfg turns fuel s s' :
  event_loop cfg turns fuel s = (Ok tt, s') ->
  exists n ev,
    sigterm_at (script s) = Some n
    /\ trace s' = trace s ++ ev
                  ++ [EvPost (LAMBDA_ENDPOINT_URL cfg ++ "/2018-06-01/stop")]
    /\ (n <= List.length (trace s ++ ev))%nat
    /\ (forall url, ~ In (EvPost url) ev).
Proof.
  unfold event_loop. intros H.
  apply bind_Ok in H. destruct H as (u & s1 & Hw & H).
  apply bind_Ok in H. destruct H as (code & s2 & Hp & H).
  unfold ret in H. apply pair_Ok_inv in H. destruct H as (_ & Hs'). subst s'.
  apply requests_post_Ok in Hp. destruct Hp as (Hs2 & _).
  pose proof (event_loop_while_Ok _ _ _ _ _ _ Hw) as Hk.
  pose proof (respects_event_loop_while cfg fuel turns s) as Hr.
  rewrite Hw in Hr. cbn [snd] in Hr.
  destruct Hr as (Hsc & _ & ev & He & Hin & _).
  unfold kill_now in Hk. rewrite Hsc in Hk.
  destruct (sigterm_at (script s)) as [n|]; [|discriminate].
  exists n, ev. split; [reflexivity|].
  split; [rewrite Hs2; cbn [trace set_trace]; rewrite He, app_assoc; reflexivity|].
  split; [rewrite <- He; apply Nat.leb_le; exact Hk|].
  apply in_turn_no_post, Hin.
Qed.

Lemma event_loop_returns_only_after_sigterm_witness :
  event_loop cfg0 3 5 interrupted_world
  = (Ok tt, snd (event_loop cfg0 3 5 interrupted_world))
  /\ exists n ev,
       sigterm_at (script interrupted_world) = Some n
       /\ trace (snd (event_loop cfg0 3 5 interrupted_world))
          = trace interrupted_world ++ ev
            ++ [EvPost (LAMBDA_ENDPOINT_URL cfg0 ++ "/2018-06-01/stop")]
       /\ (n <= List.length (trace interrupted_world ++ ev))%nat
       /\ (forall url, ~ In (EvPost url) ev).
Proof.
  assert (H : event_loop cfg0 3 5 interrupted_world
              = (Ok tt, snd (event_loop cfg0 3 5 interrupted_world)))
    by (vm_compute; reflexivity).
  split; [exact H|].
  exact (event_loop_returns_only_after_sigterm cfg0 3 5 interrupted_world _ H).
Defined.



(** X12.  A turn that raises ends the agent: the exception leaves
    [event_loop] as it is, and the stop request is not sent. *)
Theorem failed_turn_ends_the_agent_without_stop cfg turns fuel s e s1 :
  kill_now s = false ->
  event_loop_body cfg fuel s = (Raise e, s1) ->
  event_loop cfg (S turns) fuel s = (Raise e, s1)
  /\ exists ev, trace s1 = trace s ++ ev /\ forall url, ~ In (EvPost url) ev.
Proof.
  intros Hk Hbody. split.
  - assert (Hw : event_loop_while cfg (S turns) fuel s = (Raise e, s1)).
    { cbn [event_loop_while]. unfold bind at 1, gets. rewrite Hk.
      unfold bind at 1. rewrite Hbody. reflexivity. }
    unfold event_loop, bind at 1. rewrite Hw. reflexivity.
  - pose proof (respects_event_loop_body cfg fuel s) as Hr.
    rewrite Hbody in Hr. cbn [snd] in Hr.
    destruct Hr as (_ & _ & ev & He & Hin & _).
    exists ev. split; [assumption|]. apply in_turn_no_post, Hin.
Qed.

Lemma failed_turn_ends_the_agent_without_stop_witness :
  kill_now pending_world = false
  /\ event_loop_body inline_cfg 5 pending_world
     = (Raise (AttributeError "decode"),
        snd (event_loop_body inline_cfg 5 pending_world))
  /\ event_loop inline_cfg 3 5 pending_world
     = (Raise (AttributeError "decode"),
        snd (event_loop_body inline_cfg 5 pending_world))
  /\ exists ev,
       trace (snd (event_loop_body inline_cfg 5 pending_world))
       = trace pending_world ++ ev
       /\ forall url, ~ In (EvPost url) ev.
Proof.
  assert (H1 : kill_now pending_world = false) by reflexivity.
  assert (H2 : event_loop_body inline_cfg 5 pending_world
               = (Raise (AttributeError "decode"),
                  snd (event_loop_body inline_cfg 5 pending_world)))
    by (vm_compute; reflexivity).
  split; [exact H1|]. split; [exact H2|].
  exact (failed_turn_ends_the_agent_without_stop inline_cfg 2 5 pending_world
           _ _ H1 H2).
Defined.


(** ** Running a task *)

Lemma respects_run {A : Type} P (m : M A) s r s' :
  respects P m -> m s = (r, s') -> evolves P s s'.
Proof. intros Hm H. specialize (Hm s). rewrite H in Hm. exact Hm. Qed.

Lemma evolves_quiet s s' :
  evolves quiet s s' ->
  exists ev,
    trace s' = trace s ++ ev /\ Forall (fun e => quiet e = true) ev
    /\ files s' = files s.
Proof.
  intros (_ & _ & ev & He & Hq & Hf). exists ev.
  split; [assumption|]. split; [assumption|]. apply Hf.
  eapply Forall_impl; [|exact Hq]. exact quiet_opens.
Qed.

Lemma get_input_decoded_Ok tid s v s' :
  get_input_decoded tid s = (Ok v, s') ->
  trace s' = trace s ++ [EvGetInput tid] /\ files s' = files s
  /\ inputs (script s) tid = inr v.
Proof.
  unfold get_input_decoded. intros H.
  apply bind_Ok in H. destruct H as (u & sa & He & H). inv_run He.
  apply bind_Ok in H. destruct H as (x & sb & Hg & H). inv_run Hg.
  destruct (inputs (script s) tid) as [e|w]; cbn [lift] in H; inv_run H.
  auto.
Qed.

Lemma decoded_input_Ok cfg task s bin_protobuf sa task_def sb :
  prepare_arguments_for_execution cfg task s = (Ok bin_protobuf, sa) ->
  decode_and_load bin_protobuf sa = (Ok task_def, sb) ->
  task_input_passed_via_external_storage cfg = 1
  /\ trace sb = trace s ++ [EvGetInput (task_id task)] /\ files sb = files s
  /\ inputs (script s) (task_id task) = inr task_def.
Proof.
  unfold prepare_arguments_for_execution. intros Hp Hd.
  destruct (Z.eqb_spec (task_input_passed_via_external_storage cfg) 1)
    as [E|E].
  - apply bind_Ok in Hp. destruct Hp as (v & sc & Hg & Hp).
    apply get_input_decoded_Ok in Hg. destruct Hg as (Ht & Hf & Hi).
    unfold ret in Hp. apply pair_Ok_inv in Hp. destruct Hp as (Hb & Hsa).
    subst bin_protobuf sa. cbn [decode_and_load] in Hd.
    unfold ret in Hd. apply pair_Ok_inv in Hd. destruct Hd as (Hd & Hsb).
    subst task_def sb. auto.
  - unfold ret in Hp. apply pair_Ok_inv in Hp. destruct Hp as (Hb & _).
    subst bin_protobuf. discriminate.
Qed.

Lemma submit_pre_agent_measurements_Ok task s u s' :
  submit_pre_agent_measurements task s = (Ok u, s') ->
  trace s' = trace s
             ++ [EvMetricSample perf_tracker_pre (stats task)
                   "stage2_sbmtlmba_02_before_batch_write_tstmp"
                   "stage3_agent_02_task_acquired_ddb_tstmp";
                 EvSubmitMeasurements perf_tracker_pre]
  /\ files s' = files s.
Proof.
  intros H. inv_run H. rewrite <- app_assoc. auto.
Qed.

Lemma open_w_Ok name s f s' :
  open_w name s = (Ok f, s') ->
  f = name /\ trace s' = trace s ++ [EvOpen name]
  /\ files s' = file_set name "" (files s).
Proof. intros H. inv_run H. auto. Qed.

Lemma close_Ok f s u s' :
  close f s = (Ok u, s') ->
  trace s' = trace s ++ [EvClose f] /\ files s' = files s.
Proof. intros H. inv_run H. auto. Qed.

Lemma do_task_local_lambda_execution_thread_start_Ok cfg task_def s started s' :
  do_task_local_lambda_execution_thread_start cfg task_def s = (Ok started, s') ->
  started = (reading_ms (script s) (ticks s),
             invocations (script s) (invoke_calls s))
  /\ trace s' = trace s ++ [EvInvoke (LAMBDA_FONCTION_NAME cfg) task_def]
  /\ files s' = files s.
Proof.
  unfold do_task_local_lambda_execution_thread_start, lambda_invoke. intros H.
  apply bind_Ok in H. destruct H as (t & sa & Ht & H). inv_run Ht.
  apply bind_Ok in H. destruct H as (i & sb & Hi & H).
  apply bind_Ok in Hi. destruct Hi as (u & sc & He & Hi). inv_run He.
  apply pair_Ok_inv in Hi. destruct Hi as (Hi & Hsb). subst i sb.
  inv_run H. auto.
Qed.

Lemma file_get_set_same name c fs : file_get name (file_set name c fs) = Some c.
Proof.
  induction fs as [|[n c'] fs IH]; cbn.
  - rewrite String.eqb_refl. reflexivity.
  - destruct (String.eqb name n) eqn:E; cbn.
    + rewrite String.eqb_refl. reflexivity.
    + rewrite E. exact IH.
Qed.

Lemma file_get_set_other name name' c fs :
  String.eqb name name' = false ->
  file_get name (file_set name' c fs) = file_get name fs.
Proof.
  intros Hne. induction fs as [|[n c'] fs IH]; cbn.
  - rewrite Hne. reflexivity.
  - destruct (String.eqb name' n) eqn:E; cbn.
    + apply String.eqb_eq in E. subst n. rewrite Hne. reflexivity.
    + destruct (String.eqb name n); [reflexivity|exact IH].
Qed.

(** X13.  A run of [run_task] that returns has fetched the stored input,
    submitted the pre-execution measurements, opened
    [./stdout-<task_id>.log] and [./stderr-<task_id>.log] for writing and
    only then invoked the remote function on the decoded input; the two files
    are closed last, in that order, nothing was written to them or opened in
    between, and both are left empty. *)
Theorem run_task_leaves_two_empty_log_files cfg fuel task sqs_msg s task' s' :
  run_task cfg fuel task sqs_msg s = (Ok task', s') ->
  exists task_def mid,
    inputs (script s) (task_id task) = inr task_def
    /\ trace s'
       = trace s
         ++ [EvGetInput (task_id task);
             EvMetricSample perf_tracker_pre (stats task)
               "stage2_sbmtlmba_02_before_batch_write_tstmp"
               "stage3_agent_02_task_acquired_ddb_tstmp";
             EvSubmitMeasurements perf_tracker_pre;
             EvOpen ("./stdout-" ++ task_id task ++ ".log");
             EvOpen ("./stderr-" ++ task_id task ++ ".log");
             EvInvoke (LAMBDA_FONCTION_NAME cfg) task_def]
         ++ mid
         ++ [EvClose ("./stdout-" ++ task_id task ++ ".log");
             EvClose ("./stderr-" ++ task_id task ++ ".log")]
    /\ Forall (fun e => quiet e = true) mid
    /\ file_get ("./stdout-" ++ task_id task ++ ".log") (files s') = Some ""
    /\ file_get ("./stderr-" ++ task_id task ++ ".log") (files s') = Some "".
Proof.
  unfold run_task. intros H.
  apply bind_Ok in H. destruct H as (bp & sa & Hprep & H).
  apply bind_Ok in H. destruct H as (task_def & sb & Hdec & H).
  destruct (decoded_input_Ok _ _ _ _ _ _ _ Hprep Hdec) as (_ & Tb & Fb & Hin).
  apply bind_Ok in H. destruct H as (u1 & sc & Hpre & H).
  apply submit_pre_agent_measurements_Ok in Hpre. destruct Hpre as (Tc & Fc).
  cbv zeta in H.
  apply bind_Ok in H. destruct H as (f_stdout & sd & Ho1 & H).
  apply open_w_Ok in Ho1. destruct Ho1 as (N1 & Td & Fd).
  apply bind_Ok in H. destruct H as (f_stderr & se & Ho2 & H).
  apply open_w_Ok in Ho2. destruct Ho2 as (N2 & Te & Fe).
  apply bind_Ok in H. destruct H as (u2 & sf & Hm & H).
  unfold modify in Hm. apply pair_Ok_inv in Hm. destruct Hm as (_ & Hsf).
  assert (Tf : trace sf = trace se) by (subst sf; reflexivity).
  assert (Ff : files sf = files se) by (subst sf; reflexivity).
  clear Hsf.
  apply bind_Ok in H. destruct H as (started & sg & Hst & H).
  apply do_task_local_lambda_execution_thread_start_Ok in Hst.
  destruct Hst as (_ & Tg & Fg).
  apply bind_Ok in H. destruct H as (st & sh & Hren & H).
  apply (respects_run quiet) in Hren; [|auto with respects nocore].
  apply evolves_quiet in Hren. destruct Hren as (ev1 & Th & Q1 & Fh).
  apply bind_Ok in H. destruct H as (response & si & Hresp & H).
  apply (respects_run quiet) in Hresp; [|apply respects_lift].
  apply evolves_quiet in Hresp. destruct Hresp as (ev2 & Ti & Q2 & Fi).
  apply bind_Ok in H. destruct H as (finished & sj & Hres & H).
  apply (respects_run quiet) in Hres; [|auto with respects nocore].
  apply evolves_quiet in Hres. destruct Hres as (ev3 & Tj & Q3 & Fj).
  apply bind_Ok in H. destruct H as (u3 & sk & Hlast & H).
  apply (respects_run quiet) in Hlast;
    [|destruct st; respects_tac].
  apply evolves_quiet in Hlast. destruct Hlast as (ev4 & Tk & Q4 & Fk).
  apply bind_Ok in H. destruct H as (u4 & sl & Hc1 & H).
  apply close_Ok in Hc1. destruct Hc1 as (Tl & Fl).
  apply bind_Ok in H. destruct H as (u5 & sm & Hc2 & H).
  apply close_Ok in Hc2. destruct Hc2 as (Tm & Fm).
  unfold ret in H. apply pair_Ok_inv in H. destruct H as (_ & Hs'). subst s'.
  subst f_stdout f_stderr.
  exists task_def, (ev1 ++ ev2 ++ ev3 ++ ev4).
  split; [assumption|]. split.
  { rewrite Tm, Tl, Tk, Tj, Ti, Th, Tg, Tf, Te, Td, Tc, Tb.
    rewrite <- !app_assoc. reflexivity. }
  split; [repeat (apply Forall_app; split); assumption|].
  rewrite Fm, Fl, Fk, Fj, Fi, Fh, Fg, Ff, Fe, Fd. split.
  - rewrite file_get_set_other by reflexivity. apply file_get_set_same.
  - apply file_get_set_same.
Qed.

Lemma run_task_leaves_two_empty_log_files_witness :
  run_task cfg0 5 (task_T1 staged_stats) (message_T1 staged_stats) owned_world
  = (Ok (value_or (fst (run_task cfg0 5 (task_T1 staged_stats)
                          (message_T1 staged_stats) owned_world))
           (task_T1 PNone)),
     snd (run_task cfg0 5 (task_T1 staged_stats) (message_T1 staged_stats)
            owned_world))
  /\ exists task_def mid,
       inputs (script owned_world) (task_id (task_T1 staged_stats))
       = inr task_def
       /\ trace (snd (run_task cfg0 5 (task_T1 staged_stats)
                        (message_T1 staged_stats) owned_world))
          = trace owned_world
            ++ [EvGetInput (task_id (task_T1 staged_stats));
                EvMetricSample perf_tracker_pre (stats (task_T1 staged_stats))
                  "stage2_sbmtlmba_02_before_batch_write_tstmp"
                  "stage3_agent_02_task_acquired_ddb_tstmp";
                EvSubmitMeasurements perf_tracker_pre;
                EvOpen ("./stdout-" ++ task_id (task_T1 staged_stats) ++ ".log");
                EvOpen ("./stderr-" ++ task_id (task_T1 staged_stats) ++ ".log");
                EvInvoke (LAMBDA_FONCTION_NAME cfg0) task_def]
            ++ mid
            ++ [EvClose ("./stdout-" ++ task_id (task_T1 staged_stats) ++ ".log");
                EvClose ("./stderr-" ++ task_id (task_T1 staged_stats) ++ ".log")]
       /\ Forall (fun e => quiet e = true) mid
       /\ file_get ("./stdout-" ++ task_id (task_T1 staged_stats) ++ ".log")
            (files (snd (run_task cfg0 5 (task_T1 staged_stats)
                           (message_T1 staged_stats) owned_world)))
          = Some ""
       /\ file_get ("./stderr-" ++ task_id (task_T1 staged_stats) ++ ".log")
            (files (snd (run_task cfg0 5 (task_T1 staged_stats)
                           (message_T1 staged_stats) owned_world)))
          = Some "".
Proof.
  match goal with |- ?run /\ _ =>
    assert (H : run) by (vm_compute; reflexivity)
  end.
  split; [exact H|].
  exact (run_task_leaves_two_empty_log_files cfg0 5 (task_T1 staged_stats)
           (message_T1 staged_stats) owned_world _ _ H).
Defined.


(** ** Rounding to milliseconds *)






(** ** Stage timestamps *)

Lemma get_time_now_ms_Ok s now s' :
  get_time_now_ms s = (Ok now, s') ->
  now = reading_ms (script s) (ticks s) /\ s' = set_ticks (S (ticks s)) s.
Proof. intros H. inv_run H. auto. Qed.










Example stamps_in_frozen_world :
  map (stage_tstmp
         (ran_task
            (fst (run_task cfg0 5
                    (acquired_task
                       (fst (try_to_acquire_a_task cfg0 frozen_world)))
                    (message_T1 staged_stats)
                    (snd (try_to_acquire_a_task cfg0 frozen_world))))))
    ["stage3_agent_01_task_acquired_sqs_tstmp";
     "stage3_agent_02_task_acquired_ddb_tstmp";
     "stage4_agent_01_user_code_finished_tstmp";
     "stage4_agent_02_S3_stdout_delivered_tstmp"]
  = [Some 1000000; Some 1000000; Some 1000000; Some 1000000].
Proof. vm_compute. reflexivity. Qed.


(** ** The local subprocess driver *)

Lemma worker_argument_Ok task_def i s a s' :
  worker_argument task_def i s = (Ok a, s') -> s' = s.
Proof.
  unfold worker_argument. intros H.
  destruct task_def as [| | | | |d]; try discriminate.
  destruct (dict_get "worker_arguments" d) as [[|b|z|x|l|d']|];
    try discriminate.
  - destruct (String.get i x); [|discriminate].
    unfold ret in H. congruence.
  - destruct (nth_error l i); [|discriminate].
    unfold ret in H. congruence.
Qed.

Lemma poll_loop_Ok cfg fuel : forall perf task sqs_msg fname s rc task' s',
  poll_loop cfg fuel perf task sqs_msg fname s = (Ok (rc, task'), s') ->
  exists k fuel0 s0,
    (forall i, (i < k)%nat -> proc_polls (script s) (polls s + i) = None)
    /\ proc_polls (script s) (polls s + k) = Some rc
    /\ trace s0
       = trace s ++ repeat (EvSleep (work_proc_status_pull_interval_sec cfg)) k
    /\ execution_is_completed_flag s0 = 1
    /\ process_subprocess_completion cfg fuel0 perf task sqs_msg (Some fname)
         None s0 = (Ok task', s').
Proof.
  induction fuel as [|fuel IH]; intros perf task sqs_msg fname s rc task' s' H;
    cbn [poll_loop] in H; [discriminate|].
  apply bind_Ok in H. destruct H as (retcode & sa & Hp & H).
  unfold proc_poll in Hp. apply pair_Ok_inv in Hp. destruct Hp as (Hret & Hsa).
  destruct retcode as [rc0|].
  - apply bind_Ok in H. destruct H as (u & sb & Hm & H).
    unfold modify in Hm. apply pair_Ok_inv in Hm. destruct Hm as (_ & Hsb).
    apply bind_Ok in H. destruct H as (tk & sc & Hc & H).
    unfold ret in H. apply pair_Ok_inv in H. destruct H as (Hv & Hs').
    injection Hv as Hrc Htk. subst rc task' s'.
    exists 0%nat, (S fuel), sb.
    split; [intros i Hi; lia|].
    split; [rewrite Nat.add_0_r; symmetry; assumption|].
    split; [subst sb sa; cbn; rewrite app_nil_r; reflexivity|].
    split; [subst sb; reflexivity|exact Hc].
  - apply bind_Ok in H. destruct H as (u & sb & Hs & H).
    unfold sleep in Hs. rewrite emit_run in Hs.
    apply pair_Ok_inv in Hs. destruct Hs as (_ & Hsb).
    apply IH in H. destruct H as (k & fuel0 & s0 & Hnone & Hsome & Ht & Hf & Hc).
    assert (Hscr : script sb = script s) by (subst sb sa; reflexivity).
    assert (Hpol : polls sb = S (polls s)) by (subst sb sa; reflexivity).
    assert (Htr : trace sb
                  = trace s ++ [EvSleep (work_proc_status_pull_interval_sec cfg)])
      by (subst sb sa; reflexivity).
    rewrite Hscr, Hpol in Hnone, Hsome.
    exists (S k), fuel0, s0.
    split.
    { intros [|i] Hi.
      - rewrite Nat.add_0_r. symmetry. assumption.
      - rewrite Nat.add_succ_r. apply Hnone. lia. }
    split; [rewrite Nat.add_succ_r; exact Hsome|].
    split; [rewrite Ht, Htr, <- app_assoc; reflexivity|].
    split; assumption.
Qed.

(** X16.  The local driver, when it returns: it has spawned
    [./mock_compute_engine] with the first three [worker_arguments], polled
    the child until the first poll that gave an exit code, sleeping
    [work_proc_status_pull_interval_sec] after each poll that gave none, and
    then committed the task with the stdout file as the artifact; it returns
    that exit code. *)
Theorem local_execution_polls_until_the_child_exits
  cfg fuel perf task sqs_msg task_def f_stdout f_stderr fname_stdout s rc
  task' s' :
  do_task_local_execution_thread cfg fuel perf task sqs_msg task_def f_stdout
    f_stderr fname_stdout s = (Ok (rc, task'), s') ->
  exists a0 a1 a2 k codes r total,
    worker_argument task_def 0 s = (Ok a0, s)
    /\ worker_argument task_def 1 s = (Ok a1, s)
    /\ worker_argument task_def 2 s = (Ok a2, s)
    /\ (forall i, (i < k)%nat -> proc_polls (script s) (polls s + i) = None)
    /\ proc_polls (script s) (polls s + k) = Some rc
    /\ Forall (fun c => is_throttling c = true) codes /\ settled r
    /\ trace s'
       = trace s
         ++ EvPopen [PStr "./mock_compute_engine"; a0; a1; a2]
         :: repeat (EvSleep (work_proc_status_pull_interval_sec cfg)) k
         ++ commit_events cfg perf task task' sqs_msg (Some fname_stdout) None
              codes r total.
Proof.
  unfold do_task_local_execution_thread. intros H.
  apply bind_Ok in H. destruct H as (a0 & sa & H0 & H).
  pose proof (worker_argument_Ok _ _ _ _ _ H0); subst sa.
  apply bind_Ok in H. destruct H as (a1 & sb & H1 & H).
  pose proof (worker_argument_Ok _ _ _ _ _ H1); subst sb.
  apply bind_Ok in H. destruct H as (a2 & sc & H2 & H).
  pose proof (worker_argument_Ok _ _ _ _ _ H2); subst sc.
  cbv zeta in H.
  apply bind_Ok in H. destruct H as (u & sd & Hpop & H).
  unfold Popen in Hpop. rewrite emit_run in Hpop.
  apply pair_Ok_inv in Hpop. destruct Hpop as (_ & Hsd).
  apply poll_loop_Ok in H.
  destruct H as (k & fuel0 & s0 & Hnone & Hsome & Ht & _ & Hc).
  apply process_subprocess_completion_trace in Hc.
  destruct Hc as (codes & r & total & Hall & Hset & _ & Hc).
  assert (Hscr : script sd = script s) by (subst sd; reflexivity).
  assert (Hpol : polls sd = polls s) by (subst sd; reflexivity).
  assert (Htr : trace sd
                = trace s ++ [EvPopen [PStr "./mock_compute_engine"; a0; a1; a2]])
    by (subst sd; reflexivity).
  rewrite Hscr, Hpol in Hnone, Hsome.
  exists a0, a1, a2, k, codes, r, total.
  repeat (split; [assumption|]).
  rewrite Hc, Ht, Htr, <- !app_assoc. reflexivity.
Qed.

Lemma local_execution_polls_until_the_child_exits_witness :
  do_task_local_execution_thread cfg0 5 perf_tracker_post (task_T1 staged_stats)
    (message_T1 staged_stats) worker_input "./stdout-T1.log" "./stderr-T1.log"
    "./stdout-T1.log" slow_child_world
  = (Ok (0, executed_task
              (fst (do_task_local_execution_thread cfg0 5 perf_tracker_post
                      (task_T1 staged_stats) (message_T1 staged_stats)
                      worker_input "./stdout-T1.log" "./stderr-T1.log"
                      "./stdout-T1.log" slow_child_world))),
     snd (do_task_local_execution_thread cfg0 5 perf_tracker_post
            (task_T1 staged_stats) (message_T1 staged_stats) worker_input
            "./stdout-T1.log" "./stderr-T1.log" "./stdout-T1.log"
            slow_child_world))
  /\ exists a0 a1 a2 k codes r total,
       worker_argument worker_input 0 slow_child_world
       = (Ok a0, slow_child_world)
       /\ worker_argument worker_input 1 slow_child_world
          = (Ok a1, slow_child_world)
       /\ worker_argument worker_input 2 slow_child_world
          = (Ok a2, slow_child_world)
       /\ (forall i, (i < k)%nat ->
           proc_polls (script slow_child_world) (polls slow_child_world + i)
           = None)
       /\ proc_polls (script slow_child_world) (polls slow_child_world + k)
          = Some 0
       /\ Forall (fun c => is_throttling c = true) codes /\ settled r
       /\ trace (snd (do_task_local_execution_thread cfg0 5 perf_tracker_post
                        (task_T1 staged_stats) (message_T1 staged_stats)
                        worker_input "./stdout-T1.log" "./stderr-T1.log"
                        "./stdout-T1.log" slow_child_world))
          = trace slow_child_world
            ++ EvPopen [PStr "./mock_compute_engine"; a0; a1; a2]
            :: repeat (EvSleep (work_proc_status_pull_interval_sec cfg0)) k
            ++ commit_events cfg0 perf_tracker_post (task_T1 staged_stats)
                 (executed_task
                    (fst (do_task_local_execution_thread cfg0 5
                            perf_tracker_post (task_T1 staged_stats)
                            (message_T1 staged_stats) worker_input
                            "./stdout-T1.log" "./stderr-T1.log"
                            "./stdout-T1.log" slow_child_world)))
                 (message_T1 staged_stats) (Some "./stdout-T1.log") None
                 codes r total.
Proof.
  match goal with |- ?run /\ _ =>
    assert (H : run) by (vm_compute; reflexivity)
  end.
  split; [exact H|].
  exact (local_execution_polls_until_the_child_exits cfg0 5 perf_tracker_post
           (task_T1 staged_stats) (message_T1 staged_stats) worker_input
           "./stdout-T1.log" "./stderr-T1.log" "./stdout-T1.log"
           slow_child_world _ _ _ H).
Defined.

Example local_execution_in_slow_child_world :
  firstn 4
    (trace (snd (do_task_local_execution_thread cfg0 5 perf_tracker_post
                   (task_T1 staged_stats) (message_T1 staged_stats)
                   worker_input "./stdout-T1.log" "./stderr-T1.log"
                   "./stdout-T1.log" slow_child_world)))
  = [EvPopen [PStr "./mock_compute_engine"; PStr "1000"; PStr "1"; PStr "1"];
     EvSleep (1 # 2); EvSleep (1 # 2); EvPutFile "T1" (Some "./stdout-T1.log")].
Proof. vm_compute. reflexivity. Qed.


(** ** Further properties of the supervisor loop and the committer *)

Lemma try_to_acquire_a_task_empty cfg s :
  queue s = [] ->
  try_to_acquire_a_task cfg s
  = (Ok None,
     set_trace (trace s ++ [EvReceive [];
                            EvCounterPre "agent_no_messages_in_tasks_queue" 1])
       (set_ticks (S (ticks s)) s)).
Proof.
  intros Hq. unfold try_to_acquire_a_task.
  assert (Hr : receive_messages 1 10 s
               = (Ok [], set_trace (trace s ++ [EvReceive []]) s)).
  { unfold receive_messages, bind, gets, emit, modify, ret. rewrite Hq.
    reflexivity. }
  rewrite (bind_run _ _ _ _ _ Hr). cbv beta.
  unfold bind, get_time_now_ms, time_time, ret, event_counter_pre_increment,
    emit, modify.
  cbn. rewrite <- app_assoc. reflexivity.
Qed.

Lemma uniform_range a b s t s' :
  (a <= b)%Q -> uniform a b s = (Ok t, s') ->
  (a <= t <= b)%Q /\ s' = set_draws (S (draws s)) s.
Proof.
  intros Hab H. unfold uniform, bind, draw, ret in H.
  apply pair_Ok_inv in H. destruct H as (Ht & Hs). split; [|exact Hs].
  subst t.
  set (q := (rand (script s) (draws s) mod 9007199254740992
             # 9007199254740992)%Q).
  assert (Hq : (0 <= q <= 1)%Q).
  { pose proof (Z.mod_pos_bound (rand (script s) (draws s)) 9007199254740992
                  eq_refl) as Hm.
    unfold q, Qle. cbn. lia. }
  destruct Hq as (Hq0 & Hq1).
  assert (H0 : (0 <= (b - a) * q)%Q) by (apply Qmult_le_0_compat; lra).
  assert (H1 : ((b - a) * q <= (b - a) * 1)%Q).
  { rewrite (Qmult_comm (b - a) q), (Qmult_comm (b - a) 1).
    apply Qmult_le_compat_r; lra. }
  split; lra.
Qed.

(** X17.  A turn of the loop that finds the queue empty: the agent has
    received nothing, counted [agent_no_messages_in_tasks_queue] and slept
    once, for a time between [empty_task_queue_backoff_timeout_sec] and twice
    that; the status table is not called. *)
Theorem empty_queue_backs_off_between_b_and_2b cfg fuel s :
  queue s = [] ->
  (0 <= empty_task_queue_backoff_timeout_sec cfg)%Q ->
  exists t s',
    event_loop_body cfg fuel s = (Ok tt, s')
    /\ (empty_task_queue_backoff_timeout_sec cfg <= t
        <= 2 * empty_task_queue_backoff_timeout_sec cfg)%Q
    /\ trace s' = trace s
                  ++ [EvReceive [];
                      EvCounterPre "agent_no_messages_in_tasks_queue" 1;
                      EvSleep t]
    /\ store_calls s' = store_calls s
    /\ status_table s' = status_table s
    /\ queue s' = [].
Proof.
  intros Hq Hb. unfold event_loop_body.
  rewrite (bind_run _ _ _ _ _ (try_to_acquire_a_task_empty cfg s Hq)).
  cbv beta iota.
  destruct (uniform (empty_task_queue_backoff_timeout_sec cfg)
              (2 * empty_task_queue_backoff_timeout_sec cfg)
              (set_trace
                 (trace s ++ [EvReceive [];
                              EvCounterPre "agent_no_messages_in_tasks_queue" 1])
                 (set_ticks (S (ticks s)) s))) as [r s1] eqn:Hu.
  assert (Hr : exists t, r = Ok t).
  { unfold uniform, bind, draw, ret in Hu. inversion Hu. eauto. }
  destruct Hr as (t & ->).
  pose proof Hu as Hrange. apply uniform_range in Hrange; [|lra].
  destruct Hrange as (Hrange & Hs1).
  exists t. eexists.
  split; [rewrite (bind_run _ _ _ _ _ Hu); unfold sleep; apply emit_run|].
  split; [exact Hrange|].
  subst s1. cbn. rewrite <- app_assoc. auto.
Qed.

Lemma empty_queue_backs_off_between_b_and_2b_witness :
  queue idle_world = []
  /\ (0 <= empty_task_queue_backoff_timeout_sec cfg0)%Q
  /\ exists t s',
       event_loop_body cfg0 5 idle_world = (Ok tt, s')
       /\ (empty_task_queue_backoff_timeout_sec cfg0 <= t
           <= 2 * empty_task_queue_backoff_timeout_sec cfg0)%Q
       /\ trace s' = trace idle_world
                     ++ [EvReceive [];
                         EvCounterPre "agent_no_messages_in_tasks_queue" 1;
                         EvSleep t]
       /\ store_calls s' = store_calls idle_world
       /\ status_table s' = status_table idle_world
       /\ queue s' = [].
Proof.
  assert (H1 : queue idle_world = []) by reflexivity.
  assert (H2 : (0 <= empty_task_queue_backoff_timeout_sec cfg0)%Q)
    by (cbn; lra).
  split; [exact H1|]. split; [exact H2|].
  exact (empty_queue_backs_off_between_b_and_2b cfg0 5 idle_world H1 H2).
Defined.

Lemma set_finished_loop_rejected cfg fuel task count s c :
  store_faults (script s) (store_calls s) = Some (Reject c) ->
  is_throttling c = true ->
  exists s1,
    set_finished_loop cfg (S fuel) task count s
    = set_finished_loop cfg fuel task (count + 1) s1
    /\ script s1 = script s /\ store_calls s1 = S (store_calls s).
Proof.
  intros Hf Hc. cbn [set_finished_loop].
  unfold dynamodb_update_task_status_to_finished, conditional_write,
    get_time_now_ms, next_fault, time_time, emit, modify, ret, bind.
  cbn [script store_calls set_ticks set_store_calls set_trace ticks trace].
  rewrite Hf, Hc. eexists. split; [reflexivity|]. split; reflexivity.
Qed.

Lemma set_finished_loop_throttled cfg task fuel : forall count s,
  (forall i, exists c,
     store_faults (script s) (i + store_calls s) = Some (Reject c)
     /\ is_throttling c = true) ->
  fst (set_finished_loop cfg fuel task count s) = OutOfFuel.
Proof.
  induction fuel as [|fuel IH]; intros count s Hthr; [reflexivity|].
  destruct (Hthr O) as (c & Hc & Hthc). cbn [Nat.add] in Hc.
  destruct (set_finished_loop_rejected cfg fuel task count s c Hc Hthc)
    as (s1 & -> & Hsc & Hst).
  apply IH. intros i. destruct (Hthr (S i)) as (c' & Hc' & Hthc').
  exists c'. rewrite Hsc, Hst.
  replace (i + S (store_calls s))%nat with (S i + store_calls s)%nat by lia.
  auto.
Qed.

(** X18.  The committer has no retry limit either: while the store refuses
    every call with a throttling code, [process_subprocess_completion] does
    not return, whatever the fuel. *)
Theorem completion_goes_on_while_throttled
  cfg fuel perf task sqs_msg fname stdout s task' :
  (forall i, exists c,
     store_faults (script s) (i + store_calls s) = Some (Reject c)
     /\ is_throttling c = true) ->
  fst (process_subprocess_completion cfg fuel perf task sqs_msg fname stdout s)
  <> Ok task'.
Proof.
  intros Hthr Hfst.
  destruct (process_subprocess_completion cfg fuel perf task sqs_msg fname
              stdout s) as [res s'] eqn:H.
  cbn [fst] in Hfst. subst res. unfold process_subprocess_completion in H.
  apply bind_Ok in H. destruct H as (now1 & sa & Hn1 & H).
  apply get_time_now_ms_Ok in Hn1. destruct Hn1 as (_ & Hsa).
  apply bind_Ok in H. destruct H as (t1 & sb & Hs1 & H).
  apply set_stage_tstmp_Ok in Hs1. destruct Hs1 as (Hsb & _).
  apply bind_Ok in H. destruct H as (u & sc & Hput & H).
  assert (Hsc : script sc = script sb /\ store_calls sc = store_calls sb).
  { destruct stdout; inv_run Hput; auto. }
  destruct Hsc as (Hsc & Htc).
  apply bind_Ok in H. destruct H as (now2 & sd & Hn2 & H).
  apply get_time_now_ms_Ok in Hn2. destruct Hn2 as (_ & Hsd).
  apply bind_Ok in H. destruct H as (t2 & se & Hs2 & H).
  apply set_stage_tstmp_Ok in Hs2. destruct Hs2 as (Hse & _).
  apply bind_Ok in H. destruct H as (r & sf & Hloop & _).
  pose proof (set_finished_loop_throttled cfg t2 fuel 0 se) as Hout.
  rewrite Hloop in Hout. cbn [fst] in Hout.
  assert (E1 : script se = script s).
  { rewrite Hse, Hsd. cbn [script set_ticks]. rewrite Hsc, Hsb, Hsa.
    reflexivity. }
  assert (E2 : store_calls se = store_calls s).
  { rewrite Hse, Hsd. cbn [store_calls set_ticks]. rewrite Htc, Hsb, Hsa.
    reflexivity. }
  rewrite E1, E2 in Hout. specialize (Hout Hthr). discriminate.
Qed.

Lemma completion_goes_on_while_throttled_witness :
  (forall i, exists c,
     store_faults (script congested_world) (i + store_calls congested_world)
     = Some (Reject c)
     /\ is_throttling c = true)
  /\ fst (process_subprocess_completion cfg0 7 perf_tracker_post
            (task_T1 staged_stats) (message_T1 staged_stats) None
            (Some "result") congested_world)
     <> Ok (task_T1 staged_stats).
Proof.
  assert (H : forall i, exists c,
            store_faults (script congested_world)
              (i + store_calls congested_world)
            = Some (Reject c)
            /\ is_throttling c = true).
  { intros i. exists "ProvisionedThroughputExceededException".
    split; reflexivity. }
  split; [exact H|].
  exact (completion_goes_on_while_throttled cfg0 7 perf_tracker_post
           (task_T1 staged_stats) (message_T1 staged_stats) None
           (Some "result") congested_world (task_T1 staged_stats) H).
Defined.

Example completion_in_congested_world :
  fst (process_subprocess_completion cfg0 7 perf_tracker_post
         (task_T1 staged_stats) (message_T1 staged_stats) None (Some "result")
         congested_world)
  = OutOfFuel.
Proof. vm_compute. reflexivity. Qed.

(** X19.  When the task's [stats] have an entry for [stage4_agent_01] but
    none for [stage4_agent_02], the committer raises [KeyError] right after
    the artifact put: the output is stored, but the finished write is not
    attempted and the message is not deleted. *)
Theorem missing_stage4_entry_stores_the_output_and_raises
  cfg fuel perf task sqs_msg fname stdout s d entry :
  stats task = PDict d ->
  dict_get "stage4_agent_01_user_code_finished_tstmp" d = Some (PDict entry) ->
  dict_get "stage4_agent_02_S3_stdout_delivered_tstmp" d = None ->
  exists s',
    process_subprocess_completion cfg fuel perf task sqs_msg fname stdout s
    = (Raise (KeyError "stage4_agent_02_S3_stdout_delivered_tstmp"), s')
    /\ trace s' = trace s ++ [artifact_put task fname stdout]
    /\ store_calls s' = store_calls s
    /\ status_table s' = status_table s
    /\ queue s' = queue s.
Proof.
  intros Hst H1 H2.
  pose (now1 := reading_ms (script s) (ticks s)).
  pose (sa := set_ticks (S (ticks s)) s).
  pose (t1 := mkTask (task_id task) (task_definition task) (sqs_handle_id task)
                (PDict (dict_set "stage4_agent_01_user_code_finished_tstmp"
                          (PDict (dict_set "tstmp" (PInt now1) entry)) d))).
  pose (sb := set_trace (trace sa ++ [artifact_put task fname stdout]) sa).
  pose (now2 := reading_ms (script s) (S (ticks s))).
  pose (sc := set_ticks (S (ticks sb)) sb).
  assert (E1 : get_time_now_ms s = (Ok now1, sa)) by reflexivity.
  assert (E2 : set_stage_tstmp task "stage4_agent_01_user_code_finished_tstmp"
                 now1 sa = (Ok t1, sa)).
  { unfold set_stage_tstmp. rewrite Hst, H1. reflexivity. }
  assert (E3 : match stdout with
               | Some out => put_output_from_bytes (task_id t1) (b64encode out)
               | None => put_output_from_file (task_id t1) fname
               end sa = (Ok tt, sb)).
  { destruct stdout; reflexivity. }
  assert (E4 : get_time_now_ms sb = (Ok now2, sc)) by reflexivity.
  assert (E5 : set_stage_tstmp t1 "stage4_agent_02_S3_stdout_delivered_tstmp"
                 now2 sc
               = (Raise (KeyError "stage4_agent_02_S3_stdout_delivered_tstmp"),
                  sc)).
  { unfold set_stage_tstmp. cbn [stats t1].
    rewrite dict_get_set_other by discriminate. rewrite H2. reflexivity. }
  exists sc. split.
  { unfold process_subprocess_completion.
    rewrite (bind_run _ _ _ _ _ E1). cbv beta.
    rewrite (bind_run _ _ _ _ _ E2). cbv beta.
    rewrite (bind_run _ _ _ _ _ E3). cbv beta.
    rewrite (bind_run _ _ _ _ _ E4). cbv beta.
    unfold bind at 1. rewrite E5. reflexivity. }
  repeat split; reflexivity.
Qed.

Lemma missing_stage4_entry_stores_the_output_and_raises_witness :
  stats (task_T1 (PDict half_staged)) = PDict half_staged
  /\ dict_get "stage4_agent_01_user_code_finished_tstmp" half_staged
     = Some (PDict [("label", PStr "stage4_agent_01_user_code_finished_tstmp");
                    ("tstmp", PInt 0)])
  /\ dict_get "stage4_agent_02_S3_stdout_delivered_tstmp" half_staged = None
  /\ exists s',
       process_subprocess_completion cfg0 5 perf_tracker_post
         (task_T1 (PDict half_staged)) (message_T1 (PDict half_staged)) None
         (Some "result") owned_world
       = (Raise (KeyError "stage4_agent_02_S3_stdout_delivered_tstmp"), s')
       /\ trace s' = trace owned_world
                     ++ [artifact_put (task_T1 (PDict half_staged)) None
                           (Some "result")]
       /\ store_calls s' = store_calls owned_world
       /\ status_table s' = status_table owned_world
       /\ queue s' = queue owned_world.
Proof.
  assert (H1 : stats (task_T1 (PDict half_staged)) = PDict half_staged)
    by reflexivity.
  assert (H2 : dict_get "stage4_agent_01_user_code_finished_tstmp" half_staged
               = Some (PDict [("label",
                               PStr "stage4_agent_01_user_code_finished_tstmp");
                              ("tstmp", PInt 0)]))
    by reflexivity.
  assert (H3 : dict_get "stage4_agent_02_S3_stdout_delivered_tstmp" half_staged
               = None)
    by reflexivity.
  split; [exact H1|]. split; [exact H2|]. split; [exact H3|].
  exact (missing_stage4_entry_stores_the_output_and_raises cfg0 5
           perf_tracker_post (task_T1 (PDict half_staged))
           (message_T1 (PDict half_staged)) None (Some "result") owned_world
           half_staged _ H1 H2 H3).
Defined.
